(** * Banco D'Paula: the account and transaction rules of both program variants

    The repository holds two implementations of one banking domain:
    - [conta_bancaria.py]: one class whose accounts and clients are
      dictionaries kept in two lists (module [V1] below);
    - [conta_bancaria_v2.py]: classes for clients, accounts, the ledger
      ([ImprimirExtrato]) and the transactions that register themselves
      (module [V2] below).

    Conventions of the embedding.
    - The source computes amounts with Python floats.  The modules [V2]
      and [V1] take amounts in [Z]: they carry the statements about the
      order of the tests, the growth of the ledger, the counters and the
      lists of clients and accounts.  The module [V2F] is the account of
      the class-based variant on binary64 amounts (rounding to nearest,
      infinities, NaN): it carries the statements about the amount of a
      balance.  The constants [500], [3] and [100] are the ones of the
      source.
    - A method that prints is a function that also returns the list of the
      messages it printed.  A message is identified by the tuple given to
      [emitir_mensagem] (severity and text); interpolated numbers are left
      out.  The error kinds of the specification are read off the messages:
      [Valor_invalido] is InvalidAmount, [Saldo_insuficiente] and
      [Saldo_insuficiente_para_saque] are InsufficientBalance,
      [Excede_limite] is LimitExceeded, [Maximo_saques_excedido] is
      DailyWithdrawalCapReached, [Cliente_ja_cadastrado] is DuplicateClient,
      [Cliente_nao_encontrado] is ClientNotFound, [Cliente_possui_contas] is
      ClientHasActiveAccounts.
    - [datetime.now()] and [input(...)] are arguments: the clock reading is a
      string, an answer typed by the user is the value the source obtains
      from it (stripped, in lower case, or converted to a number).
    - An object is the value of its attributes; a list of objects is the
      list of these values, and a method that changes an object returns the
      new value, which the caller puts back where the object is.  The
      objects of the class-based variant carry their identity, because its
      lists are searched by identity; the dictionaries of the other variant
      are compared by value, as Python does. *)

From stdpp Require Import base numbers list strings pretty.
From Stdlib Require Import SpecFloat QArith.

Open Scope Z_scope.

(** ** The messages of both variants *)

Inductive Mensagem : Type :=
| Saldo_insuficiente            (* 'Saldo insuficiente. ...' *)
| Saldo_insuficiente_para_saque (* 'Saldo insuficiente para realizar o saque.' *)
| Valor_invalido                (* 'Operação falhou! O valor informado é inválido.' *)
| Excede_limite                 (* 'Operação falhou! O saque excede o limite de R$ ...' *)
| Maximo_saques_excedido        (* 'Operação falhou! Número máximo de saques diário excedido.' *)
| Saque_realizado               (* 'Saque de R$... realizado! ...' *)
| Deposito_realizado            (* 'Depósito de R$... realizado! ...' *)
| Conta_nao_encontrada          (* 'Conta não encontrada.' *)
| Operacao_realizada            (* 'Operação realizada com sucesso!' (log_transacao) *)
| Cliente_ja_cadastrado         (* 'Cliente já cadastrado.' *)
| Cliente_cadastrado            (* 'Cliente ... cadastrado com sucesso.' *)
| Cliente_nao_encontrado        (* 'Cliente não encontrado.' *)
| Cliente_possui_contas         (* 'Cliente possui contas ativas.' *)
| Contas_excluidas              (* 'Todas as contas do cliente foram excluídas.' *)
| Exclusao_cancelada_contas     (* 'Exclusão do cliente cancelada devido a contas ativas.' *)
| Cliente_excluido              (* 'Cliente excluído com sucesso.' *)
| Exclusao_cancelada            (* 'Exclusão cancelada.' *)
| Cliente_e_contas_excluidos    (* 'Cliente e contas associadas excluídos com sucesso.' *)
| Deposito_minimo_necessario    (* 'Atenção! É necessário um depósito minimo de R$ ...' *)
| Falha_deposito                (* 'Falha ao processar o depósito.' *)
| Deposito_minimo_nao_atingido  (* 'Depósito mínimo não atingido. ...' *)
| Conta_criada                  (* 'Conta ... criada com sucesso!' *)
| Tipo_de_conta_invalido        (* 'O tipo de conta informado é inválido. ...' *)
| Usuario_nao_localizado        (* 'Usuário não localizado no banco.' *)
| Criacao_de_conta_cancelada.   (* 'Criação de conta cancelada.' *)

#[global] Instance Mensagem_eq_dec : EqDecision Mensagem.
Proof. solve_decision. Defined.

(** ** How a call ends *)

(** The exceptions that the modelled code can raise; none is caught. *)
Inductive Excecao : Type :=
| ValueError          (* [list.remove(x)]: x not in list *)
| TypeError           (* subscripting [None] *)
| UnboundLocalError   (* a local variable read before assignment *)
| EOFError.           (* [input()] with nothing left to read *)

(** A call returns a value, raises, or loops for ever; in each case the
    state it leaves (or has reached) and what it printed are kept. *)
Inductive Desfecho (A S : Type) : Type :=
| Retorna (a : A) (s : S) (impresso : list Mensagem)
| Levanta (e : Excecao) (s : S) (impresso : list Mensagem)
| Nao_termina (s : S) (impresso : list Mensagem).

Arguments Retorna {A S} a s impresso.
Arguments Levanta {A S} e s impresso.
Arguments Nao_termina {A S} s impresso.

(** What was printed before a call goes in front of what it prints. *)
Definition apos {A S : Type} (antes : list Mensagem) (d : Desfecho A S)
  : Desfecho A S :=
  match d with
  | Retorna a s out => Retorna a s (antes ++ out)
  | Levanta e s out => Levanta e s (antes ++ out)
  | Nao_termina s out => Nao_termina s (antes ++ out)
  end.

(** The state a call leaves. *)
Definition estado {A S : Type} (d : Desfecho A S) : S :=
  match d with
  | Retorna _ s _ | Levanta _ s _ | Nao_termina s _ => s
  end.

(** ** The class-based variant, [conta_bancaria_v2.py] *)

Module V2.

(** The two concrete transaction classes; a ledger entry stores the class
    name under ["tipo"]. *)
Inductive Transacao : Type := Saque | Deposito.

#[global] Instance Transacao_eq_dec : EqDecision Transacao.
Proof. solve_decision. Defined.

(** An entry of [ImprimirExtrato._transacoes]. *)
Record Registro : Type := mkRegistro {
  tipo : Transacao;
  valor : Z;
  data : string
}.

(** [ContaCorrente] adds [limite] and [limite_saque]; [ContaPoupanca] adds
    [deposito_minimo]. *)
Inductive Classe : Type :=
| ContaCorrente (limite limite_saque : Z)
| ContaPoupanca (deposito_minimo : Z).

(** An account object.  [oid] is the identity of the Python object: the
    classes define no [__eq__], so [==] on accounts (and [list.remove])
    compares identities.  [cliente] is the identity of the owner. *)
Record ContaBancaria : Type := mkConta {
  oid : nat;
  classe : Classe;
  agencia : string;
  cliente : nat;
  numero_conta : string;
  saldo : Z;
  extrato : list Registro
}.

(** [ContaCorrente(cliente=...)] and [ContaPoupanca(cliente=...)] with the
    default arguments of their [__init__]. *)
Definition nova_ContaCorrente (o cli : nat) : ContaBancaria :=
  mkConta o (ContaCorrente 500 3) "0001" cli "" 0 [].

Definition nova_ContaPoupanca (o cli : nat) : ContaBancaria :=
  mkConta o (ContaPoupanca 100) "0001" cli "" 0 [].

(** *** Methods as state transformers that print *)

Definition Metodo (A : Type) : Type :=
  ContaBancaria -> A * ContaBancaria * list Mensagem.

#[global] Instance Metodo_ret : MRet Metodo :=
  fun A a c => (a, c, []).

#[global] Instance Metodo_bind : MBind Metodo :=
  fun A B k m c =>
    let '(a, c1, out1) := m c in
    let '(b, c2, out2) := k a c1 in
    (b, c2, out1 ++ out2).

Definition print (m : Mensagem) : Metodo unit :=
  fun c => (tt, c, [m]).

Definition self : Metodo ContaBancaria :=
  fun c => (c, c, []).

(** [self.saldo = v] *)
Definition set_saldo (v : Z) : Metodo unit :=
  fun c => (tt, mkConta (oid c) (classe c) (agencia c) (cliente c)
                        (numero_conta c) v (extrato c), []).

(** [ImprimirExtrato.adicionar_transacao], on the account's own ledger. *)
Definition adicionar_transacao (t : Transacao) (v : Z) (agora : string)
  : Metodo unit :=
  fun c => (tt, mkConta (oid c) (classe c) (agencia c) (cliente c)
                        (numero_conta c) (saldo c)
                        (extrato c ++ [mkRegistro t v agora]), []).

(** [ContaBancaria.sacar] *)
Definition ContaBancaria_sacar (valor : Z) : Metodo bool :=
  c ← self;
  if decide (valor > saldo c) then
    print Saldo_insuficiente ;; mret false
  else if decide (valor > 0) then
    set_saldo (saldo c - valor) ;; print Saque_realizado ;; mret true
  else
    print Valor_invalido ;; mret false.

(** [ContaBancaria.depositar] *)
Definition ContaBancaria_depositar (valor : Z) : Metodo bool :=
  c ← self;
  if decide (valor <= 0) then
    print Valor_invalido ;; mret false
  else
    set_saldo (saldo c + valor) ;; print Deposito_realizado ;; mret true.

(** The number of entries of a ledger whose ["tipo"] is the given class
    name: [numero_saques] in [ContaCorrente.sacar], and the property
    [ContaPoupanca.numero_deposito]. *)
Definition numero_de (t : Transacao) (transacoes : list Registro) : Z :=
  Z.of_nat (length (filter (fun r => tipo r = t) transacoes)).

(** [ContaCorrente.sacar], for an account of that class. *)
Definition ContaCorrente_sacar (limite limite_saque : Z) (valor : Z)
  : Metodo bool :=
  c ← self;
  let numero_saques := numero_de Saque (extrato c) in
  let excedeu_limite := bool_decide (valor > limite) in
  let excedeu_saques := bool_decide (numero_saques >= limite_saque) in
  if excedeu_limite then
    print Excede_limite ;; mret false
  else if excedeu_saques then
    print Maximo_saques_excedido ;; mret false
  else
    ContaBancaria_sacar valor.

(** [ContaPoupanca.depositar]: the result of the inherited method is
    dropped, [True] is returned whenever [valor > 0]. *)
Definition ContaPoupanca_depositar (valor : Z) : Metodo bool :=
  if decide (valor > 0) then
    ContaBancaria_depositar valor ;; mret true
  else
    print Valor_invalido ;; mret false.

(** [conta.sacar(valor=valor)] and [conta.depositar(valor)]: the method of
    the account's class. *)
Definition conta_sacar (valor : Z) : Metodo bool :=
  fun c =>
    match classe c with
    | ContaCorrente limite limite_saque =>
        ContaCorrente_sacar limite limite_saque valor c
    | ContaPoupanca _ => ContaBancaria_sacar valor c
    end.

Definition conta_depositar (valor : Z) : Metodo bool :=
  fun c =>
    match classe c with
    | ContaCorrente _ _ => ContaBancaria_depositar valor c
    | ContaPoupanca _ => ContaPoupanca_depositar valor c
    end.

(** [Saque.registrar] and [Deposito.registrar]: the transaction object
    returned is given by its class and its value; [None] is Python's. *)
Definition Saque_registrar (valor : Z) (agora : string)
  : Metodo (option (Transacao * Z)) :=
  sucesso_transacao ← conta_sacar valor;
  if sucesso_transacao : bool then
    adicionar_transacao Saque valor agora ;; mret (Some (Saque, valor))
  else mret None.

Definition Deposito_registrar (valor : Z) (agora : string)
  : Metodo (option (Transacao * Z)) :=
  sucesso_transacao ← conta_depositar valor;
  if sucesso_transacao : bool then
    adicionar_transacao Deposito valor agora ;; mret (Some (Deposito, valor))
  else mret None.

(** [transacao_cls.registrar(conta, valor)], as [Cliente.realizar_transacao]
    calls it. *)
Definition registrar (transacao_cls : Transacao) (valor : Z) (agora : string)
  : Metodo (option (Transacao * Z)) :=
  match transacao_cls with
  | Saque => Saque_registrar valor agora
  | Deposito => Deposito_registrar valor agora
  end.

(** *** Sequences of calls on one account *)

(** One call [transacao_cls.registrar(conta, valor)], with the reading of
    the clock that [adicionar_transacao] takes. *)
Record Chamada : Type := mkChamada {
  chamada_cls : Transacao;
  chamada_valor : Z;
  chamada_agora : string
}.

(** The calls of a list, in order, on the same account object: the results
    returned and the account afterwards. *)
Fixpoint registrar_todas (chs : list Chamada) (c : ContaBancaria)
  : list (option (Transacao * Z)) * ContaBancaria :=
  match chs with
  | [] => ([], c)
  | ch :: resto =>
      let '(r, c1, _) :=
        registrar (chamada_cls ch) (chamada_valor ch) (chamada_agora ch) c in
      let '(rs, c2) := registrar_todas resto c1 in
      (r :: rs, c2)
  end.

(** What the program does to an account object: it registers a
    transaction (entries ['1'] and ['2'] of the menu), or calls
    [conta.depositar] directly (the opening of a savings account).  Nothing
    else in the file assigns to an account or to its ledger. *)
Inductive Operacao : Type :=
| Op_registrar (ch : Chamada)
| Op_depositar (valor : Z).

Definition operar (op : Operacao) (c : ContaBancaria) : ContaBancaria :=
  match op with
  | Op_registrar ch =>
      (registrar (chamada_cls ch) (chamada_valor ch) (chamada_agora ch) c).1.2
  | Op_depositar v => (conta_depositar v c).1.2
  end.

(** The operation is a withdrawal and it succeeds on this account. *)
Definition saque_bem_sucedido (op : Operacao) (c : ContaBancaria) : bool :=
  match op with
  | Op_registrar ch =>
      match chamada_cls ch with
      | Saque =>
          bool_decide
            (is_Some (registrar Saque (chamada_valor ch) (chamada_agora ch) c).1.1)
      | Deposito => false
      end
  | Op_depositar _ => false
  end.

(** The calls of a run that succeeded: those that returned a
    transaction. *)
Definition bem_sucedidas (rs : list (option (Transacao * Z))) : nat :=
  length (filter is_Some rs).

Definition operar_todas (ops : list Operacao) (c : ContaBancaria)
  : ContaBancaria :=
  foldl (fun c op => operar op c) c ops.

(** The signed amount of a ledger entry and the signed sum of a ledger. *)
Definition valor_com_sinal (r : Registro) : Z :=
  match tipo r with
  | Deposito => valor r
  | Saque => - valor r
  end.

Definition soma_extrato (transacoes : list Registro) : Z :=
  foldr (fun r acc => valor_com_sinal r + acc) 0 transacoes.

(** *** Clients and the bank *)

Inductive Pessoa : Type :=
| PessoaFisica (nome data_nascimento cpf : string)
| PessoaJuridica (razao_social cnpj : string).

(** A client object; [cliente_oid] is its identity, [contas] the list
    [Cliente.contas] of the account objects it owns. *)
Record Cliente : Type := mkCliente {
  cliente_oid : nat;
  pessoa : Pessoa;
  endereco : list string;
  numero : string;
  cep : string;
  contas : list ContaBancaria
}.

Definition set_contas (cs : list ContaBancaria) (cl : Cliente) : Cliente :=
  mkCliente (cliente_oid cl) (pessoa cl) (endereco cl) (numero cl) (cep cl) cs.

(** [Cliente.adicionar_conta] *)
Definition adicionar_conta (conta : ContaBancaria) (cl : Cliente) : Cliente :=
  set_contas (contas cl ++ [conta]) cl.

(** The state of a run: the list [Banco._clientes] (which
    [Banco.listar_clientes] hands out itself, not a copy, so that the
    functions of the menu change the bank through it), the class attribute
    [ContaBancaria.contador_contas] (prefix and suffix per kind of account)
    and the next identity an object creation receives. *)
Record Programa : Type := mkPrograma {
  banco_clientes : list Cliente;
  contador_corrente : Z * Z;
  contador_poupanca : Z * Z;
  proximo_oid : nat
}.

Definition programa_inicial : Programa :=
  mkPrograma [] (1234, 0) (4321, 0) 0%nat.

(** [Banco.adicionar_cliente] and [Banco.listar_contas], on the list of
    clients. *)
Definition adicionar_cliente (cl : Cliente) (clientes : list Cliente)
  : list Cliente :=
  clientes ++ [cl].

Definition listar_contas (clientes : list Cliente) : list ContaBancaria :=
  concat (contas <$> clientes).

(** [filtrar_cliente]: the first client whose [cpf], or whose [cnpj], is
    the identifier, with the position where it was found. *)
Definition tem_identificador (identificador : string) (cl : Cliente) : Prop :=
  match pessoa cl with
  | PessoaFisica _ _ cpf => cpf = identificador
  | PessoaJuridica _ cnpj => cnpj = identificador
  end.

#[global] Instance tem_identificador_dec i cl : Decision (tem_identificador i cl).
Proof. unfold tem_identificador. destruct (pessoa cl); apply _. Defined.

Definition filtrar_cliente (identificador : string) (clientes : list Cliente)
  : option (nat * Cliente) :=
  list_find (tem_identificador identificador) clientes.

(** The attribute that identifies a client: [cpf] or [cnpj]. *)
Definition identificador_de (cl : Cliente) : string :=
  match pessoa cl with
  | PessoaFisica _ _ cpf => cpf
  | PessoaJuridica _ cnpj => cnpj
  end.

(** [l.remove(x)] on a list of objects without [__eq__]: the first element
    that is the object [x] goes; [None] stands for [ValueError]. *)
Fixpoint remove {A : Type} (ident : A -> nat) (x : nat) (l : list A)
  : option (list A) :=
  match l with
  | [] => None
  | y :: l' =>
      if decide (ident y = x) then Some l'
      else cons y <$> remove ident x l'
  end.

(** *** The workflows of the menu *)

Inductive TipoConta : Type := corrente | poupanca.

Definition set_contador (tipo_conta : TipoConta) (v : Z * Z) (p : Programa)
  : Programa :=
  match tipo_conta with
  | corrente =>
      mkPrograma (banco_clientes p) v (contador_poupanca p) (proximo_oid p)
  | poupanca =>
      mkPrograma (banco_clientes p) (contador_corrente p) v (proximo_oid p)
  end.

Definition set_clientes (cls : list Cliente) (p : Programa) : Programa :=
  mkPrograma cls (contador_corrente p) (contador_poupanca p) (proximo_oid p).

(** An object is created: it takes the next identity. *)
Definition novo_oid (p : Programa) : nat * Programa :=
  (proximo_oid p,
   mkPrograma (banco_clientes p) (contador_corrente p) (contador_poupanca p)
              (S (proximo_oid p))).

(** [ContaBancaria.gerar_numero_conta] *)
Definition gerar_numero_conta (tipo_conta : TipoConta) (p : Programa)
  : string * Programa :=
  let '(prefixo, sufixo) :=
    match tipo_conta with
    | corrente => contador_corrente p
    | poupanca => contador_poupanca p
    end in
  (pretty prefixo +:+ "-" +:+ pretty sufixo,
   set_contador tipo_conta (prefixo, sufixo + 1) p).

Definition set_numero_conta (n : string) (c : ContaBancaria) : ContaBancaria :=
  mkConta (oid c) (classe c) (agencia c) (cliente c) n (saldo c) (extrato c).

(** The class method [ContaBancaria.criar_nova_conta]; [tipo_conta] is one
    of the two keys of [contador_contas], so no [ValueError] here. *)
Definition ContaBancaria_criar_nova_conta
    (cl : Cliente) (tipo_conta : TipoConta) (p : Programa)
  : ContaBancaria * Programa :=
  let '(numero_conta, p1) := gerar_numero_conta tipo_conta p in
  let '(o, p2) := novo_oid p1 in
  let conta :=
    match tipo_conta with
    | corrente => nova_ContaCorrente o (cliente_oid cl)
    | poupanca => nova_ContaPoupanca o (cliente_oid cl)
    end in
  (set_numero_conta numero_conta conta, p2).

(** The [while True] of [criar_nova_conta] for a savings account.
    [valores] are the numbers that the successive calls of
    [obter_valor_float] return; [valor] is the local variable of that name,
    unbound before the first reading. *)
Fixpoint deposito_inicial
    (valores : list Z) (valor : option Z) (conta : ContaBancaria)
  : Desfecho unit ContaBancaria :=
  if decide (numero_de Deposito (extrato conta) = 0) then
    match valores with
    | [] => Levanta EOFError conta [Deposito_minimo_necessario]
    | v :: resto =>
        if decide (v >= 100) then
          let '(sucesso, conta1, out) := conta_depositar v conta in
          if sucesso : bool then
            Retorna tt conta1 (Deposito_minimo_necessario :: out)
          else
            apos (Deposito_minimo_necessario :: out ++ [Falha_deposito])
                 (deposito_inicial resto (Some v) conta1)
        else
          apos [Deposito_minimo_necessario]
               (deposito_inicial resto (Some v) conta)
    end
  else
    match valor with
    | None => Levanta UnboundLocalError conta []
    | Some _ => Nao_termina conta [Deposito_minimo_nao_atingido]
    end.

(** The function [criar_nova_conta] of the menu.  [identificador] is the
    answer to the first prompt, [tipo_conta] what [_selecionar_tipo_conta]
    returns.  The second argument of the source, [contas], is not used by
    it. *)
Definition criar_nova_conta
    (identificador : string) (tipo_conta : TipoConta) (valores : list Z)
    (p : Programa)
  : Desfecho bool Programa :=
  match filtrar_cliente identificador (banco_clientes p) with
  | None => Retorna false p [Cliente_nao_encontrado]
  | Some (i, cl) =>
      let '(conta, p1) := ContaBancaria_criar_nova_conta cl tipo_conta p in
      let aberta :=
        match tipo_conta with
        | poupanca => deposito_inicial valores None conta
        | corrente => Retorna tt conta []
        end in
      match aberta with
      | Retorna _ conta1 out =>
          Retorna true
            (set_clientes (<[i := adicionar_conta conta1 cl]> (banco_clientes p1)) p1)
            (out ++ [Conta_criada])
      | Levanta e _ out => Levanta e p1 out
      | Nao_termina _ out => Nao_termina p1 out
      end
  end.

(** What [cadastrar_cliente] has gathered from the prompts and from the
    address lookup when it builds the client object. *)
Record Ficha : Type := mkFicha {
  ficha_pessoa : Pessoa;
  ficha_endereco : list string;
  ficha_numero : string;
  ficha_cep : string
}.

Definition ficha_identificador (f : Ficha) : string :=
  match ficha_pessoa f with
  | PessoaFisica _ _ cpf => cpf
  | PessoaJuridica _ cnpj => cnpj
  end.

(** The function [cadastrar_cliente] of the menu, for a natural person and
    for a legal one: the identifier is looked up before anything else is
    asked. *)
Definition cadastrar_cliente (f : Ficha) (p : Programa)
  : Programa * list Mensagem :=
  match filtrar_cliente (ficha_identificador f) (banco_clientes p) with
  | Some _ => (p, [Cliente_ja_cadastrado])
  | None =>
      let '(o, p1) := novo_oid p in
      let cl := mkCliente o (ficha_pessoa f) (ficha_endereco f)
                          (ficha_numero f) (ficha_cep f) [] in
      (set_clientes (banco_clientes p1 ++ [cl]) p1, [Cliente_cadastrado])
  end.

(** A run of registrations through the menu. *)
Definition cadastrar_todos (fs : list Ficha) (p : Programa) : Programa :=
  foldl (fun p f => (cadastrar_cliente f p).1) p fs.

(** The [for conta in cliente.contas[:]] of [excluir_cliente]: each account
    of the copy is removed from the list [contas] of the caller and from
    [cliente.contas].  The
    result is [cliente.contas] at the end, or, after a [ValueError], what it
    was when the exception was raised. *)
Fixpoint excluir_contas
    (copia lista_contas cliente_contas : list ContaBancaria)
  : list ContaBancaria + list ContaBancaria :=
  match copia with
  | [] => inr cliente_contas
  | conta :: resto =>
      match remove oid (oid conta) lista_contas with
      | None => inl cliente_contas
      | Some contas1 =>
          match remove oid (oid conta) cliente_contas with
          | None => inl cliente_contas
          | Some cliente_contas1 => excluir_contas resto contas1 cliente_contas1
          end
      end
  end.

(** The function [excluir_cliente] of the menu.  [clientes] is the list of
    the bank itself and the result is what that list has become;
    [lista_contas] is its parameter [contas], a list of the caller.
    [confirmar_contas] and [confirmar_cliente] are the answers to the two
    prompts, stripped and in lower case. *)
Definition excluir_cliente
    (clientes : list Cliente) (lista_contas : list ContaBancaria)
    (identificador confirmar_contas confirmar_cliente : string)
  : Desfecho unit (list Cliente) :=
  match filtrar_cliente identificador clientes with
  | None => Retorna tt clientes [Cliente_nao_encontrado]
  | Some (i, cl) =>
      let excluir (clientes1 : list Cliente) (antes : list Mensagem) :=
        if decide (confirmar_cliente = "s") then
          match remove cliente_oid (cliente_oid cl) clientes1 with
          | Some clientes2 => Retorna tt clientes2 (antes ++ [Cliente_excluido])
          | None => Levanta ValueError clientes1 antes
          end
        else Retorna tt clientes1 (antes ++ [Exclusao_cancelada]) in
      match contas cl with
      | [] => excluir clientes []
      | _ :: _ =>
          if decide (confirmar_contas = "s") then
            match excluir_contas (contas cl) lista_contas (contas cl) with
            | inr restantes =>
                excluir (<[i := set_contas restantes cl]> clientes)
                        [Cliente_possui_contas; Contas_excluidas]
            | inl restantes =>
                Levanta ValueError (<[i := set_contas restantes cl]> clientes)
                        [Cliente_possui_contas]
            end
          else
            Retorna tt clientes
                    [Cliente_possui_contas; Exclusao_cancelada_contas]
      end
  end.

(** [buscar_conta] of the class-based variant: the first account of the
    list whose number is the string, with its position in the list. *)
Definition buscar_conta (conta_bancaria : list ContaBancaria)
    (numero_conta_ : string)
  : option (nat * ContaBancaria) :=
  list_find (fun conta => numero_conta conta = numero_conta_) conta_bancaria.

(** The functions [sacar] and [depositar] of the menu.  The list given
    holds the account objects themselves; the result holds the list with
    the object that the transaction has changed.  [numero_conta_] and
    [valor] are the answers to the prompts. *)
Definition sacar (conta_bancaria : list ContaBancaria)
    (numero_conta_ : string) (valor : Z) (agora : string)
  : bool * list ContaBancaria * list Mensagem :=
  match buscar_conta conta_bancaria numero_conta_ with
  | None => (false, conta_bancaria, [Conta_nao_encontrada])
  | Some (k, conta) =>
      if decide (valor <= 0) then (false, conta_bancaria, [Valor_invalido])
      else if decide (valor > saldo conta) then
        (false, conta_bancaria, [Saldo_insuficiente_para_saque])
      else
        let '(transacao, conta1, out) := Saque_registrar valor agora conta in
        (bool_decide (is_Some transacao), <[k := conta1]> conta_bancaria, out)
  end.

Definition depositar (conta_bancaria : list ContaBancaria)
    (numero_conta_ : string) (valor : Z) (agora : string)
  : bool * list ContaBancaria * list Mensagem :=
  match buscar_conta conta_bancaria numero_conta_ with
  | None => (false, conta_bancaria, [Conta_nao_encontrada])
  | Some (k, conta) =>
      if decide (valor <= 0) then (false, conta_bancaria, [Valor_invalido])
      else
        let '(transacao, conta1, out) := Deposito_registrar valor agora conta in
        (bool_decide (is_Some transacao), <[k := conta1]> conta_bancaria, out)
  end.

(** [Banco.listar_contas] builds a new list of the same account objects:
    what a call does to an object of that list is seen in the list
    [contas] of its owner.  [repartir] gives each client its stretch of the
    list back. *)
Fixpoint repartir (todas : list ContaBancaria) (clientes : list Cliente)
  : list Cliente :=
  match clientes with
  | [] => []
  | cl :: resto =>
      set_contas (take (length (contas cl)) todas) cl
      :: repartir (drop (length (contas cl)) todas) resto
  end.

(** Entries ['1'] and ['2'] of the menu in [iniciar]:
    [sacar(banco.listar_contas())] and [depositar(banco.listar_contas())]. *)
Definition opcao_1 (numero_conta_ : string) (valor : Z) (agora : string)
    (p : Programa)
  : bool * Programa * list Mensagem :=
  let '(r, todas, out) :=
    sacar (listar_contas (banco_clientes p)) numero_conta_ valor agora in
  (r, set_clientes (repartir todas (banco_clientes p)) p, out).

Definition opcao_2 (numero_conta_ : string) (valor : Z) (agora : string)
    (p : Programa)
  : bool * Programa * list Mensagem :=
  let '(r, todas, out) :=
    depositar (listar_contas (banco_clientes p)) numero_conta_ valor agora in
  (r, set_clientes (repartir todas (banco_clientes p)) p, out).

(** What holds of the list of clients that a run builds: each client
    object and each account object appears once, and no two clients have
    the same identifier (see [cadastrar_cliente]). *)
Definition bem_formado (clientes : list Cliente) : Prop :=
  NoDup (cliente_oid <$> clientes)
  /\ NoDup (identificador_de <$> clientes)
  /\ NoDup (oid <$> listar_contas clientes).

(** Entry ['9'] of the menu in [iniciar]:
    [excluir_cliente(banco.listar_clientes(), banco.listar_contas())]. *)
Definition opcao_9
    (identificador confirmar_contas confirmar_cliente : string) (p : Programa)
  : Desfecho unit Programa :=
  match excluir_cliente (banco_clientes p) (listar_contas (banco_clientes p))
                        identificador confirmar_contas confirmar_cliente with
  | Retorna a cls out => Retorna a (set_clientes cls p) out
  | Levanta e cls out => Levanta e (set_clientes cls p) out
  | Nao_termina cls out => Nao_termina (set_clientes cls p) out
  end.

(** The entries of the menu that change clients or accounts, with the
    answers typed: ['1'], ['2'], ['4'], ['6'] and ['9'].  (Entries ['3'],
    ['7'] and ['10'] only print; ['8'] rewrites names, birth date and
    address.) *)
Inductive Escolha : Type :=
| Sacar (numero_conta_ : string) (valor : Z) (agora : string)
| Depositar (numero_conta_ : string) (valor : Z) (agora : string)
| Criar_conta (identificador : string) (tipo_conta : TipoConta)
              (valores : list Z)
| Cadastrar (f : Ficha)
| Excluir (identificador confirmar_contas confirmar_cliente : string).

Definition escolher (e : Escolha) (p : Programa) : Programa :=
  match e with
  | Sacar n v t => (opcao_1 n v t p).1.2
  | Depositar n v t => (opcao_2 n v t p).1.2
  | Criar_conta i t vs => estado (criar_nova_conta i t vs p)
  | Cadastrar f => (cadastrar_cliente f p).1
  | Excluir i a c => estado (opcao_9 i a c p)
  end.

Definition escolher_todas (es : list Escolha) (p : Programa) : Programa :=
  foldl (fun p e => escolher e p) p es.

(** Every object of the bank was created before the next identity. *)
Definition invariante (p : Programa) : Prop :=
  bem_formado (banco_clientes p)
  /\ Forall (fun o => (o < proximo_oid p)%nat)
            (cliente_oid <$> banco_clientes p)
  /\ Forall (fun o => (o < proximo_oid p)%nat)
            (oid <$> listar_contas (banco_clientes p)).

(** *** What the rules of an account amount to *)

(** The conditions that [conta.sacar(valor=valor)] tests, by class: those
    of [ContaCorrente.sacar] and those of [ContaBancaria.sacar]. *)
Definition saque_aceito (valor : Z) (c : ContaBancaria) : Prop :=
  0 < valor /\ valor <= saldo c
  /\ match classe c with
     | ContaCorrente limite limite_saque =>
         valor <= limite /\ numero_de Saque (extrato c) < limite_saque
     | ContaPoupanca _ => True
     end.

(** The account after a withdrawal, after a deposit, and after the entry
    of a transaction is appended to its ledger. *)
Definition com_saldo (s : Z) (c : ContaBancaria) : ContaBancaria :=
  mkConta (oid c) (classe c) (agencia c) (cliente c) (numero_conta c) s
          (extrato c).

Definition com_registro (r : Registro) (c : ContaBancaria) : ContaBancaria :=
  mkConta (oid c) (classe c) (agencia c) (cliente c) (numero_conta c) (saldo c)
          (extrato c ++ [r]).

(** What a ledger of an account looks like when every entry came from a
    transaction that its account accepted. *)
Definition extrato_coerente (c : ContaBancaria) : Prop :=
  Forall (fun r => 0 < valor r) (extrato c)
  /\ match classe c with
     | ContaCorrente limite limite_saque =>
         numero_de Saque (extrato c) <= Z.max 0 limite_saque
         /\ Forall (fun r => tipo r = Saque -> valor r <= limite) (extrato c)
     | ContaPoupanca _ => True
     end.

(** *** What a run of the menu keeps *)

(** An account as [criar_nova_conta] attaches it to a client of the
    program [p]: the object just created, numbered from the counter of its
    kind, with an empty ledger; a current account with the default limits
    and balance zero, a savings account with the opening deposit as its
    balance. *)
Definition conta_nova (p : Programa) (c : ContaBancaria) : Prop :=
  oid c = proximo_oid p
  /\ extrato c = []
  /\ agencia c = "0001"
  /\ ((classe c = ContaCorrente 500 3
       /\ saldo c = 0
       /\ numero_conta c
          = pretty (contador_corrente p).1 +:+ "-"
            +:+ pretty (contador_corrente p).2)
      \/ (classe c = ContaPoupanca 100
          /\ 100 <= saldo c
          /\ numero_conta c
             = pretty (contador_poupanca p).1 +:+ "-"
               +:+ pretty (contador_poupanca p).2)).

(** The account numbers of the bank: each one is the prefix of its kind,
    a dash and a suffix below the counter of that kind; no two accounts have
    the same. *)
Definition numero_emitido (p : Programa) (c : ContaBancaria) : Prop :=
  exists k,
    0 <= k
    /\ ((k < (contador_corrente p).2
         /\ numero_conta c = "1234-" +:+ pretty k)
        \/ (k < (contador_poupanca p).2
            /\ numero_conta c = "4321-" +:+ pretty k)).

Definition numeracao (p : Programa) : Prop :=
  (contador_corrente p).1 = 1234
  /\ (contador_poupanca p).1 = 4321
  /\ 0 <= (contador_corrente p).2
  /\ 0 <= (contador_poupanca p).2
  /\ Forall (numero_emitido p) (listar_contas (banco_clientes p))
  /\ NoDup (numero_conta <$> listar_contas (banco_clientes p)).

(** What holds of every account of the bank: the balance is not negative,
    the ledger is as the rules leave it, the limits are the default ones;
    the balance of a current account is the sum of its ledger, the one of a
    savings account is above it by the opening deposit, of at least 100. *)
Definition conta_regular (c : ContaBancaria) : Prop :=
  0 <= saldo c
  /\ extrato_coerente c
  /\ match classe c with
     | ContaCorrente limite limite_saque =>
         limite = 500 /\ limite_saque = 3
         /\ saldo c = soma_extrato (extrato c)
     | ContaPoupanca deposito_minimo =>
         deposito_minimo = 100
         /\ 100 <= saldo c - soma_extrato (extrato c)
     end.

(** Every account in the list of a client refers back to that client:
    [conta.cliente] is the client whose [contas] holds the account. *)
Definition posse (clientes : list Cliente) : Prop :=
  Forall (fun cl => Forall (fun conta => cliente conta = cliente_oid cl)
                           (contas cl))
         clientes.

End V2.

(** ** The dictionary-based variant, [conta_bancaria.py] *)

Module V1.

Inductive TipoConta : Type := corrente | poupanca.

(** A client: the dictionary with the keys ['nome'], ['data_nascimento'],
    ['cpf'] and ['endereco'].  Dictionaries are compared by value. *)
Record Cliente : Type := mkCliente {
  nome : string;
  data_nascimento : string;
  cpf : string;
  endereco : list string
}.

#[global] Instance Cliente_eq_dec : EqDecision Cliente.
Proof. solve_decision. Defined.

(** A line of an account's ['extrato']: the text holds the clock reading,
    which of the two operations it was and the amount. *)
Inductive Movimento : Type := Saque | Deposito.

Record Linha : Type := mkLinha {
  data : string;
  movimento : Movimento;
  valor : Z
}.

(** An account: the dictionary built by [criar_conta].  ['cliente'] is
    [None] when the client given to it was not found; the key
    ['saques_diarios'] is absent until the first withdrawal. *)
Record Conta : Type := mkConta {
  agencia : string;
  numero_conta : Z;
  cliente : option Cliente;
  tipo_conta : TipoConta;
  saldo : Z;
  extrato : list Linha;
  saques_diarios : option Z
}.

(** The object of class [ContaBancaria]: the attributes that its methods
    read ([self.saldo], [self.numero_saques] and [self.extrato] are set by
    [__init__] and never used). *)
Record ContaBancaria : Type := mkBanco {
  limite : Z;
  limite_saques : Z;
  contas : list Conta;
  clientes : list Cliente;
  contador_contas : Z * Z;
  AGENCIA : string
}.

(** [ContaBancaria()] *)
Definition banco_inicial : ContaBancaria :=
  mkBanco 500 3 [] [] (1000, 5000) "0001".

Definition set_contas (cs : list Conta) (b : ContaBancaria) : ContaBancaria :=
  mkBanco (limite b) (limite_saques b) cs (clientes b) (contador_contas b)
          (AGENCIA b).

Definition set_clientes (cls : list Cliente) (b : ContaBancaria)
  : ContaBancaria :=
  mkBanco (limite b) (limite_saques b) (contas b) cls (contador_contas b)
          (AGENCIA b).

(** [conta.get("saques_diarios", 0)] *)
Definition get_saques_diarios (conta : Conta) : Z :=
  default 0 (saques_diarios conta).

(** [buscar_conta]: the first account whose agency and whose number,
    written in decimal, are the two strings; with its position in
    [self.contas]. *)
Definition buscar_conta (agencia_ numero_conta_ : string) (b : ContaBancaria)
  : option (nat * Conta) :=
  list_find
    (fun conta => agencia conta = agencia_
                  /\ pretty (numero_conta conta) = numero_conta_)
    (contas b).

(** The decorator [log_transacao]: the message of success is printed when
    the decorated function returns a true value; the wrapper itself returns
    nothing. *)
Definition log_transacao {S : Type} (func : S -> bool * S * list Mensagem)
  : S -> S * list Mensagem :=
  fun s =>
    let '(resultado, s1, out) := func s in
    (s1, if resultado then out ++ [Operacao_realizada] else out).

(** The account after the three assignments that end [sacar]. *)
Definition conta_apos_saque (valor : Z) (agora : string) (conta : Conta)
  : Conta :=
  mkConta (agencia conta) (numero_conta conta) (cliente conta)
          (tipo_conta conta) (saldo conta - valor)
          (extrato conta ++ [mkLinha agora Saque valor])
          (Some (get_saques_diarios conta + 1)).

(** The body of [ContaBancaria.sacar]; [numero_conta_] is the answer to
    its prompt, stripped. *)
Definition sacar_corpo (numero_conta_ : string) (valor : Z) (agora : string)
    (b : ContaBancaria)
  : bool * ContaBancaria * list Mensagem :=
  match buscar_conta (AGENCIA b) numero_conta_ b with
  | None => (false, b, [Conta_nao_encontrada])
  | Some (i, conta) =>
      if decide (valor <= 0) then (false, b, [Valor_invalido])
      else if decide (valor > saldo conta) then (false, b, [Saldo_insuficiente])
      else if decide (valor > limite b) then (false, b, [Excede_limite])
      else if decide (get_saques_diarios conta >= limite_saques b) then
        (false, b, [Maximo_saques_excedido])
      else
        (true,
         set_contas (<[i := conta_apos_saque valor agora conta]> (contas b)) b,
         [])
  end.

Definition sacar (numero_conta_ : string) (valor : Z) (agora : string)
  : ContaBancaria -> ContaBancaria * list Mensagem :=
  log_transacao (sacar_corpo numero_conta_ valor agora).

(** The account after the two assignments that end [depositar]. *)
Definition conta_apos_deposito (valor : Z) (agora : string) (conta : Conta)
  : Conta :=
  mkConta (agencia conta) (numero_conta conta) (cliente conta)
          (tipo_conta conta) (saldo conta + valor)
          (extrato conta ++ [mkLinha agora Deposito valor])
          (saques_diarios conta).

(** The body of [ContaBancaria.depositar]. *)
Definition depositar_corpo (numero_conta_ : string) (valor : Z)
    (agora : string) (b : ContaBancaria)
  : bool * ContaBancaria * list Mensagem :=
  match buscar_conta (AGENCIA b) numero_conta_ b with
  | None => (false, b, [Conta_nao_encontrada])
  | Some (i, conta) =>
      if decide (valor <= 0) then (false, b, [Valor_invalido])
      else
        (true,
         set_contas (<[i := conta_apos_deposito valor agora conta]> (contas b)) b,
         [])
  end.

Definition depositar (numero_conta_ : string) (valor : Z) (agora : string)
  : ContaBancaria -> ContaBancaria * list Mensagem :=
  log_transacao (depositar_corpo numero_conta_ valor agora).

(** The two operations that write into an account dictionary, and a run
    of them. *)
Inductive Operacao : Type :=
| Op_sacar (numero_conta_ : string) (valor : Z) (agora : string)
| Op_depositar (numero_conta_ : string) (valor : Z) (agora : string).

Definition operar (op : Operacao) (b : ContaBancaria) : ContaBancaria :=
  match op with
  | Op_sacar n v t => (sacar n v t b).1
  | Op_depositar n v t => (depositar n v t b).1
  end.

Definition operar_todas (ops : list Operacao) (b : ContaBancaria)
  : ContaBancaria :=
  foldl (fun b op => operar op b) b ops.

(** [filtrar_cliente] *)
Definition filtrar_cliente (cpf_ : string) (b : ContaBancaria)
  : option Cliente :=
  snd <$> list_find (fun cl => cpf cl = cpf_) (clientes b).

(** [ContaBancaria.cadastrar_cliente]; the client given is the dictionary
    that the answers to its prompts and the address lookup make up. *)
Definition cadastrar_cliente (ficha : Cliente) (b : ContaBancaria)
  : ContaBancaria * list Mensagem :=
  match filtrar_cliente (cpf ficha) b with
  | Some _ => (b, [Cliente_ja_cadastrado])
  | None => (set_clientes (clientes b ++ [ficha]) b, [Cliente_cadastrado])
  end.

Definition cadastrar_todos (fichas : list Cliente) (b : ContaBancaria)
  : ContaBancaria :=
  foldl (fun b f => (cadastrar_cliente f b).1) b fichas.

(** [ContaBancaria.criar_conta].  [tipo_conta_] is its argument in lower
    case; [cpf_] and [opcao] are the answers to its prompts (the second one
    asked only when the client is not found); [ficha] holds the answers to
    the prompts of the [cadastrar_cliente] that it then calls, which asks
    for the CPF again.  The result is the account returned, if any. *)
Definition criar_conta (agencia_ tipo_conta_ cpf_ opcao : string)
    (ficha : Cliente) (b : ContaBancaria)
  : option Conta * ContaBancaria * list Mensagem :=
  let abrir (tipo : TipoConta) :=
    let continuar (cl : option Cliente) (b1 : ContaBancaria)
                  (antes : list Mensagem) :=
      let '(cc, cp) := contador_contas b1 in
      let numero := match tipo with corrente => cc | poupanca => cp end in
      let contador1 :=
        match tipo with corrente => (cc + 1, cp) | poupanca => (cc, cp + 1) end in
      let conta := mkConta agencia_ numero cl tipo 0 [] None in
      (Some conta,
       mkBanco (limite b1) (limite_saques b1) (contas b1 ++ [conta])
               (clientes b1) contador1 (AGENCIA b1),
       antes ++ [Conta_criada]) in
    match filtrar_cliente cpf_ b with
    | Some cl => continuar (Some cl) b []
    | None =>
        if decide (opcao = "s") then
          let '(b1, out) := cadastrar_cliente ficha b in
          continuar (filtrar_cliente cpf_ b1) b1 (Usuario_nao_localizado :: out)
        else (None, b, [Usuario_nao_localizado; Criacao_de_conta_cancelada])
    end in
  if decide (tipo_conta_ = "c") then abrir corrente
  else if decide (tipo_conta_ = "p") then abrir poupanca
  else (None, b, [Tipo_de_conta_invalido]).

(** [l.remove(x)] on a list of dictionaries: the first element equal to
    [x] goes; [None] stands for [ValueError]. *)
Fixpoint remove (x : Cliente) (l : list Cliente) : option (list Cliente) :=
  match l with
  | [] => None
  | y :: l' => if decide (y = x) then Some l' else cons y <$> remove x l'
  end.

(** [[conta for conta in self.contas if conta["cliente"]["cpf"] != cpf]];
    [None] stands for the [TypeError] of [None["cpf"]]. *)
Fixpoint contas_de_outros (cpf_ : string) (l : list Conta)
  : option (list Conta) :=
  match l with
  | [] => Some []
  | conta :: l' =>
      match cliente conta with
      | None => None
      | Some cl =>
          resto ← contas_de_outros cpf_ l';
          Some (if decide (cpf cl ≠ cpf_) then conta :: resto else resto)
      end
  end.

(** [ContaBancaria.excluir_cliente]; [cpf_] and [opcao] are the answers to
    its two prompts, the second one stripped and in lower case. *)
Definition excluir_cliente (cpf_ opcao : string) (b : ContaBancaria)
  : Desfecho unit ContaBancaria :=
  match filtrar_cliente cpf_ b with
  | Some cl =>
      if decide (opcao = "s") then
        match remove cl (clientes b) with
        | None => Levanta ValueError b []
        | Some cls =>
            let b1 := set_clientes cls b in
            match contas_de_outros cpf_ (contas b1) with
            | None => Levanta TypeError b1 []
            | Some cs =>
                Retorna tt (set_contas cs b1) [Cliente_e_contas_excluidos]
            end
        end
      else Retorna tt b []
  | None => Retorna tt b [Cliente_nao_encontrado]
  end.

(** *** Runs of calls *)

(** [ContaBancaria(limite=..., limite_saques=..., agencia=...)]; the
    parameter [saldo] sets an attribute that no method reads. *)
Definition novo_banco (limite_ limite_saques_ : Z) (agencia_ : string)
  : ContaBancaria :=
  mkBanco limite_ limite_saques_ [] [] (1000, 5000) agencia_.

(** The calls of the methods that change the bank, with the answers typed
    at their prompts.  ([imprimir_extrato] and [exibir_cliente] print;
    [atualizar_cliente] rewrites the name and the address of a client.) *)
Inductive Chamada : Type :=
| Sacar (numero_conta_ : string) (valor : Z) (agora : string)
| Depositar (numero_conta_ : string) (valor : Z) (agora : string)
| Cadastrar (ficha : Cliente)
| Criar_conta (agencia_ tipo_conta_ cpf_ opcao : string) (ficha : Cliente)
| Excluir (cpf_ opcao : string).

Definition chamar (ch : Chamada) (b : ContaBancaria) : ContaBancaria :=
  match ch with
  | Sacar n v t => (sacar n v t b).1
  | Depositar n v t => (depositar n v t b).1
  | Cadastrar ficha => (cadastrar_cliente ficha b).1
  | Criar_conta a t c o ficha => (criar_conta a t c o ficha b).1.2
  | Excluir c o => estado (excluir_cliente c o b)
  end.

Definition chamar_todas (chs : list Chamada) (b : ContaBancaria)
  : ContaBancaria :=
  foldl (fun b ch => chamar ch b) b chs.

(** The signed amount of a line, the signed sum of the lines of an
    ['extrato'] and the number of its withdrawals. *)
Definition valor_com_sinal (l : Linha) : Z :=
  match movimento l with
  | Deposito => valor l
  | Saque => - valor l
  end.

Definition soma_linhas (ls : list Linha) : Z :=
  foldr (fun l acc => valor_com_sinal l + acc) 0 ls.

Definition numero_de_saques (ls : list Linha) : Z :=
  foldr (fun l acc => match movimento l with
                      | Saque => 1 + acc
                      | Deposito => acc
                      end) 0 ls.

(** The conditions under which [sacar] changes the account found. *)
Definition saque_aceito (b : ContaBancaria) (valor : Z) (conta : Conta)
  : Prop :=
  0 < valor /\ valor <= saldo conta /\ valor <= limite b
  /\ get_saques_diarios conta < limite_saques b.

(** What holds of every account dictionary of a bank: the balance is the
    signed sum of the lines and is not negative; the counter of withdrawals
    is the number of withdrawals among the lines and has not passed the
    limit; every line has a positive amount, a withdrawal one within the
    ceiling; an account of another agency than the bank's has never
    moved. *)
Definition conta_coerente (b : ContaBancaria) (conta : Conta) : Prop :=
  0 <= saldo conta
  /\ saldo conta = soma_linhas (extrato conta)
  /\ get_saques_diarios conta = numero_de_saques (extrato conta)
  /\ get_saques_diarios conta <= Z.max 0 (limite_saques b)
  /\ Forall (fun l => 0 < valor l
                      /\ (movimento l = Saque -> valor l <= limite b))
            (extrato conta)
  /\ (agencia conta <> AGENCIA b -> extrato conta = []).

(** The account numbers of a bank: those of each kind lie between the
    first number of the kind and its counter, and no two accounts of the
    same kind have the same number. *)
Definition numeracao (b : ContaBancaria) : Prop :=
  1000 <= (contador_contas b).1
  /\ 5000 <= (contador_contas b).2
  /\ Forall (fun conta =>
               match tipo_conta conta with
               | corrente =>
                   1000 <= numero_conta conta < (contador_contas b).1
               | poupanca =>
                   5000 <= numero_conta conta < (contador_contas b).2
               end) (contas b)
  /\ NoDup ((fun conta => (tipo_conta conta, numero_conta conta)) <$> contas b).

(** The account dictionary that [criar_conta] builds in the bank [b] for
    the client [cl] (or for [None]), and the bank once the account is
    appended and the counter of its kind is advanced. *)
Definition proximo_numero (tipo : TipoConta) (b : ContaBancaria) : Z :=
  match tipo with
  | corrente => (contador_contas b).1
  | poupanca => (contador_contas b).2
  end.

Definition conta_nova (agencia_ : string) (tipo : TipoConta)
    (cl : option Cliente) (b : ContaBancaria) : Conta :=
  mkConta agencia_ (proximo_numero tipo b) cl tipo 0 [] None.

Definition com_conta_nova (conta : Conta) (b : ContaBancaria)
  : ContaBancaria :=
  mkBanco (limite b) (limite_saques b) (contas b ++ [conta]) (clientes b)
          (match tipo_conta conta with
           | corrente => ((contador_contas b).1 + 1, (contador_contas b).2)
           | poupanca => ((contador_contas b).1, (contador_contas b).2 + 1)
           end)
          (AGENCIA b).

(** The kind of account that the argument [tipo_conta] of [criar_conta]
    names, in lower case. *)
Definition tipo_de (tipo_conta_ : string) : option TipoConta :=
  if decide (tipo_conta_ = "c") then Some corrente
  else if decide (tipo_conta_ = "p") then Some poupanca
  else None.

End V1.

(** ** Amounts as the source computes them: binary64

    [float(input())] gives the amounts of the class-based variant, and
    its balances are sums and differences of them: IEEE 754 binary64
    numbers, rounded to nearest, ties to even, with infinities and NaN.
    The modules [V2] and [V1] above take amounts in [Z]; they are used for
    what does not depend on the result of an addition or on a comparison
    with NaN.  The module [V2F] below is the account of the class-based
    variant on binary64 amounts, for the statements that do. *)

Module F64.

Definition float : Type := spec_float.

Definition prec : Z := 53.
Definition emax : Z := 1024.

(** [0.0], [float('nan')], and [float(n)] for an integer [n]: the
    literals [0], [500] and [100] of the source are integers that binary64
    holds exactly, and Python compares and adds an integer and a float by
    value. *)
Definition zero : float := S754_zero false.
Definition nan : float := S754_nan.
Definition de_Z (n : Z) : float := binary_normalize prec emax n 0 false.

(** The binary64 number nearest to [m * 2 ^ e]: [binario 501 (-1)] is the
    float [250.5]. *)
Definition binario (m e : Z) : float := binary_normalize prec emax m e false.

(** [x + y] and [x - y] *)
Definition soma (x y : float) : float := SFadd prec emax x y.
Definition diferenca (x y : float) : float := SFsub prec emax x y.

(** [x < y] and [x <= y]: false as soon as one side is NaN.  [x > y] is
    [y < x] and [x >= y] is [y <= x]. *)
Definition lt (x y : float) : Prop := SFltb x y = true.
Definition le (x y : float) : Prop := SFleb x y = true.

#[global] Instance lt_dec (x y : float) : Decision (lt x y).
Proof. unfold lt. apply _. Defined.

#[global] Instance le_dec (x y : float) : Decision (le x y).
Proof. unfold le. apply _. Defined.

(** The number that a finite binary64 value stands for; infinities and
    NaN stand for none. *)
Definition exato (x : float) : option Q :=
  match x with
  | S754_zero _ => Some 0%Q
  | S754_finite s m e =>
      Some (inject_Z (cond_Zopp s (Zpos m)) * Qpower (inject_Z 2) e)%Q
  | S754_infinity _ | S754_nan => None
  end.

End F64.

Declare Scope f64_scope.
Delimit Scope f64_scope with f64.
Infix "+" := F64.soma : f64_scope.
Infix "-" := F64.diferenca : f64_scope.
Infix "<" := F64.lt : f64_scope.
Infix "<=" := F64.le : f64_scope.
Notation "x > y" := (F64.lt y x) : f64_scope.
Notation "x >= y" := (F64.le y x) : f64_scope.

(** ** The account of the class-based variant, on binary64 amounts *)

Module V2F.

Local Open Scope f64_scope.

Abbreviation Saque := V2.Saque.
Abbreviation Deposito := V2.Deposito.

(** An entry of [ImprimirExtrato._transacoes]: ["valor"] is the float that
    the transaction was created with. *)
Record Registro : Type := mkRegistro {
  tipo : V2.Transacao;
  valor : F64.float;
  data : string
}.

Inductive Classe : Type :=
| ContaCorrente (limite : F64.float) (limite_saque : Z)
| ContaPoupanca (deposito_minimo : F64.float).

(** An account object, as in [V2]; [saldo] is [self._saldo]. *)
Record ContaBancaria : Type := mkConta {
  oid : nat;
  classe : Classe;
  agencia : string;
  cliente : nat;
  numero_conta : string;
  saldo : F64.float;
  extrato : list Registro
}.

(** [ContaCorrente(cliente=...)] and [ContaPoupanca(cliente=...)] with the
    default arguments of their [__init__]; [self._saldo = 0]. *)
Definition nova_ContaCorrente (o cli : nat) : ContaBancaria :=
  mkConta o (ContaCorrente (F64.de_Z 500) 3) "0001" cli "" F64.zero [].

Definition nova_ContaPoupanca (o cli : nat) : ContaBancaria :=
  mkConta o (ContaPoupanca (F64.de_Z 100)) "0001" cli "" F64.zero [].

Definition Metodo (A : Type) : Type :=
  ContaBancaria -> A * ContaBancaria * list Mensagem.

#[global] Instance Metodo_ret : MRet Metodo :=
  fun A a c => (a, c, []).

#[global] Instance Metodo_bind : MBind Metodo :=
  fun A B k m c =>
    let '(a, c1, out1) := m c in
    let '(b, c2, out2) := k a c1 in
    (b, c2, out1 ++ out2).

Definition print (m : Mensagem) : Metodo unit :=
  fun c => (tt, c, [m]).

Definition self : Metodo ContaBancaria :=
  fun c => (c, c, []).

(** [self.saldo = v] *)
Definition set_saldo (v : F64.float) : Metodo unit :=
  fun c => (tt, mkConta (oid c) (classe c) (agencia c) (cliente c)
                        (numero_conta c) v (extrato c), []).

(** [ImprimirExtrato.adicionar_transacao], on the account's own ledger. *)
Definition adicionar_transacao (t : V2.Transacao) (v : F64.float)
    (agora : string) : Metodo unit :=
  fun c => (tt, mkConta (oid c) (classe c) (agencia c) (cliente c)
                        (numero_conta c) (saldo c)
                        (extrato c ++ [mkRegistro t v agora]), []).

(** [ContaBancaria.sacar]: [if valor > self.saldo], [elif valor > 0],
    [self.saldo -= valor]. *)
Definition ContaBancaria_sacar (valor : F64.float) : Metodo bool :=
  c ← self;
  if decide (valor > saldo c) then
    print Saldo_insuficiente ;; mret false
  else if decide (valor > F64.zero) then
    set_saldo (saldo c - valor) ;; print Saque_realizado ;; mret true
  else
    print Valor_invalido ;; mret false.

(** [ContaBancaria.depositar]: [if valor <= 0], [self.saldo += valor]. *)
Definition ContaBancaria_depositar (valor : F64.float) : Metodo bool :=
  c ← self;
  if decide (valor <= F64.zero) then
    print Valor_invalido ;; mret false
  else
    set_saldo (saldo c + valor) ;; print Deposito_realizado ;; mret true.

(** The number of entries of a ledger whose ["tipo"] is the given class
    name. *)
Definition numero_de (t : V2.Transacao) (transacoes : list Registro) : Z :=
  Z.of_nat (length (filter (fun r => tipo r = t) transacoes)).

(** [ContaCorrente.sacar] *)
Definition ContaCorrente_sacar (limite : F64.float) (limite_saque : Z)
    (valor : F64.float) : Metodo bool :=
  c ← self;
  let numero_saques := numero_de Saque (extrato c) in
  let excedeu_limite := bool_decide (valor > limite) in
  let excedeu_saques := bool_decide (numero_saques >= limite_saque)%Z in
  if excedeu_limite then
    print Excede_limite ;; mret false
  else if excedeu_saques then
    print Maximo_saques_excedido ;; mret false
  else
    ContaBancaria_sacar valor.

(** [ContaPoupanca.depositar]: [if valor > 0]; the result of the inherited
    method is dropped. *)
Definition ContaPoupanca_depositar (valor : F64.float) : Metodo bool :=
  if decide (valor > F64.zero) then
    ContaBancaria_depositar valor ;; mret true
  else
    print Valor_invalido ;; mret false.

(** [conta.sacar(valor=valor)] and [conta.depositar(valor)]: the method of
    the account's class. *)
Definition conta_sacar (valor : F64.float) : Metodo bool :=
  fun c =>
    match classe c with
    | ContaCorrente limite limite_saque =>
        ContaCorrente_sacar limite limite_saque valor c
    | ContaPoupanca _ => ContaBancaria_sacar valor c
    end.

Definition conta_depositar (valor : F64.float) : Metodo bool :=
  fun c =>
    match classe c with
    | ContaCorrente _ _ => ContaBancaria_depositar valor c
    | ContaPoupanca _ => ContaPoupanca_depositar valor c
    end.

(** [Saque.registrar] and [Deposito.registrar] *)
Definition Saque_registrar (valor : F64.float) (agora : string)
  : Metodo (option (V2.Transacao * F64.float)) :=
  sucesso_transacao ← conta_sacar valor;
  if sucesso_transacao : bool then
    adicionar_transacao Saque valor agora ;; mret (Some (Saque, valor))
  else mret None.

Definition Deposito_registrar (valor : F64.float) (agora : string)
  : Metodo (option (V2.Transacao * F64.float)) :=
  sucesso_transacao ← conta_depositar valor;
  if sucesso_transacao : bool then
    adicionar_transacao Deposito valor agora ;; mret (Some (Deposito, valor))
  else mret None.

Definition registrar (transacao_cls : V2.Transacao) (valor : F64.float)
    (agora : string) : Metodo (option (V2.Transacao * F64.float)) :=
  match transacao_cls with
  | Saque => Saque_registrar valor agora
  | Deposito => Deposito_registrar valor agora
  end.

(** One call [transacao_cls.registrar(conta, valor)] and the calls of a
    list, in order, on the same account object. *)
Record Chamada : Type := mkChamada {
  chamada_cls : V2.Transacao;
  chamada_valor : F64.float;
  chamada_agora : string
}.

Fixpoint registrar_todas (chs : list Chamada) (c : ContaBancaria)
  : list (option (V2.Transacao * F64.float)) * ContaBancaria :=
  match chs with
  | [] => ([], c)
  | ch :: resto =>
      let '(r, c1, _) :=
        registrar (chamada_cls ch) (chamada_valor ch) (chamada_agora ch) c in
      let '(rs, c2) := registrar_todas resto c1 in
      (r :: rs, c2)
  end.

(** What the program does to an account object: [registrar], or a direct
    call of [conta.depositar] (the opening of a savings account). *)
Inductive Operacao : Type :=
| Op_registrar (ch : Chamada)
| Op_depositar (valor : F64.float).

Definition operar (op : Operacao) (c : ContaBancaria) : ContaBancaria :=
  match op with
  | Op_registrar ch =>
      (registrar (chamada_cls ch) (chamada_valor ch) (chamada_agora ch) c).1.2
  | Op_depositar v => (conta_depositar v c).1.2
  end.

Definition operar_todas (ops : list Operacao) (c : ContaBancaria)
  : ContaBancaria :=
  foldl (fun c op => operar op c) c ops.

(** [buscar_conta] and the functions [sacar] and [depositar] of the menu,
    on the list of account objects they are given; [numero_conta_] and
    [valor] are the answers to their prompts, the second one as
    [obter_valor_float] returns it. *)
Definition buscar_conta (conta_bancaria : list ContaBancaria)
    (numero_conta_ : string)
  : option (nat * ContaBancaria) :=
  list_find (fun conta => numero_conta conta = numero_conta_) conta_bancaria.

Definition sacar (conta_bancaria : list ContaBancaria)
    (numero_conta_ : string) (valor : F64.float) (agora : string)
  : bool * list ContaBancaria * list Mensagem :=
  match buscar_conta conta_bancaria numero_conta_ with
  | None => (false, conta_bancaria, [Conta_nao_encontrada])
  | Some (k, conta) =>
      if decide (valor <= F64.zero) then
        (false, conta_bancaria, [Valor_invalido])
      else if decide (valor > saldo conta) then
        (false, conta_bancaria, [Saldo_insuficiente_para_saque])
      else
        let '(transacao, conta1, out) := Saque_registrar valor agora conta in
        (bool_decide (is_Some transacao), <[k := conta1]> conta_bancaria, out)
  end.

Definition depositar (conta_bancaria : list ContaBancaria)
    (numero_conta_ : string) (valor : F64.float) (agora : string)
  : bool * list ContaBancaria * list Mensagem :=
  match buscar_conta conta_bancaria numero_conta_ with
  | None => (false, conta_bancaria, [Conta_nao_encontrada])
  | Some (k, conta) =>
      if decide (valor <= F64.zero) then
        (false, conta_bancaria, [Valor_invalido])
      else
        let '(transacao, conta1, out) := Deposito_registrar valor agora conta in
        (bool_decide (is_Some transacao), <[k := conta1]> conta_bancaria, out)
  end.

(** *** The ledger against the balance *)

(** The account with another balance, and with one more entry. *)
Definition com_saldo (s : F64.float) (c : ContaBancaria) : ContaBancaria :=
  mkConta (oid c) (classe c) (agencia c) (cliente c) (numero_conta c) s
          (extrato c).

Definition com_registro (r : Registro) (c : ContaBancaria) : ContaBancaria :=
  mkConta (oid c) (classe c) (agencia c) (cliente c) (numero_conta c) (saldo c)
          (extrato c ++ [r]).

(** The running total of a ledger: each deposit added, each withdrawal
    subtracted, in the order of the entries, as the source does it. *)
Definition lancar (s : F64.float) (r : Registro) : F64.float :=
  match tipo r with
  | Deposito => s + valor r
  | Saque => s - valor r
  end.

Definition total_corrente (transacoes : list Registro) : F64.float :=
  foldl lancar F64.zero transacoes.

(** The signed sum of a ledger, over the numbers that its amounts stand
    for. *)
Definition valor_com_sinal (r : Registro) : Q :=
  match F64.exato (valor r), tipo r with
  | Some v, Deposito => v
  | Some v, Saque => (- v)%Q
  | None, _ => 0%Q
  end.

Definition soma_extrato (transacoes : list Registro) : Q :=
  foldr (fun r acc => (valor_com_sinal r + acc)%Q) 0%Q transacoes.

(** No step of the running total rounds: each balance along the ledger
    stands for the number before it plus or minus the amount. *)
Definition lancamento_exato (s : F64.float) (r : Registro) : bool :=
  match F64.exato s, F64.exato (valor r), F64.exato (lancar s r) with
  | Some a, Some _, Some b => Qeq_bool b (a + valor_com_sinal r)
  | _, _, _ => false
  end.

Fixpoint sem_arredondamento (s : F64.float) (transacoes : list Registro)
  : bool :=
  match transacoes with
  | [] => true
  | r :: resto => lancamento_exato s r && sem_arredondamento (lancar s r) resto
  end.

(** The tests that [conta.sacar] makes, by class, all passed. *)
Definition saque_aceito (valor : F64.float) (c : ContaBancaria) : Prop :=
  match classe c with
  | ContaCorrente limite limite_saque =>
      ~ valor > limite
      /\ ~ (numero_de Saque (extrato c) >= limite_saque)%Z
      /\ ~ valor > saldo c
      /\ valor > F64.zero
  | ContaPoupanca _ => ~ valor > saldo c /\ valor > F64.zero
  end.

(** The test that [conta.depositar] makes, by class, passed. *)
Definition deposito_aceito (valor : F64.float) (c : ContaBancaria) : Prop :=
  match classe c with
  | ContaCorrente _ _ => ~ valor <= F64.zero
  | ContaPoupanca _ => valor > F64.zero
  end.

#[global] Instance saque_aceito_dec valor c : Decision (saque_aceito valor c).
Proof. unfold saque_aceito. destruct (classe c); apply _. Defined.

#[global] Instance deposito_aceito_dec valor c
  : Decision (deposito_aceito valor c).
Proof. unfold deposito_aceito. destruct (classe c); apply _. Defined.

(** A ledger as the tests leave it: no entry has an amount that is zero
    or less, a withdrawal has an amount above zero; on a current account
    the withdrawals are not more than the limit allows and none was above
    the ceiling. *)
Definition extrato_coerente (c : ContaBancaria) : Prop :=
  Forall (fun r => ~ valor r <= F64.zero) (extrato c)
  /\ Forall (fun r => tipo r = Saque -> valor r > F64.zero) (extrato c)
  /\ match classe c with
     | ContaCorrente limite limite_saque =>
         (numero_de Saque (extrato c) <= Z.max 0 limite_saque)%Z
         /\ Forall (fun r => tipo r = Saque -> ~ valor r > limite) (extrato c)
     | ContaPoupanca _ => True
     end.

End V2F.

(** ** Concrete runs *)

Module Exemplos.

Definition dep (v : Z) : V2.Chamada := V2.mkChamada V2.Deposito v "01/04/2025 14:30:00".
Definition saq (v : Z) : V2.Chamada := V2.mkChamada V2.Saque v "01/04/2025 15:00:00".

(** A new current account after a deposit of 500 and three withdrawals of
    100: balance 200, three withdrawals in the ledger. *)
Definition corrente_tres_saques : V2.ContaBancaria :=
  (V2.registrar_todas [dep 500; saq 100; saq 100; saq 100]
                      (V2.nova_ContaCorrente 7 1)).2.

(** The same with a deposit of 400: balance 100. *)
Definition corrente_saldo_100 : V2.ContaBancaria :=
  (V2.registrar_todas [dep 400; saq 100; saq 100; saq 100]
                      (V2.nova_ContaCorrente 7 1)).2.

(** A new current account after two deposits of 500: balance 1000. *)
Definition corrente_saldo_1000 : V2.ContaBancaria :=
  (V2.registrar_todas [dep 500; dep 500] (V2.nova_ContaCorrente 7 1)).2.

(** A new savings account after a deposit of 1000 and three withdrawals of
    100: balance 700. *)
Definition poupanca_tres_saques : V2.ContaBancaria :=
  (V2.registrar_todas [dep 1000; saq 100; saq 100; saq 100]
                      (V2.nova_ContaPoupanca 8 1)).2.

Definition maria : V1.Cliente :=
  V1.mkCliente "Maria Oliveira" "10/08/1990" "12345678900"
               ["Rua A"; "120"; "Centro"].

(** The bank of the first variant after Maria is registered and
    [criar_conta] opens a current account for her: number 1000. *)
Definition banco_v1 : V1.ContaBancaria :=
  (V1.criar_conta "0001" "c" "12345678900" "" maria
     (V1.cadastrar_cliente maria V1.banco_inicial).1).1.2.

(** ... after a deposit of 100 *)
Definition banco_v1_saldo_100 : V1.ContaBancaria :=
  (V1.depositar "1000" 100 "01/04/2025 14:30:00" banco_v1).1.

(** ... after two deposits of 500 *)
Definition banco_v1_saldo_1000 : V1.ContaBancaria :=
  V1.operar_todas [V1.Op_depositar "1000" 500 "t1"; V1.Op_depositar "1000" 500 "t2"]
                  banco_v1.

(** ... after two deposits of 500 and three withdrawals of 100 *)
Definition banco_v1_tres_saques : V1.ContaBancaria :=
  V1.operar_todas [V1.Op_sacar "1000" 100 "t3"; V1.Op_sacar "1000" 100 "t4";
                   V1.Op_sacar "1000" 100 "t5"]
                  banco_v1_saldo_1000.

Definition ficha_joao : V2.Ficha :=
  V2.mkFicha (V2.PessoaFisica "Joao Silva" "01/01/1990" "12345678900")
             ["Rua A"; "10"; "Bairro B"] "10" "12345-678".

Definition ficha_empresa : V2.Ficha :=
  V2.mkFicha (V2.PessoaJuridica "Empresa Ltda" "11222333000181")
             ["Rua C"; "20"; "Centro"] "20" "01001-000".

(** The same CPF typed again, under another name. *)
Definition ficha_homonimo : V2.Ficha :=
  V2.mkFicha (V2.PessoaFisica "Joao S." "02/02/1992" "12345678900")
             ["Rua D"; "30"; "Bairro E"] "30" "20000-000".

(** [iniciar] after entry ['6'] of the menu for a first client. *)
Definition programa_joao : V2.Programa :=
  (V2.cadastrar_cliente ficha_joao V2.programa_inicial).1.

(** ... and after entry ['4'] twice: a current account, then a savings
    account opened with 150 at the second attempt. *)
Definition programa_duas_contas : V2.Programa :=
  estado (V2.criar_nova_conta "12345678900" V2.poupanca [50; 150]
            (estado (V2.criar_nova_conta "12345678900" V2.corrente []
                       programa_joao))).

(** ... and after entry ['6'] for a second client. *)
Definition programa_dois_clientes : V2.Programa :=
  (V2.cadastrar_cliente ficha_empresa programa_duas_contas).1.

(** A run of the first variant: Maria is registered and opens a current
    account; then [criar_conta] is given a CPF that no client has, the
    offer to register is accepted and Maria's CPF is typed again.  The
    second account has no owner. *)
Definition banco_v1_conta_sem_dono : V1.ContaBancaria :=
  (V1.criar_conta "0001" "c" "00000000000" "s" maria banco_v1).1.2.

(** Calls of [registrar] on binary64 amounts. *)
Definition dep64 (v : F64.float) : V2F.Chamada :=
  V2F.mkChamada V2.Deposito v "01/04/2025 14:30:00".
Definition saq64 (v : F64.float) : V2F.Chamada :=
  V2F.mkChamada V2.Saque v "01/04/2025 15:00:00".
(** Deposits of 1e16, 1 and 1. *)
Definition depositos_1e16 : list V2F.Chamada :=
  [dep64 (F64.de_Z (10 ^ 16)); dep64 (F64.de_Z 1); dep64 (F64.de_Z 1)].
(** A new savings account after a deposit of 1e16. *)
Definition poupanca_1e16 : V2F.ContaBancaria :=
  (V2F.registrar_todas [dep64 (F64.de_Z (10 ^ 16))]
                       (V2F.nova_ContaPoupanca 8 1)).2.
(** A new savings account after a deposit of 1000 and three withdrawals
    of 100: balance 700. *)
Definition poupanca_tres_saques_64 : V2F.ContaBancaria :=
  (V2F.registrar_todas
     [dep64 (F64.de_Z 1000); saq64 (F64.de_Z 100); saq64 (F64.de_Z 100);
      saq64 (F64.de_Z 100)]
     (V2F.nova_ContaPoupanca 8 1)).2.
(** A deposit of 1000, a withdrawal of 250.5, a deposit of 0.25 and a
    withdrawal of 2000, which is refused. *)
Definition movimentos_exatos : list V2F.Chamada :=
  [dep64 (F64.de_Z 1000); saq64 (F64.binario 501 (-1)); dep64 (F64.binario 1 (-2));
   saq64 (F64.de_Z 2000)].

End Exemplos.

(** * Properties *)

(** ** The account of the class-based variant *)

Section Conta_V2.
Import V2.

(** Unfolds a method down to the tests it makes. *)
Ltac executa :=
  unfold registrar, Saque_registrar, Deposito_registrar, conta_sacar,
    conta_depositar, ContaCorrente_sacar, ContaPoupanca_depositar,
    ContaBancaria_sacar, ContaBancaria_depositar, adicionar_transacao,
    set_saldo, print, self, mbind, mret, Metodo_bind, Metodo_ret in *;
  simpl in *;
  repeat (case_bool_decide; simpl in * );
  repeat (case_decide; simpl in * ).

Lemma soma_extrato_app (l : list Registro) (r : Registro) :
  soma_extrato (l ++ [r]) = soma_extrato l + valor_com_sinal r.
Proof.
  induction l as [|x l IH]; simpl.
  - lia.
  - rewrite IH. lia.
Qed.

Lemma numero_de_app (t : Transacao) (l : list Registro) (r : Registro) :
  numero_de t (l ++ [r])
  = numero_de t l + (if decide (tipo r = t) then 1 else 0).
Proof.
  unfold numero_de. rewrite filter_app, length_app.
  rewrite filter_cons, filter_nil.
  destruct (decide (tipo r = t)); simpl; lia.
Qed.

(** What one call of [registrar] does to the account, case by case. *)
Lemma registrar_efeito (t : Transacao) (v : Z) (agora : string)
    (c : ContaBancaria) :
  (exists out,
      0 < v
      /\ registrar t v agora c
         = (Some (t, v),
            mkConta (oid c) (classe c) (agencia c) (cliente c) (numero_conta c)
                    (saldo c + valor_com_sinal (mkRegistro t v agora))
                    (extrato c ++ [mkRegistro t v agora]),
            out))
  \/ (exists out, registrar t v agora c = (None, c, out)).
Proof.
  destruct c as [o cl ag cli num s e].
  destruct t, cl; executa; unfold valor_com_sinal; simpl;
    try (right; eexists; reflexivity);
    left; eexists; (split; [lia|]); repeat f_equal; lia.
Qed.

(** A direct call of [conta.depositar] touches the balance only, and never
    lowers it. *)
Lemma depositar_efeito (v : Z) (c : ContaBancaria) :
  exists s,
    saldo c <= s
    /\ (conta_depositar v c).1.2
       = mkConta (oid c) (classe c) (agencia c) (cliente c) (numero_conta c)
                 s (extrato c).
Proof.
  destruct c as [o cl ag cli num s e].
  destruct cl; executa; eexists; (split; [|reflexivity]); lia.
Qed.

Lemma registrar_todas_length (chs : list Chamada) (c : ContaBancaria) :
  length (extrato (registrar_todas chs c).2)
  = (length (extrato c) + bem_sucedidas (registrar_todas chs c).1)%nat.
Proof.
  revert c. induction chs as [|ch chs IH]; intros c; simpl.
  - unfold bem_sucedidas. simpl. lia.
  - destruct (registrar_efeito (chamada_cls ch) (chamada_valor ch)
                (chamada_agora ch) c) as [[out [_ E]]|[out E]];
      rewrite E; specialize (IH (registrar (chamada_cls ch) (chamada_valor ch)
                                   (chamada_agora ch) c).1.2);
      rewrite E in IH; simpl in IH;
      destruct (registrar_todas chs _) as [rs c2]; simpl in *;
      rewrite IH; unfold bem_sucedidas; rewrite filter_cons.
    + destruct (decide (is_Some (Some (chamada_cls ch, chamada_valor ch))))
        as [_|n]; [|exfalso; apply n; eauto].
      rewrite length_app. simpl. lia.
    + destruct (decide (is_Some (@None (Transacao * Z)))) as [[x Hx]|_];
        [discriminate|]. lia.
Qed.

(** C7.  A call of [registrar] that succeeds returns the transaction and
    appends exactly one entry, the one of that call, to the ledger; a call
    that fails returns [None] and leaves the account, ledger included, as it
    was.  So after any sequence of calls the ledger has grown by the number
    of calls that succeeded, and on a new account its length is that
    number. *)
Theorem C7_extrato_conta_sucessos :
  (forall t v agora c,
      match registrar t v agora c with
      | (Some r, c1, _) =>
          r = (t, v) /\ extrato c1 = extrato c ++ [mkRegistro t v agora]
      | (None, c1, _) => c1 = c
      end)
  /\ (forall chs c,
        length (extrato (registrar_todas chs c).2)
        = (length (extrato c) + bem_sucedidas (registrar_todas chs c).1)%nat)
  /\ (forall o cl ag cli num chs,
        length (extrato (registrar_todas chs (mkConta o cl ag cli num 0 [])).2)
        = bem_sucedidas (registrar_todas chs (mkConta o cl ag cli num 0 [])).1).
Proof.
  split; [|split].
  - intros t v agora c.
    destruct (registrar_efeito t v agora c) as [[out [_ E]]|[out E]]; rewrite E.
    + split; reflexivity.
    + reflexivity.
  - apply registrar_todas_length.
  - intros. rewrite registrar_todas_length. reflexivity.
Qed.
End Conta_V2.

(** *** Withdrawals, rule by rule *)

Section Saques.

(** [ContaCorrente.sacar] tests the ceiling first, then the number of
    withdrawals in the ledger, and only then hands over to
    [ContaBancaria.sacar]. *)
Lemma V2_sacar_corrente (c : V2.ContaBancaria) (limite limite_saque valor : Z) :
  V2.classe c = V2.ContaCorrente limite limite_saque ->
  V2.conta_sacar valor c
  = if decide (valor > limite) then (false, c, [Excede_limite])
    else if decide (V2.numero_de V2.Saque (V2.extrato c) >= limite_saque)
         then (false, c, [Maximo_saques_excedido])
         else V2.ContaBancaria_sacar valor c.
Proof.
  intros Hc. unfold V2.conta_sacar. rewrite Hc.
  unfold V2.ContaCorrente_sacar, V2.self, mbind, mret, V2.Metodo_bind,
    V2.Metodo_ret, V2.print.
  simpl. repeat case_bool_decide; repeat case_decide; try lia; try reflexivity.
  destruct (V2.ContaBancaria_sacar valor c) as [[r c1] out].
  reflexivity.
Qed.

Lemma V2_sacar_poupanca (c : V2.ContaBancaria) (deposito_minimo valor : Z) :
  V2.classe c = V2.ContaPoupanca deposito_minimo ->
  V2.conta_sacar valor c = V2.ContaBancaria_sacar valor c.
Proof. intros Hc. unfold V2.conta_sacar. rewrite Hc. reflexivity. Qed.

Lemma V2_sacar_base (c : V2.ContaBancaria) (valor : Z) :
  V2.ContaBancaria_sacar valor c
  = if decide (valor > V2.saldo c) then (false, c, [Saldo_insuficiente])
    else if decide (valor > 0) then
      (true,
       V2.mkConta (V2.oid c) (V2.classe c) (V2.agencia c) (V2.cliente c)
                  (V2.numero_conta c) (V2.saldo c - valor) (V2.extrato c),
       [Saque_realizado])
    else (false, c, [Valor_invalido]).
Proof.
  unfold V2.ContaBancaria_sacar, V2.self, V2.set_saldo, V2.print, mbind, mret,
    V2.Metodo_bind, V2.Metodo_ret.
  simpl. repeat case_decide; reflexivity.
Qed.

(** A withdrawal that the account refuses is refused by [Saque.registrar]
    with the same message, and nothing is written. *)
Lemma V2_registrar_recusa (c : V2.ContaBancaria) (valor : Z) (agora : string)
    (out : list Mensagem) :
  V2.conta_sacar valor c = (false, c, out) ->
  V2.registrar V2.Saque valor agora c = (None, c, out).
Proof.
  intros H. unfold V2.registrar, V2.Saque_registrar, mbind, mret,
    V2.Metodo_bind, V2.Metodo_ret.
  rewrite H. simpl. rewrite app_nil_r. reflexivity.
Qed.

(** The function [sacar] of the menu tests the amount and the balance
    itself, before [Saque.registrar] reaches the tests of the account. *)
Lemma V2_sacar_menu_antes_da_conta (l : list V2.ContaBancaria) (n : string)
    (valor : Z) (agora : string) (k : nat) (conta : V2.ContaBancaria) :
  V2.buscar_conta l n = Some (k, conta) ->
  (valor <= 0 -> V2.sacar l n valor agora = (false, l, [Valor_invalido]))
  /\ (0 < valor -> valor > V2.saldo conta ->
      V2.sacar l n valor agora = (false, l, [Saldo_insuficiente_para_saque])).
Proof.
  intros Hb. unfold V2.sacar. rewrite Hb.
  split; intros; repeat case_decide; try reflexivity; lia.
Qed.

(** [ContaBancaria.sacar] of the dictionary-based variant, once the account
    is found: the amount, the balance, the ceiling and the counter are
    tested in this order. *)
Lemma V1_sacar_encontrada (b : V1.ContaBancaria) (n : string) (valor : Z)
    (agora : string) (i : nat) (conta : V1.Conta) :
  V1.buscar_conta (V1.AGENCIA b) n b = Some (i, conta) ->
  V1.sacar n valor agora b
  = if decide (valor <= 0) then (b, [Valor_invalido])
    else if decide (valor > V1.saldo conta) then (b, [Saldo_insuficiente])
    else if decide (valor > V1.limite b) then (b, [Excede_limite])
    else if decide (V1.get_saques_diarios conta >= V1.limite_saques b)
         then (b, [Maximo_saques_excedido])
         else (V1.set_contas
                 (<[i := V1.conta_apos_saque valor agora conta]> (V1.contas b)) b,
               [Operacao_realizada]).
Proof.
  intros H. unfold V1.sacar, V1.log_transacao, V1.sacar_corpo. rewrite H.
  repeat case_decide; reflexivity.
Qed.

End Saques.

(** ** The claims about single withdrawals *)

(** C5, as it fails.  In the dictionary-based variant the balance is
    tested before the ceiling: on a current account with balance 100 and
    ceiling 500, a withdrawal of 600 is refused for insufficient balance,
    not for exceeding the ceiling. *)
Lemma C5_contraexemplo :
  600 > V1.limite Exemplos.banco_v1_saldo_100
  /\ V1.sacar "1000" 600 "01/04/2025 15:00:00" Exemplos.banco_v1_saldo_100
     = (Exemplos.banco_v1_saldo_100, [Saldo_insuficiente])
  /\ [Saldo_insuficiente] <> [Excede_limite].
Proof. split; [|split]; [vm_compute; reflexivity | reflexivity | discriminate]. Qed.

(** C5, amended.  In the class-based variant, on every current account a
    withdrawal above the ceiling is refused with the message of the
    ceiling, by the account and by [Saque.registrar], and the account
    (balance and ledger) is left as it was.  In the dictionary-based
    variant the withdrawal is refused as well and the bank is left as it
    was, with the message of the ceiling when the amount is positive and
    within the balance, and with the message of the test that comes first
    otherwise.  In both, 600 from a balance of 1000 under a ceiling of 500
    is refused with the message of the ceiling and the balance stays. *)
Theorem C5_saque_acima_do_limite :
  (forall (c : V2.ContaBancaria) (limite limite_saque valor : Z) (agora : string),
      V2.classe c = V2.ContaCorrente limite limite_saque ->
      valor > limite ->
      V2.conta_sacar valor c = (false, c, [Excede_limite])
      /\ V2.registrar V2.Saque valor agora c = (None, c, [Excede_limite]))
  /\ (forall (b : V1.ContaBancaria) (n : string) (valor : Z) (agora : string)
             (i : nat) (conta : V1.Conta),
        V1.buscar_conta (V1.AGENCIA b) n b = Some (i, conta) ->
        valor > V1.limite b ->
        V1.sacar n valor agora b
        = (b, [if decide (valor <= 0) then Valor_invalido
               else if decide (valor > V1.saldo conta) then Saldo_insuficiente
               else Excede_limite]))
  /\ (forall o limite_saque ag cli num e,
        V2.conta_sacar 600
          (V2.mkConta o (V2.ContaCorrente 500 limite_saque) ag cli num 1000 e)
        = (false,
           V2.mkConta o (V2.ContaCorrente 500 limite_saque) ag cli num 1000 e,
           [Excede_limite]))
  /\ (forall (b : V1.ContaBancaria) (n agora : string) (i : nat) (conta : V1.Conta),
        V1.buscar_conta (V1.AGENCIA b) n b = Some (i, conta) ->
        V1.limite b = 500 ->
        V1.saldo conta = 1000 ->
        V1.sacar n 600 agora b = (b, [Excede_limite])).
Proof.
  split; [|split; [|split]].
  - intros c limite limite_saque valor agora H Hv.
    assert (V2.conta_sacar valor c = (false, c, [Excede_limite])) as E.
    { rewrite (V2_sacar_corrente c limite limite_saque valor H).
      case_decide; [reflexivity | lia]. }
    split; [exact E | apply V2_registrar_recusa, E].
  - intros b n valor agora i conta Hb Hv.
    rewrite (V1_sacar_encontrada b n valor agora i conta Hb).
    repeat case_decide; try reflexivity; lia.
  - intros. erewrite V2_sacar_corrente by reflexivity.
    case_decide; [reflexivity | lia].
  - intros b n agora i conta Hb Hl Hs.
    rewrite (V1_sacar_encontrada b n 600 agora i conta Hb).
    repeat case_decide; try reflexivity; lia.
Qed.

Lemma C5_testemunha :
  (V2.classe Exemplos.corrente_saldo_1000 = V2.ContaCorrente 500 3
   /\ 600 > 500
   /\ V2.conta_sacar 600 Exemplos.corrente_saldo_1000
      = (false, Exemplos.corrente_saldo_1000, [Excede_limite]))
  /\ (V1.buscar_conta (V1.AGENCIA Exemplos.banco_v1_saldo_1000) "1000"
                      Exemplos.banco_v1_saldo_1000
      = Some (0%nat, V1.mkConta "0001" 1000 (Some Exemplos.maria) V1.corrente 1000
                       [V1.mkLinha "t1" V1.Deposito 500;
                        V1.mkLinha "t2" V1.Deposito 500] None)
      /\ 600 > V1.limite Exemplos.banco_v1_saldo_1000
      /\ V1.sacar "1000" 600 "t3" Exemplos.banco_v1_saldo_1000
         = (Exemplos.banco_v1_saldo_1000, [Excede_limite])).
Proof.
  split.
  - split; [reflexivity | split; [lia |]].
    apply (proj1 C5_saque_acima_do_limite Exemplos.corrente_saldo_1000 500 3 600 "t");
      [reflexivity | lia].
  - split; [reflexivity | split; [vm_compute; reflexivity |]].
    apply (proj1 (proj2 C5_saque_acima_do_limite) Exemplos.banco_v1_saldo_1000
             "1000" 600 "t3" 0%nat _ eq_refl).
    vm_compute; reflexivity.
Defined.

(** C3, as it fails.  A current account with three withdrawals in its
    ledger (the limit of its class) refuses a withdrawal of 600 with the
    message of the ceiling, not with the one of the number of
    withdrawals. *)
Lemma C3_contraexemplo :
  V2.classe Exemplos.corrente_tres_saques = V2.ContaCorrente 500 3
  /\ V2.numero_de V2.Saque (V2.extrato Exemplos.corrente_tres_saques) >= 3
  /\ V2.conta_sacar 600 Exemplos.corrente_tres_saques
     = (false, Exemplos.corrente_tres_saques, [Excede_limite])
  /\ [Excede_limite] <> [Maximo_saques_excedido].
Proof.
  split; [reflexivity|]. split; [vm_compute; discriminate|].
  split; [reflexivity | discriminate].
Qed.

(** C3, amended.  Once the ledger of a current account holds at least
    [limite_saque] withdrawals, every further withdrawal is refused and the
    account is left as it was, by the account and by [Saque.registrar]; the
    message is the one of the number of withdrawals whenever the amount is
    within the ceiling, whatever the balance, and the one of the ceiling
    otherwise.  In the dictionary-based variant, once the counter of an
    account has reached [limite_saques], every further withdrawal on it is
    refused and the bank is left as it was; the message is the one of the
    number of withdrawals when the amount is positive, within the balance
    and within the ceiling, and the one of the first of these tests that
    fails otherwise. *)
Theorem C3_limite_de_saques_atingido :
  (forall (c : V2.ContaBancaria) (limite limite_saque valor : Z) (agora : string),
      V2.classe c = V2.ContaCorrente limite limite_saque ->
      V2.numero_de V2.Saque (V2.extrato c) >= limite_saque ->
      V2.conta_sacar valor c
      = (false, c, [if decide (valor > limite) then Excede_limite
                    else Maximo_saques_excedido])
      /\ V2.registrar V2.Saque valor agora c
         = (None, c, [if decide (valor > limite) then Excede_limite
                      else Maximo_saques_excedido]))
  /\ (forall (b : V1.ContaBancaria) (n : string) (valor : Z) (agora : string)
             (i : nat) (conta : V1.Conta),
        V1.buscar_conta (V1.AGENCIA b) n b = Some (i, conta) ->
        V1.get_saques_diarios conta >= V1.limite_saques b ->
        V1.sacar n valor agora b
        = (b, [if decide (valor <= 0) then Valor_invalido
               else if decide (valor > V1.saldo conta) then Saldo_insuficiente
               else if decide (valor > V1.limite b) then Excede_limite
               else Maximo_saques_excedido])).
Proof.
  split.
  - intros c limite limite_saque valor agora Hc Hn.
    assert (V2.conta_sacar valor c
            = (false, c, [if decide (valor > limite) then Excede_limite
                          else Maximo_saques_excedido])) as E.
    { rewrite (V2_sacar_corrente c limite limite_saque valor Hc).
      repeat case_decide; try reflexivity; lia. }
    split; [exact E | apply V2_registrar_recusa, E].
  - intros b n valor agora i conta Hb Hn.
    rewrite (V1_sacar_encontrada b n valor agora i conta Hb).
    repeat case_decide; try reflexivity; lia.
Qed.

(** 50 from the current account with three withdrawals and balance 200, in
    one variant; 50 from the account with three withdrawals and balance 700,
    in the other. *)
Lemma C3_testemunha :
  (V2.classe Exemplos.corrente_tres_saques = V2.ContaCorrente 500 3
   /\ V2.numero_de V2.Saque (V2.extrato Exemplos.corrente_tres_saques) >= 3
   /\ V2.conta_sacar 50 Exemplos.corrente_tres_saques
      = (false, Exemplos.corrente_tres_saques, [Maximo_saques_excedido]))
  /\ (V1.get_saques_diarios
        (V1.mkConta "0001" 1000 (Some Exemplos.maria) V1.corrente 700
           [V1.mkLinha "t1" V1.Deposito 500; V1.mkLinha "t2" V1.Deposito 500;
            V1.mkLinha "t3" V1.Saque 100; V1.mkLinha "t4" V1.Saque 100;
            V1.mkLinha "t5" V1.Saque 100] (Some 3))
      >= V1.limite_saques Exemplos.banco_v1_tres_saques
      /\ V1.sacar "1000" 50 "t6" Exemplos.banco_v1_tres_saques
         = (Exemplos.banco_v1_tres_saques, [Maximo_saques_excedido])).
Proof.
  split.
  - split; [reflexivity|]. split; [vm_compute; discriminate|].
    apply (proj1 C3_limite_de_saques_atingido Exemplos.corrente_tres_saques
             500 3 50 "t" eq_refl).
    vm_compute; discriminate.
  - split; [vm_compute; discriminate|].
    apply (proj2 C3_limite_de_saques_atingido Exemplos.banco_v1_tres_saques
             "1000" 50 "t6" 0%nat _ eq_refl).
    vm_compute; discriminate.
Defined.

(** C4, as it fails.  The current account with balance 100 and three
    withdrawals in its ledger refuses a withdrawal of 200, which is above
    the balance and within the ceiling of 500, with the message of the
    number of withdrawals, not with the one of the balance. *)
Lemma C4_contraexemplo :
  V2.classe Exemplos.corrente_saldo_100 = V2.ContaCorrente 500 3
  /\ 200 > V2.saldo Exemplos.corrente_saldo_100
  /\ 200 <= 500
  /\ V2.conta_sacar 200 Exemplos.corrente_saldo_100
     = (false, Exemplos.corrente_saldo_100, [Maximo_saques_excedido])
  /\ [Maximo_saques_excedido] <> [Saldo_insuficiente].
Proof.
  split; [reflexivity|]. split; [vm_compute; reflexivity|]. split; [lia|].
  split; [reflexivity | discriminate].
Qed.

(** C4, amended.  A withdrawal above the balance is refused with the
    message of the balance, and the account is left as it was: on a current
    account when the amount is within the ceiling and the ledger holds
    fewer than [limite_saque] withdrawals; on a savings account always; in
    the dictionary-based variant on every account found, its balance being
    non-negative. *)
Theorem C4_saldo_insuficiente :
  (forall (c : V2.ContaBancaria) (limite limite_saque valor : Z) (agora : string),
      V2.classe c = V2.ContaCorrente limite limite_saque ->
      valor > V2.saldo c ->
      valor <= limite ->
      V2.numero_de V2.Saque (V2.extrato c) < limite_saque ->
      V2.conta_sacar valor c = (false, c, [Saldo_insuficiente])
      /\ V2.registrar V2.Saque valor agora c = (None, c, [Saldo_insuficiente]))
  /\ (forall (c : V2.ContaBancaria) (deposito_minimo valor : Z) (agora : string),
        V2.classe c = V2.ContaPoupanca deposito_minimo ->
        valor > V2.saldo c ->
        V2.conta_sacar valor c = (false, c, [Saldo_insuficiente])
        /\ V2.registrar V2.Saque valor agora c = (None, c, [Saldo_insuficiente]))
  /\ (forall (b : V1.ContaBancaria) (n : string) (valor : Z) (agora : string)
             (i : nat) (conta : V1.Conta),
        V1.buscar_conta (V1.AGENCIA b) n b = Some (i, conta) ->
        0 <= V1.saldo conta ->
        valor > V1.saldo conta ->
        V1.sacar n valor agora b = (b, [Saldo_insuficiente])).
Proof.
  split; [|split].
  - intros c limite limite_saque valor agora Hc Hs Hl Hn.
    assert (V2.conta_sacar valor c = (false, c, [Saldo_insuficiente])) as E.
    { rewrite (V2_sacar_corrente c limite limite_saque valor Hc), V2_sacar_base.
      repeat case_decide; try reflexivity; lia. }
    split; [exact E | apply V2_registrar_recusa, E].
  - intros c deposito_minimo valor agora Hc Hs.
    assert (V2.conta_sacar valor c = (false, c, [Saldo_insuficiente])) as E.
    { rewrite (V2_sacar_poupanca c deposito_minimo valor Hc), V2_sacar_base.
      repeat case_decide; try reflexivity; lia. }
    split; [exact E | apply V2_registrar_recusa, E].
  - intros b n valor agora i conta Hb H0 Hs.
    rewrite (V1_sacar_encontrada b n valor agora i conta Hb).
    repeat case_decide; try reflexivity; lia.
Qed.

(** 300 from a current account with balance 200 after a single withdrawal;
    800 from the savings account with balance 700; 600 from the account of
    the other variant with balance 100. *)
Lemma C4_testemunha :
  (let c := (V2.registrar_todas [Exemplos.dep 300; Exemplos.saq 100]
                                (V2.nova_ContaCorrente 7 1)).2 in
   V2.classe c = V2.ContaCorrente 500 3
   /\ 300 > V2.saldo c
   /\ 300 <= 500
   /\ V2.numero_de V2.Saque (V2.extrato c) < 3
   /\ V2.conta_sacar 300 c = (false, c, [Saldo_insuficiente]))
  /\ (V2.classe Exemplos.poupanca_tres_saques = V2.ContaPoupanca 100
      /\ 800 > V2.saldo Exemplos.poupanca_tres_saques
      /\ V2.conta_sacar 800 Exemplos.poupanca_tres_saques
         = (false, Exemplos.poupanca_tres_saques, [Saldo_insuficiente]))
  /\ (0 <= 100
      /\ 600 > 100
      /\ V1.sacar "1000" 600 "t" Exemplos.banco_v1_saldo_100
         = (Exemplos.banco_v1_saldo_100, [Saldo_insuficiente])).
Proof.
  split; [|split].
  - simpl. split; [reflexivity|]. split; [vm_compute; reflexivity|].
    split; [lia|]. split; [vm_compute; reflexivity|].
    apply (proj1 C4_saldo_insuficiente
             (V2.registrar_todas [Exemplos.dep 300; Exemplos.saq 100]
                                 (V2.nova_ContaCorrente 7 1)).2
             500 3 300 "t" eq_refl);
      vm_compute; first [reflexivity | discriminate].
  - split; [reflexivity|]. split; [vm_compute; reflexivity|].
    apply (proj1 (proj2 C4_saldo_insuficiente) Exemplos.poupanca_tres_saques
             100 800 "t" eq_refl).
    vm_compute; reflexivity.
  - split; [lia|]. split; [lia|].
    apply (proj2 (proj2 C4_saldo_insuficiente) Exemplos.banco_v1_saldo_100
             "1000" 600 "t" 0%nat
             (V1.mkConta "0001" 1000 (Some Exemplos.maria) V1.corrente 100
                [V1.mkLinha "01/04/2025 14:30:00" V1.Deposito 100] None)
             eq_refl);
      simpl; lia.
Defined.

(** ** The counter of withdrawals over a run *)

Section Contador_de_saques.

#[local] Arguments V2.registrar : simpl never.

(** One operation on an account of the class-based variant: the class
    stays, and the number of withdrawals in the ledger goes up by one
    exactly when the operation is a withdrawal that succeeds. *)
Lemma V2_operar_passo (op : V2.Operacao) (c : V2.ContaBancaria) :
  V2.classe (V2.operar op c) = V2.classe c
  /\ V2.numero_de V2.Saque (V2.extrato (V2.operar op c))
     = V2.numero_de V2.Saque (V2.extrato c)
       + (if V2.saque_bem_sucedido op c then 1 else 0).
Proof.
  destruct op as [[t v agora]|v].
  - unfold V2.operar, V2.saque_bem_sucedido.
    cbn [V2.chamada_cls V2.chamada_valor V2.chamada_agora].
    destruct (registrar_efeito t v agora c) as [[out [_ E]]|[out E]].
    + rewrite E. cbn [fst snd V2.classe V2.extrato].
      split; [reflexivity|].
      rewrite numero_de_app. cbn [V2.tipo].
      destruct t.
      * rewrite E. cbn [fst snd].
        rewrite bool_decide_eq_true_2 by eauto.
        case_decide; [reflexivity | congruence].
      * case_decide; [discriminate | lia].
    + rewrite E. cbn [fst snd].
      split; [reflexivity|].
      destruct t; [|lia].
      rewrite E. cbn [fst snd].
      rewrite bool_decide_eq_false_2; [lia|]. intros [x Hx]. discriminate.
  - unfold V2.operar, V2.saque_bem_sucedido.
    destruct (depositar_efeito v c) as (s & _ & E). rewrite E.
    split; [reflexivity | simpl; lia].
Qed.

(** A current account at its limit refuses every withdrawal. *)
Lemma V2_no_limite_recusa (c : V2.ContaBancaria) (limite limite_saque : Z) :
  V2.classe c = V2.ContaCorrente limite limite_saque ->
  V2.numero_de V2.Saque (V2.extrato c) >= limite_saque ->
  forall valor agora,
    (V2.conta_sacar valor c).1 = (false, c)
    /\ (V2.registrar V2.Saque valor agora c).1 = (None, c).
Proof.
  intros Hc Hn valor agora.
  assert (exists m, V2.conta_sacar valor c = (false, c, [m])) as [m E].
  { rewrite (V2_sacar_corrente c limite limite_saque valor Hc).
    repeat case_decide; try lia; eexists; reflexivity. }
  split.
  - rewrite E. reflexivity.
  - rewrite (V2_registrar_recusa c valor agora [m] E). reflexivity.
Qed.

Lemma V2_no_limite_operar (op : V2.Operacao) (c : V2.ContaBancaria)
    (limite limite_saque : Z) :
  V2.classe c = V2.ContaCorrente limite limite_saque ->
  V2.numero_de V2.Saque (V2.extrato c) >= limite_saque ->
  V2.saque_bem_sucedido op c = false /\ V2.saldo c <= V2.saldo (V2.operar op c).
Proof.
  intros Hc Hn. destruct op as [[t v agora]|v]; simpl.
  - destruct t.
    + destruct (V2_no_limite_recusa c limite limite_saque Hc Hn v agora)
        as [_ E].
      unfold V2.saque_bem_sucedido. simpl.
      destruct (V2.registrar V2.Saque v agora c) as [[r c1] out].
      simpl in E. inversion E; subst. simpl.
      split; [reflexivity | lia].
    + split; [reflexivity|].
      destruct (registrar_efeito V2.Deposito v agora c)
        as [[out [Hv E]]|[out E]]; rewrite E; simpl; [|lia].
      unfold V2.valor_com_sinal. simpl. lia.
  - split; [reflexivity|].
    destruct (depositar_efeito v c) as (s & Hs & E). rewrite E. exact Hs.
Qed.

Lemma V2_no_limite_para_sempre (ops : list V2.Operacao) (c : V2.ContaBancaria)
    (limite limite_saque : Z) :
  V2.classe c = V2.ContaCorrente limite limite_saque ->
  V2.numero_de V2.Saque (V2.extrato c) >= limite_saque ->
  V2.classe (V2.operar_todas ops c) = V2.ContaCorrente limite limite_saque
  /\ V2.numero_de V2.Saque (V2.extrato (V2.operar_todas ops c))
     = V2.numero_de V2.Saque (V2.extrato c)
  /\ V2.saldo c <= V2.saldo (V2.operar_todas ops c).
Proof.
  revert c. induction ops as [|op ops IH]; intros c Hc Hn; simpl.
  - split; [exact Hc|]. split; [reflexivity | lia].
  - destruct (V2_operar_passo op c) as [Hcl Hnum].
    destruct (V2_no_limite_operar op c limite limite_saque Hc Hn) as [Hf Hs].
    rewrite Hf in Hnum.
    destruct (IH (V2.operar op c)) as (H1 & H2 & H3).
    + congruence.
    + lia.
    + unfold V2.operar_todas in *. split; [exact H1|]. split; lia.
Qed.

(** [buscar_conta] returns an element of [self.contas] and where it is. *)
Lemma V1_buscar_conta_lookup (b : V1.ContaBancaria) (ag n : string) (i : nat)
    (conta : V1.Conta) :
  V1.buscar_conta ag n b = Some (i, conta) -> V1.contas b !! i = Some conta.
Proof.
  unfold V1.buscar_conta. intros H.
  apply list_find_Some in H. tauto.
Qed.

(** One operation of the dictionary-based variant, seen from the account
    at a given position of [self.contas]: the account is left as it was, or
    it is the one found and a withdrawal that passed the four tests went
    through, or it is the one found and a deposit of a positive amount went
    through.  The limits and the agency of the bank never change. *)
Lemma V1_operar_passo (op : V1.Operacao) (b : V1.ContaBancaria) (i : nat)
    (conta : V1.Conta) :
  V1.contas b !! i = Some conta ->
  V1.limite (V1.operar op b) = V1.limite b
  /\ V1.limite_saques (V1.operar op b) = V1.limite_saques b
  /\ V1.AGENCIA (V1.operar op b) = V1.AGENCIA b
  /\ (V1.contas (V1.operar op b) !! i = Some conta
      \/ (exists n v t,
             op = V1.Op_sacar n v t
             /\ 0 < v /\ v <= V1.saldo conta
             /\ V1.get_saques_diarios conta < V1.limite_saques b
             /\ V1.contas (V1.operar op b) !! i
                = Some (V1.conta_apos_saque v t conta))
      \/ (exists n v t,
             op = V1.Op_depositar n v t
             /\ 0 < v
             /\ V1.contas (V1.operar op b) !! i
                = Some (V1.conta_apos_deposito v t conta))).
Proof.
  intros Hi.
  destruct op as [n v t|n v t]; unfold V1.operar.
  - unfold V1.sacar, V1.log_transacao, V1.sacar_corpo.
    destruct (V1.buscar_conta (V1.AGENCIA b) n b) as [[j cj]|] eqn:Hb;
      [|simpl; auto].
    apply V1_buscar_conta_lookup in Hb.
    repeat case_decide; simpl; auto.
    repeat (split; [reflexivity|]).
    destruct (decide (j = i)) as [->|Hne].
    + assert (cj = conta) as -> by congruence.
      right. left. exists n, v, t.
      repeat (split; [first [reflexivity | lia]|]).
      apply list_lookup_insert_eq. eapply lookup_lt_Some; eauto.
    + left. rewrite list_lookup_insert_ne by exact Hne. exact Hi.
  - unfold V1.depositar, V1.log_transacao, V1.depositar_corpo.
    destruct (V1.buscar_conta (V1.AGENCIA b) n b) as [[j cj]|] eqn:Hb;
      [|simpl; auto].
    apply V1_buscar_conta_lookup in Hb.
    repeat case_decide; simpl; auto.
    repeat (split; [reflexivity|]).
    destruct (decide (j = i)) as [->|Hne].
    + assert (cj = conta) as -> by congruence.
      right. right. exists n, v, t.
      repeat (split; [first [reflexivity | lia]|]).
      apply list_lookup_insert_eq. eapply lookup_lt_Some; eauto.
    + left. rewrite list_lookup_insert_ne by exact Hne. exact Hi.
Qed.

(** In the dictionary-based variant the counter of an account that has
    reached the limit stays where it is for the rest of the run, its
    balance never goes down again, and its number and agency stay. *)
Lemma V1_no_limite_para_sempre (ops : list V1.Operacao) (b : V1.ContaBancaria)
    (i : nat) (conta : V1.Conta) :
  V1.contas b !! i = Some conta ->
  V1.get_saques_diarios conta >= V1.limite_saques b ->
  V1.limite_saques (V1.operar_todas ops b) = V1.limite_saques b
  /\ exists conta1,
      V1.contas (V1.operar_todas ops b) !! i = Some conta1
      /\ V1.get_saques_diarios conta1 = V1.get_saques_diarios conta
      /\ V1.saldo conta <= V1.saldo conta1.
Proof.
  revert b conta. induction ops as [|op ops IH]; intros b conta Hi Hn; simpl.
  - split; [reflexivity|]. exists conta. split; [exact Hi|]. split; [reflexivity | lia].
  - destruct (V1_operar_passo op b i conta Hi)
      as (Hl & Hls & Hag & [H|[(n & v & t & -> & H0 & Hs & Hc & H)
                              |(n & v & t & -> & H0 & H)]]).
    + destruct (IH (V1.operar op b) conta H) as (E & c1 & H1 & H2 & H3);
        [rewrite Hls; exact Hn|].
      split; [congruence|]. exists c1. auto.
    + lia.
    + destruct (IH (V1.operar (V1.Op_depositar n v t) b)
                  (V1.conta_apos_deposito v t conta) H)
        as (E & c1 & H1 & H2 & H3);
        [rewrite Hls; exact Hn|].
      split; [congruence|]. exists c1.
      split; [exact H1|]. simpl in *. split; [exact H2 | lia].
Qed.

End Contador_de_saques.

(** ** Opening a savings account *)

Section Abertura.

(** The loop of the opening, on an account whose ledger has no deposit:
    the values below 100 are asked again, the first one that reaches 100 is
    deposited by [conta.depositar], and the ledger is not written. *)
Lemma V2_deposito_inicial (recusados : list Z) (v : Z) (resto : list Z)
    (valor : option Z) (o cli : nat) (dm : Z) (ag num : string) (s : Z) :
  Forall (fun x => x < 100) recusados ->
  v >= 100 ->
  exists out,
    V2.deposito_inicial (recusados ++ v :: resto) valor
      (V2.mkConta o (V2.ContaPoupanca dm) ag cli num s [])
    = Retorna tt (V2.mkConta o (V2.ContaPoupanca dm) ag cli num (s + v) []) out.
Proof.
  intros Hr Hv. revert valor.
  induction Hr as [|x l Hx Hl IH]; intros valor; simpl.
  - destruct (decide (V2.numero_de V2.Deposito [] = 0)) as [_|n];
      [|exfalso; apply n; reflexivity].
    destruct (decide (v >= 100)) as [_|n]; [|lia].
    unfold V2.conta_depositar, V2.ContaPoupanca_depositar,
      V2.ContaBancaria_depositar, V2.set_saldo, V2.print, V2.self, mbind, mret,
      V2.Metodo_bind, V2.Metodo_ret.
    simpl. repeat case_decide; try lia. simpl. eexists. reflexivity.
  - destruct (decide (V2.numero_de V2.Deposito [] = 0)) as [_|n];
      [|exfalso; apply n; reflexivity].
    destruct (decide (x >= 100)) as [n|_]; [lia|].
    destruct (IH (Some x)) as [out E]. rewrite E. simpl.
    eexists. reflexivity.
Qed.

(** C9.  When [criar_nova_conta] opens a savings account for a client
    that it finds, the first value of at least 100 that is typed is put on
    the balance by [conta.depositar], not by [Deposito.registrar]: the
    account that is attached to the client has that value as its balance
    and an empty ledger, so its balance is not the sum of its ledger. *)
Theorem C9_abertura_poupanca
    (p : V2.Programa) (identificador : string) (i : nat) (cl : V2.Cliente)
    (recusados : list Z) (v : Z) (resto : list Z) :
  V2.filtrar_cliente identificador (V2.banco_clientes p) = Some (i, cl) ->
  Forall (fun x => x < 100) recusados ->
  v >= 100 ->
  exists conta p1 out,
    V2.criar_nova_conta identificador V2.poupanca (recusados ++ v :: resto) p
    = Retorna true p1 out
    /\ V2.banco_clientes p1
       = <[i := V2.adicionar_conta conta cl]> (V2.banco_clientes p)
    /\ V2.classe conta = V2.ContaPoupanca 100
    /\ V2.saldo conta = v
    /\ V2.extrato conta = []
    /\ V2.saldo conta <> V2.soma_extrato (V2.extrato conta).
Proof.
  intros Hf Hr Hv.
  unfold V2.criar_nova_conta. rewrite Hf.
  unfold V2.ContaBancaria_criar_nova_conta, V2.gerar_numero_conta, V2.novo_oid.
  destruct (V2.contador_poupanca p) as [prefixo sufixo] eqn:Hcont.
  cbn [V2.set_contador V2.proximo_oid V2.nova_ContaPoupanca V2.set_numero_conta
       V2.oid V2.classe V2.agencia V2.cliente V2.saldo V2.extrato].
  destruct (V2_deposito_inicial recusados v resto None (V2.proximo_oid p)
              (V2.cliente_oid cl) 100 "0001"
              (pretty prefixo +:+ "-" +:+ pretty sufixo) 0 Hr Hv) as [out E].
  unfold V2.set_numero_conta, V2.nova_ContaPoupanca.
  cbn [V2.oid V2.classe V2.agencia V2.cliente V2.saldo V2.extrato].
  rewrite E.
  eexists _, _, _. split; [reflexivity|].
  split; [reflexivity|]. split; [reflexivity|].
  split; [simpl; lia|]. split; [reflexivity|]. simpl. lia.
Qed.

(** Joao opens a savings account: 50 is asked again, 150 is taken. *)
Lemma C9_testemunha :
  V2.filtrar_cliente "12345678900" (V2.banco_clientes Exemplos.programa_joao)
  = Some (0%nat,
          V2.mkCliente 0 (V2.PessoaFisica "Joao Silva" "01/01/1990" "12345678900")
                       ["Rua A"; "10"; "Bairro B"] "10" "12345-678" [])
  /\ Forall (fun x => x < 100) [50]
  /\ 150 >= 100
  /\ exists conta p1 out,
      V2.criar_nova_conta "12345678900" V2.poupanca ([50] ++ 150 :: [])
                          Exemplos.programa_joao
      = Retorna true p1 out
      /\ V2.saldo conta = 150
      /\ V2.extrato conta = []
      /\ V2.saldo conta <> V2.soma_extrato (V2.extrato conta).
Proof.
  split; [reflexivity|].
  split; [repeat constructor|].
  split; [lia|].
  destruct (C9_abertura_poupanca Exemplos.programa_joao "12345678900" 0%nat _
              [50] 150 [] eq_refl
              ltac:(repeat constructor) ltac:(lia))
    as (conta & p1 & out & H1 & _ & _ & H2 & H3 & H4).
  exists conta, p1, out. auto.
Defined.
End Abertura.

(** ** The identifiers of the clients *)

Section Identificadores.

Lemma V2_tem_identificador (i : string) (cl : V2.Cliente) :
  V2.tem_identificador i cl <-> V2.identificador_de cl = i.
Proof.
  unfold V2.tem_identificador, V2.identificador_de.
  destruct (V2.pessoa cl); reflexivity.
Qed.

(** [filtrar_cliente] finds nothing exactly when no client of the list
    has the identifier. *)
Lemma V2_filtrar_cliente_None (i : string) (cls : list V2.Cliente) :
  V2.filtrar_cliente i cls = None <-> i ∉ V2.identificador_de <$> cls.
Proof.
  unfold V2.filtrar_cliente. rewrite list_find_None, Forall_forall.
  split.
  - intros H Hin. apply list_elem_of_fmap in Hin as (cl & -> & Hcl).
    apply (H cl Hcl). apply V2_tem_identificador. reflexivity.
  - intros H cl Hcl Ht. apply H. apply list_elem_of_fmap.
    exists cl. split; [|exact Hcl].
    symmetry. apply V2_tem_identificador. exact Ht.
Qed.

(** One registration keeps the identifiers distinct. *)
Lemma V2_cadastrar_cliente_NoDup (f : V2.Ficha) (p : V2.Programa) :
  NoDup (V2.identificador_de <$> V2.banco_clientes p) ->
  NoDup (V2.identificador_de <$> V2.banco_clientes (V2.cadastrar_cliente f p).1).
Proof.
  intros Hnd. unfold V2.cadastrar_cliente.
  destruct (V2.filtrar_cliente (V2.ficha_identificador f) (V2.banco_clientes p))
    as [[i cl]|] eqn:Hf.
  - exact Hnd.
  - apply V2_filtrar_cliente_None in Hf.
    simpl. rewrite fmap_app. apply NoDup_app.
    split; [exact Hnd|]. split.
    + intros x Hx Hx'. apply list_elem_of_singleton in Hx'. subst x.
      apply Hf. exact Hx.
    + apply NoDup_singleton.
Qed.

Lemma V2_cadastrar_todos_NoDup (fs : list V2.Ficha) (p : V2.Programa) :
  NoDup (V2.identificador_de <$> V2.banco_clientes p) ->
  NoDup (V2.identificador_de <$> V2.banco_clientes (V2.cadastrar_todos fs p)).
Proof.
  revert p. induction fs as [|f fs IH]; intros p Hnd; simpl.
  - exact Hnd.
  - apply IH, V2_cadastrar_cliente_NoDup, Hnd.
Qed.

(** C6, as it fails.  [Banco.adicionar_cliente] makes no test: given a
    client whose CPF is already in the list, it appends it, and two clients
    of the bank share the identifier. *)
Lemma C6_contraexemplo :
  let clientes := V2.banco_clientes Exemplos.programa_joao in
  let novo := V2.mkCliente 9 (V2.ficha_pessoa Exemplos.ficha_homonimo)
                           ["Rua D"; "30"; "Bairro E"] "30" "20000-000" [] in
  V2.identificador_de novo ∈ V2.identificador_de <$> clientes
  /\ V2.adicionar_cliente novo clientes <> clientes
  /\ ~ NoDup (V2.identificador_de <$> V2.adicionar_cliente novo clientes).
Proof.
  split; [|split].
  - vm_compute. left.
  - discriminate.
  - apply (proj1 (bool_decide_eq_false _)). vm_compute. reflexivity.
Qed.

(** C6, amended.  The test is in the registration of the menu.
    [cadastrar_cliente] answers that the client is already registered and
    leaves the program as it was whenever a client of the bank has the
    identifier typed, either as CPF or as CNPJ; so a registration keeps the
    identifiers of the bank distinct, and after any sequence of
    registrations from the start no two clients share one.
    [Banco.adicionar_cliente] itself appends whatever it is given. *)
Theorem C6_identificador_unico :
  (forall (f : V2.Ficha) (p : V2.Programa) (cl : V2.Cliente),
      cl ∈ V2.banco_clientes p ->
      V2.identificador_de cl = V2.ficha_identificador f ->
      V2.cadastrar_cliente f p = (p, [Cliente_ja_cadastrado]))
  /\ (forall (f : V2.Ficha) (p : V2.Programa),
        NoDup (V2.identificador_de <$> V2.banco_clientes p) ->
        NoDup (V2.identificador_de
                 <$> V2.banco_clientes (V2.cadastrar_cliente f p).1))
  /\ (forall fs : list V2.Ficha,
        NoDup (V2.identificador_de
                 <$> V2.banco_clientes (V2.cadastrar_todos fs V2.programa_inicial)))
  /\ (forall (cl : V2.Cliente) (clientes : list V2.Cliente),
        V2.adicionar_cliente cl clientes = clientes ++ [cl]).
Proof.
  split; [|split; [|split]].
  - intros f p cl Hin Hid. unfold V2.cadastrar_cliente.
    destruct (V2.filtrar_cliente (V2.ficha_identificador f) (V2.banco_clientes p))
      as [[i c]|] eqn:Hf; [reflexivity|].
    exfalso. apply V2_filtrar_cliente_None in Hf. apply Hf.
    apply list_elem_of_fmap. exists cl. split; [congruence | exact Hin].
  - apply V2_cadastrar_cliente_NoDup.
  - intros fs. apply V2_cadastrar_todos_NoDup. simpl. apply NoDup_nil_2.
  - reflexivity.
Qed.

(** The CPF of Joao typed again, under another name. *)
Lemma C6_testemunha :
  (V2.mkCliente 0 (V2.PessoaFisica "Joao Silva" "01/01/1990" "12345678900")
                ["Rua A"; "10"; "Bairro B"] "10" "12345-678" []
   ∈ V2.banco_clientes Exemplos.programa_joao
   /\ V2.cadastrar_cliente Exemplos.ficha_homonimo Exemplos.programa_joao
      = (Exemplos.programa_joao, [Cliente_ja_cadastrado]))
  /\ (NoDup (V2.identificador_de <$> V2.banco_clientes Exemplos.programa_joao)
      /\ NoDup (V2.identificador_de
                  <$> V2.banco_clientes
                        (V2.cadastrar_cliente Exemplos.ficha_empresa
                                              Exemplos.programa_joao).1)).
Proof.
  split.
  - split; [left|].
    apply (proj1 C6_identificador_unico Exemplos.ficha_homonimo
             Exemplos.programa_joao _ ltac:(left) eq_refl).
  - assert (NoDup (V2.identificador_de <$> V2.banco_clientes Exemplos.programa_joao))
      as H by (vm_compute; apply NoDup_singleton).
    split; [exact H|].
    apply (proj1 (proj2 C6_identificador_unico) Exemplos.ficha_empresa
             Exemplos.programa_joao H).
Defined.

End Identificadores.

(** ** Removing a client *)

Section Exclusao.

(** [l.remove(x)] succeeds when the object is in the list, and takes one
    occurrence of its identity away. *)
Lemma V2_remove_elem {A : Type} (ident : A -> nat) (x : nat) (l : list A) :
  x ∈ ident <$> l ->
  exists l1, V2.remove ident x l = Some l1
             /\ ident <$> l ≡ₚ x :: (ident <$> l1).
Proof.
  induction l as [|y l IH]; simpl; intros Hin.
  - apply elem_of_nil in Hin. contradiction.
  - case_decide as Hy.
    + exists l. split; [reflexivity|]. rewrite Hy. reflexivity.
    + apply elem_of_cons in Hin as [Hin|Hin]; [congruence|].
      destruct (IH Hin) as (l1 & E & Hp). rewrite E. simpl.
      exists (y :: l1). split; [reflexivity|].
      simpl. rewrite Hp. apply perm_swap.
Qed.

(** When each object is in the list once, [l.remove(x)] takes away the
    position where [x] is. *)
Lemma V2_remove_lookup {A : Type} (ident : A -> nat) (l : list A) (i : nat)
    (x : A) :
  NoDup (ident <$> l) ->
  l !! i = Some x ->
  V2.remove ident (ident x) l = Some (delete i l).
Proof.
  revert i. induction l as [|y l IH]; intros i Hnd Hi; [discriminate|].
  simpl in Hnd. apply NoDup_cons in Hnd as [Hy Hnd].
  destruct i as [|i]; simpl in *.
  - inversion Hi; subst. case_decide; [reflexivity | congruence].
  - case_decide as E.
    + exfalso. apply Hy. rewrite E. apply list_elem_of_fmap.
      exists x. split; [reflexivity|].
      apply list_elem_of_lookup. eauto.
    + rewrite (IH i Hnd Hi). reflexivity.
Qed.

(** The loop over the copy of [cliente.contas] empties [cliente.contas]
    and raises no [ValueError], as long as the list of the caller holds the
    accounts of the copy. *)
Lemma V2_excluir_contas_vazia (copia lista cc : list V2.ContaBancaria) :
  V2.oid <$> cc ≡ₚ V2.oid <$> copia ->
  V2.oid <$> copia ⊆+ V2.oid <$> lista ->
  V2.excluir_contas copia lista cc = inr [].
Proof.
  revert lista cc. induction copia as [|a copia IH]; intros lista cc Hp Hs.
  - simpl in *. apply Permutation_nil_r, fmap_nil_inv in Hp. subst. reflexivity.
  - simpl in *.
    apply submseteq_cons_l in Hs as (k & Hk & Hs).
    destruct (V2_remove_elem V2.oid (V2.oid a) lista) as (lista1 & E1 & P1).
    { rewrite Hk. left. }
    destruct (V2_remove_elem V2.oid (V2.oid a) cc) as (cc1 & E2 & P2).
    { rewrite Hp. left. }
    rewrite E1, E2. apply IH.
    + apply (Permutation_cons_inv (a := V2.oid a)).
      rewrite <- P2. exact Hp.
    + assert (k ≡ₚ V2.oid <$> lista1) as <-; [|exact Hs].
      apply (Permutation_cons_inv (a := V2.oid a)).
      rewrite <- Hk. exact P1.
Qed.

(** The accounts of a client of the list are among those that
    [listar_contas] gathers. *)
Lemma V2_contas_em_listar_contas (cls : list V2.Cliente) (i : nat)
    (cl : V2.Cliente) :
  cls !! i = Some cl ->
  V2.listar_contas cls
  = V2.listar_contas (take i cls) ++ V2.contas cl
    ++ V2.listar_contas (drop (S i) cls).
Proof.
  intros Hi. unfold V2.listar_contas.
  rewrite <- (take_drop_middle cls i cl Hi) at 1.
  rewrite fmap_app, concat_app. reflexivity.
Qed.

Lemma NoDup_delete_fora {A : Type} (l : list A) (i : nat) (x : A) :
  NoDup l -> l !! i = Some x -> x ∉ delete i l.
Proof.
  intros Hnd Hi. rewrite delete_take_drop.
  rewrite <- (take_drop_middle l i x Hi) in Hnd.
  apply NoDup_app in Hnd as (_ & H1 & H2).
  apply NoDup_cons in H2 as [H2 _].
  intros Hin. apply elem_of_app in Hin as [Hin|Hin].
  - apply (H1 x Hin). left.
  - exact (H2 Hin).
Qed.

Lemma delete_insert_mesmo {A : Type} (l : list A) (i : nat) (x : A) :
  delete i (<[i := x]> l) = delete i l.
Proof.
  revert i. induction l as [|y l IH]; intros [|i]; simpl; try reflexivity.
  rewrite IH. reflexivity.
Qed.

(** After the position of a key that occurs once is taken away, looking
    the key up finds nothing. *)
Lemma list_find_delete_None {A K : Type} `{EqDecision K} (chave : A -> K)
    (k : K) (l : list A) (i : nat) (x : A) :
  NoDup (chave <$> l) ->
  l !! i = Some x ->
  chave x = k ->
  list_find (fun y => chave y = k) (delete i l) = None.
Proof.
  intros Hnd Hi Hk. apply list_find_None, Forall_forall.
  intros y Hy Hyk.
  apply (NoDup_delete_fora (chave <$> l) i k Hnd).
  - rewrite list_lookup_fmap, Hi. simpl. congruence.
  - rewrite <- list_fmap_delete. apply list_elem_of_fmap.
    exists y. split; [congruence | exact Hy].
Qed.

(** [excluir_cliente] of the class-based variant as entry ['9'] calls it,
    for a client that is found and owns accounts: what the list of clients
    becomes for each pair of answers. *)
Lemma V2_excluir_cliente_casos (cls : list V2.Cliente) (identificador : string)
    (i : nat) (cl : V2.Cliente) (confirmar_contas confirmar_cliente : string) :
  V2.filtrar_cliente identificador cls = Some (i, cl) ->
  V2.contas cl <> [] ->
  NoDup (V2.cliente_oid <$> cls) ->
  V2.excluir_cliente cls (V2.listar_contas cls) identificador
                     confirmar_contas confirmar_cliente
  = if decide (confirmar_contas = "s") then
      if decide (confirmar_cliente = "s") then
        Retorna tt (delete i cls)
                [Cliente_possui_contas; Contas_excluidas; Cliente_excluido]
      else
        Retorna tt (<[i := V2.set_contas [] cl]> cls)
                [Cliente_possui_contas; Contas_excluidas; Exclusao_cancelada]
    else
      Retorna tt cls [Cliente_possui_contas; Exclusao_cancelada_contas].
Proof.
  intros Hf Hne Hnd. unfold V2.excluir_cliente. rewrite Hf.
  apply list_find_Some in Hf as (Hi & _ & _).
  destruct (V2.contas cl) as [|c0 cs] eqn:Hcs; [contradiction|].
  destruct (decide (confirmar_contas = "s")) as [_|_]; [|reflexivity].
  rewrite V2_excluir_contas_vazia.
  - destruct (decide (confirmar_cliente = "s")) as [_|_]; [|reflexivity].
    rewrite (V2_remove_lookup V2.cliente_oid
               (<[i := V2.set_contas [] cl]> cls) i (V2.set_contas [] cl)).
    + rewrite delete_insert_mesmo. reflexivity.
    + rewrite list_fmap_insert. simpl.
      rewrite list_insert_id; [exact Hnd|].
      rewrite list_lookup_fmap, Hi. reflexivity.
    + apply list_lookup_insert_eq. eapply lookup_lt_Some; eauto.
  - reflexivity.
  - rewrite (V2_contas_em_listar_contas cls i cl Hi), Hcs.
    rewrite !fmap_app. apply submseteq_middle.
Qed.

(** The accounts of the client removed are not among those of the clients
    that stay. *)
Lemma V2_contas_excluidas (cls : list V2.Cliente) (i : nat) (cl : V2.Cliente)
    (conta : V2.ContaBancaria) :
  NoDup (V2.oid <$> V2.listar_contas cls) ->
  cls !! i = Some cl ->
  conta ∈ V2.contas cl ->
  V2.oid conta ∉ V2.oid <$> V2.listar_contas (delete i cls).
Proof.
  intros Hnd Hi Hc.
  rewrite (V2_contas_em_listar_contas cls i cl Hi), !fmap_app in Hnd.
  apply NoDup_app in Hnd as (_ & H1 & Hnd).
  apply NoDup_app in Hnd as (_ & H2 & _).
  assert (V2.oid conta ∈ V2.oid <$> V2.contas cl) as Hin.
  { apply list_elem_of_fmap. exists conta. split; [reflexivity | exact Hc]. }
  rewrite delete_take_drop. unfold V2.listar_contas in *.
  rewrite fmap_app, concat_app, fmap_app.
  intros Hx. apply elem_of_app in Hx as [Hx|Hx].
  - apply (H1 _ Hx). apply elem_of_app. left. exact Hin.
  - exact (H2 _ Hin Hx).
Qed.

(** [list.remove] of the dictionary-based variant takes away the client
    that [filtrar_cliente] found. *)
Lemma V1_remove_encontrado (cls : list V1.Cliente) (x : string) (i : nat)
    (cl : V1.Cliente) :
  list_find (fun c => V1.cpf c = x) cls = Some (i, cl) ->
  V1.remove cl cls = Some (delete i cls).
Proof.
  revert i. induction cls as [|y cls IH]; intros i Hf; [discriminate|].
  simpl in *. case_decide as Hy.
  - inversion Hf; subst. case_decide; [reflexivity | congruence].
  - destruct (list_find _ cls) as [[j c]|] eqn:E; simpl in Hf; [|discriminate].
    inversion Hf; subst.
    pose proof (proj1 (list_find_Some _ _ _ _) E) as (_ & Hcl & _).
    case_decide as Hyc; [congruence|].
    rewrite (IH j eq_refl). reflexivity.
Qed.

(** When every account has an owner, the comprehension of
    [excluir_cliente] raises nothing and keeps exactly the accounts whose
    owner has another CPF. *)
Lemma V1_contas_de_outros_dono (x : string) (l : list V1.Conta) :
  Forall (fun conta => is_Some (V1.cliente conta)) l ->
  exists cs,
    V1.contas_de_outros x l = Some cs
    /\ forall conta,
        conta ∈ cs
        <-> conta ∈ l
            /\ exists cl, V1.cliente conta = Some cl /\ V1.cpf cl <> x.
Proof.
  induction 1 as [|conta l [cl Hcl] Hl (cs & E & Hcs)]; simpl.
  - exists []. split; [reflexivity|]. intros c. split.
    + intros Hc. apply elem_of_nil in Hc. contradiction.
    + intros [Hc _]. exact Hc.
  - rewrite Hcl, E. simpl. eexists. split; [reflexivity|].
    intros c. case_decide as Hx.
    + rewrite !elem_of_cons, Hcs. split.
      * intros [->|[Hc Hd]]; [split; [left; reflexivity | eauto]|].
        split; [right; exact Hc | exact Hd].
      * intros [[->|Hc] Hd]; [left; reflexivity | right; auto].
    + rewrite elem_of_cons, Hcs. split.
      * intros [Hc Hd]. split; [right; exact Hc | exact Hd].
      * intros [[->|Hc] Hd]; [|auto].
        destruct Hd as (cl' & Hcl' & Hne). congruence.
Qed.

End Exclusao.

Section Exclusao_em_cascata.

(** C2, as it fails.  Joao owns two accounts.  He answers yes to the
    removal of his accounts and no to his own removal: the accounts are
    gone from the bank and he is still a client of it. *)
Lemma C2_contraexemplo :
  let p := Exemplos.programa_dois_clientes in
  let depois := estado (V2.opcao_9 "12345678900" "s" "n" p) in
  length (V2.listar_contas (V2.banco_clientes p)) = 2%nat
  /\ V2.listar_contas (V2.banco_clientes depois) = []
  /\ is_Some (V2.filtrar_cliente "12345678900" (V2.banco_clientes depois))
  /\ depois <> p.
Proof.
  split; [reflexivity|]. split; [reflexivity|].
  split; [vm_compute; eauto | discriminate].
Qed.

(** C2, amended.  Class-based variant, entry ['9'] of the menu, for a
    client that is found and owns accounts in a well-formed bank: without
    the confirmation for the accounts nothing changes; with it, all the
    accounts of the client are detached, and then the client is removed
    only if the second confirmation is given as well.  With both, the client
    and the accounts are gone and looking the identifier up finds nothing;
    with the first only, the client stays, without accounts.
    Dictionary-based variant, for a client that is found, every account
    having an owner and no CPF being registered twice: with the
    confirmation the client and the accounts of that CPF are removed
    together and looking the CPF up finds nothing; without it nothing
    changes. *)
Theorem C2_exclusao_em_cascata :
  (forall (p : V2.Programa) (identificador : string) (i : nat)
          (cl : V2.Cliente) (confirmar_contas confirmar_cliente : string),
      V2.filtrar_cliente identificador (V2.banco_clientes p) = Some (i, cl) ->
      V2.contas cl <> [] ->
      V2.bem_formado (V2.banco_clientes p) ->
      (confirmar_contas <> "s" ->
       V2.opcao_9 identificador confirmar_contas confirmar_cliente p
       = Retorna tt p [Cliente_possui_contas; Exclusao_cancelada_contas])
      /\ (confirmar_contas = "s" -> confirmar_cliente = "s" ->
          V2.opcao_9 identificador confirmar_contas confirmar_cliente p
          = Retorna tt (V2.set_clientes (delete i (V2.banco_clientes p)) p)
                    [Cliente_possui_contas; Contas_excluidas; Cliente_excluido]
          /\ V2.filtrar_cliente identificador (delete i (V2.banco_clientes p))
             = None
          /\ forall conta,
              conta ∈ V2.contas cl ->
              V2.oid conta
              ∉ V2.oid <$> V2.listar_contas (delete i (V2.banco_clientes p)))
      /\ (confirmar_contas = "s" -> confirmar_cliente <> "s" ->
          V2.opcao_9 identificador confirmar_contas confirmar_cliente p
          = Retorna tt
              (V2.set_clientes
                 (<[i := V2.set_contas [] cl]> (V2.banco_clientes p)) p)
              [Cliente_possui_contas; Contas_excluidas; Exclusao_cancelada]
          /\ V2.filtrar_cliente identificador
               (<[i := V2.set_contas [] cl]> (V2.banco_clientes p))
             = Some (i, V2.set_contas [] cl)))
  /\ (forall (b : V1.ContaBancaria) (cpf_ opcao : string) (cl : V1.Cliente),
        V1.filtrar_cliente cpf_ b = Some cl ->
        Forall (fun conta => is_Some (V1.cliente conta)) (V1.contas b) ->
        NoDup (V1.cpf <$> V1.clientes b) ->
        (opcao <> "s" -> V1.excluir_cliente cpf_ opcao b = Retorna tt b [])
        /\ (opcao = "s" ->
            exists b1,
              V1.excluir_cliente cpf_ opcao b
              = Retorna tt b1 [Cliente_e_contas_excluidos]
              /\ V1.filtrar_cliente cpf_ b1 = None
              /\ forall conta,
                  conta ∈ V1.contas b1
                  <-> conta ∈ V1.contas b
                      /\ exists d, V1.cliente conta = Some d
                                   /\ V1.cpf d <> cpf_)).
Proof.
  split.
  - intros p identificador i cl cc ccl Hf Hne (Hoid & Hid & Hcontas).
    pose proof (V2_excluir_cliente_casos _ identificador i cl cc ccl Hf Hne Hoid)
      as E.
    pose proof (proj1 (list_find_Some _ _ _ _) Hf) as (Hi & Hcl & Hantes).
    unfold V2.opcao_9. rewrite E. clear E.
    split; [|split].
    + intros Hn. rewrite decide_False by exact Hn. destruct p; reflexivity.
    + intros -> ->. simpl. split; [reflexivity|]. split.
      * apply V2_filtrar_cliente_None. rewrite list_fmap_delete.
        apply NoDup_delete_fora; [exact Hid|].
        rewrite list_lookup_fmap, Hi. simpl. f_equal.
        apply V2_tem_identificador. exact Hcl.
      * intros conta Hc. apply (V2_contas_excluidas _ i cl conta Hcontas Hi Hc).
    + intros -> Hn. rewrite decide_True by reflexivity.
      rewrite decide_False by exact Hn. split; [reflexivity|].
      apply list_find_Some. split; [|split].
      * apply list_lookup_insert_eq. eapply lookup_lt_Some; eauto.
      * exact Hcl.
      * intros j y Hj Hlt. rewrite list_lookup_insert_ne in Hj by lia.
        exact (Hantes j y Hj Hlt).
  - intros b cpf_ opcao cl Hf Hdono Hnd.
    unfold V1.filtrar_cliente in Hf.
    destruct (list_find (fun c => V1.cpf c = cpf_) (V1.clientes b))
      as [[i c]|] eqn:E; [|discriminate].
    simpl in Hf. inversion Hf; subst c.
    pose proof (proj1 (list_find_Some _ _ _ _) E) as (Hi & Hcl & _).
    unfold V1.excluir_cliente, V1.filtrar_cliente. rewrite E. simpl.
    split.
    + intros Hn. rewrite decide_False by exact Hn. reflexivity.
    + intros ->. rewrite decide_True by reflexivity.
      rewrite (V1_remove_encontrado _ cpf_ i cl E).
      destruct (V1_contas_de_outros_dono cpf_ (V1.contas b) Hdono)
        as (cs & Ecs & Hcs).
      simpl. rewrite Ecs. eexists. split; [reflexivity|].
      split; [|exact Hcs].
      simpl. rewrite (list_find_delete_None V1.cpf cpf_ _ i cl Hnd Hi Hcl).
      reflexivity.
Qed.

(** Joao, who owns two accounts, in the class-based variant; Maria, who
    owns one, in the dictionary-based one. *)
Lemma C2_testemunha :
  (V2.bem_formado (V2.banco_clientes Exemplos.programa_dois_clientes)
   /\ V2.opcao_9 "12345678900" "s" "s" Exemplos.programa_dois_clientes
      = Retorna tt
          (V2.set_clientes
             (delete 0%nat (V2.banco_clientes Exemplos.programa_dois_clientes))
             Exemplos.programa_dois_clientes)
          [Cliente_possui_contas; Contas_excluidas; Cliente_excluido]
   /\ V2.filtrar_cliente "12345678900"
        (delete 0%nat (V2.banco_clientes Exemplos.programa_dois_clientes))
      = None)
  /\ (V1.filtrar_cliente "12345678900" Exemplos.banco_v1_tres_saques
      = Some Exemplos.maria
      /\ Forall (fun conta => is_Some (V1.cliente conta))
                (V1.contas Exemplos.banco_v1_tres_saques)
      /\ NoDup (V1.cpf <$> V1.clientes Exemplos.banco_v1_tres_saques)
      /\ exists b1,
          V1.excluir_cliente "12345678900" "s" Exemplos.banco_v1_tres_saques
          = Retorna tt b1 [Cliente_e_contas_excluidos]
          /\ V1.filtrar_cliente "12345678900" b1 = None).
Proof.
  assert (V2.bem_formado (V2.banco_clientes Exemplos.programa_dois_clientes))
    as Hbf.
  { unfold V2.bem_formado. vm_compute. repeat split.
    - apply NoDup_cons. split; [|apply NoDup_singleton].
      intros H. apply list_elem_of_singleton in H. discriminate.
    - apply NoDup_cons. split; [|apply NoDup_singleton].
      intros H. apply list_elem_of_singleton in H. discriminate.
    - apply NoDup_cons. split; [|apply NoDup_singleton].
      intros H. apply list_elem_of_singleton in H. discriminate. }
  split.
  - split; [exact Hbf|].
    destruct (proj1 C2_exclusao_em_cascata Exemplos.programa_dois_clientes
                "12345678900" 0%nat _ "s" "s" eq_refl
                ltac:(simpl; discriminate) Hbf)
      as (_ & H & _).
    destruct (H eq_refl eq_refl) as (H1 & H2 & _).
    split; [exact H1 | exact H2].
  - assert (Forall (fun conta => is_Some (V1.cliente conta))
                   (V1.contas Exemplos.banco_v1_tres_saques)) as Hd.
    { vm_compute. repeat constructor. eauto. }
    assert (NoDup (V1.cpf <$> V1.clientes Exemplos.banco_v1_tres_saques)) as Hn.
    { vm_compute. apply NoDup_singleton. }
    split; [reflexivity|]. split; [exact Hd|]. split; [exact Hn|].
    destruct (proj2 C2_exclusao_em_cascata Exemplos.banco_v1_tres_saques
                "12345678900" "s" Exemplos.maria eq_refl Hd Hn)
      as (_ & H).
    destruct (H eq_refl) as (b1 & H1 & H2 & _).
    exists b1. split; [exact H1 | exact H2].
Defined.

(** What the hypothesis on the owners excludes: with an account without
    owner in the bank, [excluir_cliente] of the dictionary-based variant
    raises [TypeError] after the client is removed and before any account
    is. *)
Lemma V1_excluir_cliente_conta_sem_dono :
  V1.excluir_cliente "12345678900" "s" Exemplos.banco_v1_conta_sem_dono
  = Levanta TypeError (V1.set_clientes [] Exemplos.banco_v1_conta_sem_dono) [].
Proof. reflexivity. Qed.

End Exclusao_em_cascata.

(** ** What the runs of the program keep *)

Section Invariantes.

(** Dictionary-based variant: no operation makes a balance negative. *)
Lemma V1_saldo_nao_negativo (op : V1.Operacao) (b : V1.ContaBancaria) :
  Forall (fun conta => 0 <= V1.saldo conta) (V1.contas b) ->
  Forall (fun conta => 0 <= V1.saldo conta) (V1.contas (V1.operar op b)).
Proof.
  intros H. apply Forall_lookup. intros i c1 Hi.
  assert (length (V1.contas (V1.operar op b)) = length (V1.contas b)) as Hlen.
  { destruct op as [n v t|n v t]; unfold V1.operar, V1.sacar, V1.depositar,
      V1.log_transacao, V1.sacar_corpo, V1.depositar_corpo;
      destruct (V1.buscar_conta _ _ _) as [[j cj]|]; simpl;
      repeat case_decide; simpl; rewrite ?length_insert; reflexivity. }
  destruct (lookup_lt_is_Some_2 (V1.contas b) i) as [c Hc].
  { rewrite <- Hlen. eapply lookup_lt_Some; eauto. }
  pose proof (proj1 (Forall_lookup _ _) H i c Hc) as H0. simpl in H0.
  destruct (V1_operar_passo op b i c Hc)
    as (_ & _ & _ & [E|[(n & v & t & _ & Hv & Hs & _ & E)
                       |(n & v & t & _ & Hv & E)]]);
    rewrite E in Hi; inversion Hi; subst; simpl; lia.
Qed.

(** Dictionary-based variant: [cadastrar_cliente] keeps the CPFs of the
    clients distinct. *)
Lemma V1_cadastrar_cliente_NoDup (ficha : V1.Cliente) (b : V1.ContaBancaria) :
  NoDup (V1.cpf <$> V1.clientes b) ->
  NoDup (V1.cpf <$> V1.clientes (V1.cadastrar_cliente ficha b).1).
Proof.
  intros Hnd. unfold V1.cadastrar_cliente, V1.filtrar_cliente.
  destruct (list_find (fun cl => V1.cpf cl = V1.cpf ficha) (V1.clientes b))
    as [[i c]|] eqn:E; simpl; [exact Hnd|].
  rewrite fmap_app. apply NoDup_app. split; [exact Hnd|]. split.
  - intros x Hx Hx'. apply list_elem_of_singleton in Hx'. subst x.
    apply list_elem_of_fmap in Hx as (cl & Hcl & Hin).
    apply list_find_None in E.
    apply (proj1 (Forall_forall _ _) E cl Hin). congruence.
  - apply NoDup_singleton.
Qed.

(** Dictionary-based variant: an account without owner can be reached. *)
Lemma V1_conta_sem_dono_alcancavel :
  V1.cliente <$> V1.contas Exemplos.banco_v1_conta_sem_dono
  = [Some Exemplos.maria; None].
Proof. reflexivity. Qed.

(** Class-based variant: giving the clients their accounts back changes
    neither who the clients are nor, when nothing was added to or taken
    from the list, which accounts there are. *)
Lemma V2_repartir_cliente_oid (todas : list V2.ContaBancaria)
    (cls : list V2.Cliente) :
  V2.cliente_oid <$> V2.repartir todas cls = V2.cliente_oid <$> cls.
Proof.
  revert todas. induction cls as [|cl cls IH]; intros todas; simpl;
    [reflexivity|]. rewrite IH. reflexivity.
Qed.

Lemma V2_repartir_identificador (todas : list V2.ContaBancaria)
    (cls : list V2.Cliente) :
  V2.identificador_de <$> V2.repartir todas cls = V2.identificador_de <$> cls.
Proof.
  revert todas. induction cls as [|cl cls IH]; intros todas; simpl;
    [reflexivity|]. rewrite IH. reflexivity.
Qed.

Lemma V2_listar_contas_repartir (todas : list V2.ContaBancaria)
    (cls : list V2.Cliente) :
  length todas = length (V2.listar_contas cls) ->
  V2.listar_contas (V2.repartir todas cls) = todas.
Proof.
  unfold V2.listar_contas. revert todas.
  induction cls as [|cl cls IH]; intros todas Hlen; csimpl in *.
  - destruct todas; [reflexivity | discriminate].
  - rewrite length_app in Hlen. rewrite IH.
    + apply take_drop.
    + rewrite length_drop. lia.
Qed.

Lemma V2_repartir_listar_contas (cls : list V2.Cliente) :
  V2.repartir (V2.listar_contas cls) cls = cls.
Proof.
  unfold V2.listar_contas. induction cls as [|cl cls IH]; csimpl;
    [reflexivity|].
  rewrite take_app_length, drop_app_length, IH. destruct cl; reflexivity.
Qed.

(** One account of a list is replaced by what a transaction made of it:
    the identities in the list stay. *)
Lemma V2_oid_apos_registrar (t : V2.Transacao) (v : Z) (agora : string)
    (l : list V2.ContaBancaria) (k : nat) (conta : V2.ContaBancaria) :
  l !! k = Some conta ->
  V2.oid <$> <[k := (V2.registrar t v agora conta).1.2]> l = V2.oid <$> l.
Proof.
  intros Hk. rewrite list_fmap_insert. apply list_insert_id.
  rewrite list_lookup_fmap, Hk. simpl. f_equal.
  destruct (registrar_efeito t v agora conta) as [[out [_ E]]|[out E]];
    rewrite E; reflexivity.
Qed.

Lemma V2_sacar_oids (l : list V2.ContaBancaria) (n : string) (v : Z)
    (agora : string) :
  V2.oid <$> (V2.sacar l n v agora).1.2 = V2.oid <$> l.
Proof.
  unfold V2.sacar, V2.buscar_conta.
  destruct (list_find _ l) as [[k conta]|] eqn:E; [|reflexivity].
  apply list_find_Some in E as (Hk & _ & _).
  repeat case_decide; try reflexivity.
  pose proof (V2_oid_apos_registrar V2.Saque v agora l k conta Hk) as Hoid.
  unfold V2.registrar in Hoid.
  destruct (V2.Saque_registrar v agora conta) as [[r c1] out]. exact Hoid.
Qed.

Lemma V2_depositar_oids (l : list V2.ContaBancaria) (n : string) (v : Z)
    (agora : string) :
  V2.oid <$> (V2.depositar l n v agora).1.2 = V2.oid <$> l.
Proof.
  unfold V2.depositar, V2.buscar_conta.
  destruct (list_find _ l) as [[k conta]|] eqn:E; [|reflexivity].
  apply list_find_Some in E as (Hk & _ & _).
  repeat case_decide; try reflexivity.
  pose proof (V2_oid_apos_registrar V2.Deposito v agora l k conta Hk) as Hoid.
  unfold V2.registrar in Hoid.
  destruct (V2.Deposito_registrar v agora conta) as [[r c1] out]. exact Hoid.
Qed.

(** An invariant is about four things only. *)
Lemma V2_invariante_de (p q : V2.Programa) :
  V2.cliente_oid <$> V2.banco_clientes q = V2.cliente_oid <$> V2.banco_clientes p ->
  V2.identificador_de <$> V2.banco_clientes q
  = V2.identificador_de <$> V2.banco_clientes p ->
  V2.oid <$> V2.listar_contas (V2.banco_clientes q)
  = V2.oid <$> V2.listar_contas (V2.banco_clientes p) ->
  (V2.proximo_oid p <= V2.proximo_oid q)%nat ->
  V2.invariante p -> V2.invariante q.
Proof.
  intros H1 H2 H3 H4 ((Ha & Hb & Hc) & Hd & He).
  unfold V2.invariante, V2.bem_formado. rewrite H1, H2, H3.
  repeat split; try assumption.
  - eapply Forall_impl; [exact Hd|]. simpl. intros. lia.
  - eapply Forall_impl; [exact He|]. simpl. intros. lia.
Qed.

Lemma V2_invariante_opcao_1 (n : string) (v : Z) (agora : string)
    (p : V2.Programa) :
  V2.invariante p -> V2.invariante (V2.opcao_1 n v agora p).1.2.
Proof.
  pose proof (V2_sacar_oids (V2.listar_contas (V2.banco_clientes p)) n v agora)
    as Ho.
  unfold V2.opcao_1.
  destruct (V2.sacar _ n v agora) as [[r todas] out]. simpl in *.
  apply V2_invariante_de; simpl.
  - apply V2_repartir_cliente_oid.
  - apply V2_repartir_identificador.
  - rewrite V2_listar_contas_repartir; [exact Ho|].
    rewrite <- (length_fmap V2.oid), Ho, length_fmap. reflexivity.
  - lia.
Qed.

Lemma V2_invariante_opcao_2 (n : string) (v : Z) (agora : string)
    (p : V2.Programa) :
  V2.invariante p -> V2.invariante (V2.opcao_2 n v agora p).1.2.
Proof.
  pose proof (V2_depositar_oids (V2.listar_contas (V2.banco_clientes p)) n v agora)
    as Ho.
  unfold V2.opcao_2.
  destruct (V2.depositar _ n v agora) as [[r todas] out]. simpl in *.
  apply V2_invariante_de; simpl.
  - apply V2_repartir_cliente_oid.
  - apply V2_repartir_identificador.
  - rewrite V2_listar_contas_repartir; [exact Ho|].
    rewrite <- (length_fmap V2.oid), Ho, length_fmap. reflexivity.
  - lia.
Qed.

Lemma Forall_menor_S (n : nat) (l : list nat) :
  Forall (fun o => (o < n)%nat) l -> Forall (fun o => (o < S n)%nat) l.
Proof. intros H. eapply Forall_impl; [exact H|]. simpl. intros. lia. Qed.

Lemma Forall_menor_fora (n : nat) (l : list nat) :
  Forall (fun o => (o < n)%nat) l -> n ∉ l.
Proof.
  intros H Hin. pose proof (proj1 (Forall_forall _ _) H n Hin) as Hn.
  simpl in Hn. lia.
Qed.

Lemma V2_invariante_cadastrar (f : V2.Ficha) (p : V2.Programa) :
  V2.invariante p -> V2.invariante (V2.cadastrar_cliente f p).1.
Proof.
  intros Hinv.
  pose proof (V2_cadastrar_cliente_NoDup f p) as Hid.
  destruct Hinv as ((Ha & Hb & Hc) & Hd & He).
  specialize (Hid Hb). revert Hid.
  unfold V2.cadastrar_cliente.
  destruct (V2.filtrar_cliente (V2.ficha_identificador f) (V2.banco_clientes p))
    as [[i cl]|]; simpl; intros Hid.
  - repeat split; assumption.
  - unfold V2.invariante, V2.bem_formado, V2.listar_contas. simpl.
    rewrite !fmap_app, concat_app. simpl. rewrite !app_nil_r.
    repeat split.
    + apply NoDup_app. split; [exact Ha|]. split; [|apply NoDup_singleton].
      intros x Hx Hx'. apply list_elem_of_singleton in Hx'. subst x.
      exact (Forall_menor_fora _ _ Hd Hx).
    + rewrite fmap_app in Hid. exact Hid.
    + exact Hc.
    + apply Forall_app. split; [apply Forall_menor_S, Hd|].
      apply Forall_singleton. lia.
    + apply Forall_menor_S, He.
Qed.

(** The loop of the opening hands back the object it was given. *)
Lemma V2_deposito_inicial_oid (valores : list Z) (valor : option Z)
    (conta : V2.ContaBancaria) :
  match V2.deposito_inicial valores valor conta with
  | Retorna _ c1 _ => V2.oid c1 = V2.oid conta
  | _ => True
  end.
Proof.
  revert valor conta. induction valores as [|v vs IH]; intros valor conta;
    simpl.
  - case_decide; [exact I|]. destruct valor; exact I.
  - case_decide; [|destruct valor; exact I].
    case_decide.
    + destruct (depositar_efeito v conta) as (s & _ & E).
      destruct (V2.conta_depositar v conta) as [[r c1] out].
      simpl in E. subst c1. destruct r; [reflexivity|].
      specialize (IH (Some v)
                     (V2.mkConta (V2.oid conta) (V2.classe conta)
                                 (V2.agencia conta) (V2.cliente conta)
                                 (V2.numero_conta conta) s (V2.extrato conta))).
      destruct (V2.deposito_inicial vs _ _); simpl in *; auto.
    + specialize (IH (Some v) conta).
      destruct (V2.deposito_inicial vs _ _); simpl in *; auto.
Qed.

(** A client of the list receives one more account. *)
Lemma V2_listar_contas_adicionar (cls : list V2.Cliente) (i : nat)
    (cl : V2.Cliente) (conta : V2.ContaBancaria) :
  cls !! i = Some cl ->
  V2.oid <$> V2.listar_contas (<[i := V2.adicionar_conta conta cl]> cls)
  ≡ₚ V2.oid conta :: (V2.oid <$> V2.listar_contas cls).
Proof.
  intros Hi.
  rewrite (V2_contas_em_listar_contas cls i cl Hi).
  rewrite (V2_contas_em_listar_contas (<[i := V2.adicionar_conta conta cl]> cls)
             i (V2.adicionar_conta conta cl)).
  - rewrite take_insert_ge by lia. rewrite drop_insert_lt by lia.
    simpl. rewrite !fmap_app. simpl.
    rewrite <- !app_assoc. simpl.
    rewrite (Permutation_middle _ _ (V2.oid conta)).
    rewrite (Permutation_middle _ _ (V2.oid conta)). reflexivity.
  - apply list_lookup_insert_eq. eapply lookup_lt_Some; eauto.
Qed.

Lemma V2_invariante_adicionar (p q : V2.Programa) (i : nat) (cl : V2.Cliente)
    (c1 : V2.ContaBancaria) :
  V2.invariante p ->
  V2.banco_clientes p !! i = Some cl ->
  V2.oid c1 = V2.proximo_oid p ->
  V2.banco_clientes q = <[i := V2.adicionar_conta c1 cl]> (V2.banco_clientes p) ->
  V2.proximo_oid q = S (V2.proximo_oid p) ->
  V2.invariante q.
Proof.
  intros ((Ha & Hb & Hc) & Hd & He) Hi Hc1 Hq Hprox.
  unfold V2.invariante, V2.bem_formado. rewrite Hq, Hprox.
  assert (V2.cliente_oid <$> <[i := V2.adicionar_conta c1 cl]> (V2.banco_clientes p)
          = V2.cliente_oid <$> V2.banco_clientes p) as ->.
  { rewrite list_fmap_insert. apply list_insert_id.
    rewrite list_lookup_fmap, Hi. reflexivity. }
  assert (V2.identificador_de
            <$> <[i := V2.adicionar_conta c1 cl]> (V2.banco_clientes p)
          = V2.identificador_de <$> V2.banco_clientes p) as ->.
  { rewrite list_fmap_insert. apply list_insert_id.
    rewrite list_lookup_fmap, Hi. reflexivity. }
  rewrite (V2_listar_contas_adicionar _ i cl c1 Hi), Hc1.
  repeat split; try assumption.
  - apply NoDup_cons. split; [|exact Hc].
    apply (Forall_menor_fora _ _ He).
  - apply Forall_menor_S, Hd.
  - apply Forall_cons. split; [lia | apply Forall_menor_S, He].
Qed.

Lemma V2_invariante_criar_conta (identificador : string)
    (tipo_conta : V2.TipoConta) (valores : list Z) (p : V2.Programa) :
  V2.invariante p ->
  V2.invariante (estado (V2.criar_nova_conta identificador tipo_conta valores p)).
Proof.
  intros Hinv. unfold V2.criar_nova_conta.
  destruct (V2.filtrar_cliente identificador (V2.banco_clientes p))
    as [[i cl]|] eqn:Hf; [|exact Hinv].
  apply list_find_Some in Hf as (Hi & _ & _).
  unfold V2.ContaBancaria_criar_nova_conta, V2.gerar_numero_conta, V2.novo_oid.
  destruct tipo_conta.
  - destruct (V2.contador_corrente p) as [prefixo sufixo]. simpl.
    eapply (V2_invariante_adicionar p _ i cl); eauto; reflexivity.
  - destruct (V2.contador_poupanca p) as [prefixo sufixo].
    cbn [V2.set_contador V2.proximo_oid V2.banco_clientes].
    match goal with
    | |- context [V2.deposito_inicial valores None ?c] =>
        pose proof (V2_deposito_inicial_oid valores None c) as Hoid;
        destruct (V2.deposito_inicial valores None c) as [[] c1 out|e c1 out|c1 out]
    end; simpl.
    + eapply (V2_invariante_adicionar p _ i cl); eauto; reflexivity.
    + apply (V2_invariante_de p); simpl; try reflexivity; [lia | exact Hinv].
    + apply (V2_invariante_de p); simpl; try reflexivity; [lia | exact Hinv].
Qed.

Lemma Forall_sublist {A : Type} (P : A -> Prop) (l k : list A) :
  l `sublist_of` k -> Forall P k -> Forall P l.
Proof.
  intros Hs Hk. apply Forall_forall. intros x Hx.
  apply (proj1 (Forall_forall _ _) Hk). eapply elem_of_sublist; eauto.
Qed.

(** Taking clients or accounts away keeps the invariant. *)
Lemma V2_invariante_sub (p q : V2.Programa) :
  V2.cliente_oid <$> V2.banco_clientes q
    `sublist_of` V2.cliente_oid <$> V2.banco_clientes p ->
  V2.identificador_de <$> V2.banco_clientes q
    `sublist_of` V2.identificador_de <$> V2.banco_clientes p ->
  V2.oid <$> V2.listar_contas (V2.banco_clientes q)
    `sublist_of` V2.oid <$> V2.listar_contas (V2.banco_clientes p) ->
  V2.proximo_oid q = V2.proximo_oid p ->
  V2.invariante p -> V2.invariante q.
Proof.
  intros H1 H2 H3 H4 ((Ha & Hb & Hc) & Hd & He).
  unfold V2.invariante, V2.bem_formado. rewrite H4.
  repeat split.
  - exact (sublist_NoDup _ _ Ha H1).
  - exact (sublist_NoDup _ _ Hb H2).
  - exact (sublist_NoDup _ _ Hc H3).
  - exact (Forall_sublist _ _ _ H1 Hd).
  - exact (Forall_sublist _ _ _ H3 He).
Qed.

Lemma V2_listar_contas_delete (cls : list V2.Cliente) (i : nat)
    (cl : V2.Cliente) :
  cls !! i = Some cl ->
  V2.listar_contas (delete i cls) `sublist_of` V2.listar_contas cls.
Proof.
  intros Hi.
  rewrite (V2_contas_em_listar_contas cls i cl Hi), delete_take_drop.
  unfold V2.listar_contas. rewrite fmap_app, concat_app.
  apply sublist_app; [reflexivity|]. apply sublist_inserts_l. reflexivity.
Qed.

Lemma V2_listar_contas_esvaziar (cls : list V2.Cliente) (i : nat)
    (cl : V2.Cliente) :
  cls !! i = Some cl ->
  V2.listar_contas (<[i := V2.set_contas [] cl]> cls)
    `sublist_of` V2.listar_contas cls.
Proof.
  intros Hi.
  rewrite (V2_contas_em_listar_contas cls i cl Hi).
  rewrite (V2_contas_em_listar_contas (<[i := V2.set_contas [] cl]> cls) i
             (V2.set_contas [] cl)).
  - rewrite take_insert_ge by lia. rewrite drop_insert_lt by lia. simpl.
    apply sublist_app; [reflexivity|]. apply sublist_inserts_l. reflexivity.
  - apply list_lookup_insert_eq. eapply lookup_lt_Some; eauto.
Qed.

Lemma V2_invariante_opcao_9 (identificador confirmar_contas confirmar_cliente : string)
    (p : V2.Programa) :
  V2.invariante p ->
  V2.invariante
    (estado (V2.opcao_9 identificador confirmar_contas confirmar_cliente p)).
Proof.
  intros Hinv.
  assert (forall cls,
             cls = V2.banco_clientes p
             \/ (exists i cl, V2.banco_clientes p !! i = Some cl
                              /\ cls = delete i (V2.banco_clientes p))
             \/ (exists i cl, V2.banco_clientes p !! i = Some cl
                              /\ cls = <[i := V2.set_contas [] cl]>
                                         (V2.banco_clientes p)) ->
             V2.invariante (V2.set_clientes cls p)) as Hcasos.
  { intros cls [->|[(i & cl & Hi & ->)|(i & cl & Hi & ->)]];
      apply (V2_invariante_sub p); simpl; try reflexivity; try exact Hinv.
    - rewrite list_fmap_delete. apply sublist_delete.
    - rewrite list_fmap_delete. apply sublist_delete.
    - apply fmap_sublist, (V2_listar_contas_delete _ i cl Hi).
    - rewrite list_fmap_insert, list_insert_id; [reflexivity|].
      rewrite list_lookup_fmap, Hi. reflexivity.
    - rewrite list_fmap_insert, list_insert_id; [reflexivity|].
      rewrite list_lookup_fmap, Hi. reflexivity.
    - apply fmap_sublist, V2_listar_contas_esvaziar, Hi. }
  destruct Hinv as ((Ha & _) & _).
  unfold V2.opcao_9.
  destruct (V2.filtrar_cliente identificador (V2.banco_clientes p))
    as [[i cl]|] eqn:Hf.
  - pose proof (proj1 (list_find_Some _ _ _ _) Hf) as (Hi & _ & _).
    destruct (V2.contas cl) as [|c0 cs] eqn:Hcs.
    + unfold V2.excluir_cliente. rewrite Hf, Hcs.
      case_decide; simpl.
      * rewrite (V2_remove_lookup V2.cliente_oid _ i cl Ha Hi). simpl.
        apply Hcasos. right. left. eauto.
      * apply Hcasos. left. reflexivity.
    + rewrite (V2_excluir_cliente_casos _ identificador i cl confirmar_contas
                 confirmar_cliente Hf ltac:(rewrite Hcs; discriminate) Ha).
      repeat case_decide; simpl; apply Hcasos; eauto 6.
  - unfold V2.excluir_cliente. rewrite Hf. simpl. apply Hcasos. left. reflexivity.
Qed.

(** Class-based variant: whatever is chosen in the menu, in whatever
    order, the bank stays well-formed. *)
Lemma V2_invariante_escolher_todas (es : list V2.Escolha) (p : V2.Programa) :
  V2.invariante p -> V2.invariante (V2.escolher_todas es p).
Proof.
  revert p. induction es as [|e es IH]; intros p Hinv; simpl; [exact Hinv|].
  apply IH. destruct e; simpl.
  - apply V2_invariante_opcao_1, Hinv.
  - apply V2_invariante_opcao_2, Hinv.
  - apply V2_invariante_criar_conta, Hinv.
  - apply V2_invariante_cadastrar, Hinv.
  - apply V2_invariante_opcao_9, Hinv.
Qed.

Lemma V2_bem_formado_alcancavel (es : list V2.Escolha) :
  V2.bem_formado
    (V2.banco_clientes (V2.escolher_todas es V2.programa_inicial)).
Proof.
  apply (V2_invariante_escolher_todas es V2.programa_inicial).
  unfold V2.invariante, V2.bem_formado. simpl.
  repeat split; first [apply NoDup_nil_2 | apply Forall_nil_2].
Qed.

End Invariantes.

(** ** Amounts in binary64 *)

Section Binario64.

(** [SFcompare] the other way round. *)
Lemma F64_compare_antisym (x y : F64.float) :
  SFcompare y x = CompOpp <$> SFcompare x y.
Proof.
  destruct x as [sx|sx| |sx mx ex], y as [sy|sy| |sy my ey]; simpl;
    try destruct sx; try destruct sy; try reflexivity;
    rewrite (Z.compare_antisym ex ey);
    destruct (ex ?= ey); simpl; try reflexivity;
    fold (Pos.compare my mx); fold (Pos.compare mx my);
    rewrite (Pos.compare_antisym mx my);
    destruct (mx ?= my)%positive; reflexivity.
Qed.

(** [x <= y] excludes [x > y], and [x < y] excludes [y <= x]. *)
Lemma F64_le_nao_gt (x y : F64.float) : (x <= y)%f64 -> ~ (x > y)%f64.
Proof.
  unfold F64.le, F64.lt, SFleb, SFltb. rewrite (F64_compare_antisym x y).
  destruct (SFcompare x y) as [[]|]; simpl; congruence.
Qed.

Lemma F64_lt_nao_ge (x y : F64.float) : (x < y)%f64 -> ~ (x >= y)%f64.
Proof.
  unfold F64.le, F64.lt, SFleb, SFltb. rewrite (F64_compare_antisym x y).
  destruct (SFcompare x y) as [[]|]; simpl; congruence.
Qed.

(** NaN passes no comparison. *)
Lemma F64_nan (x : F64.float) :
  ~ (F64.nan <= x)%f64 /\ ~ (x <= F64.nan)%f64
  /\ ~ (F64.nan < x)%f64 /\ ~ (x < F64.nan)%f64.
Proof.
  unfold F64.le, F64.lt, SFleb, SFltb, F64.nan.
  destruct x; simpl; repeat split; discriminate.
Qed.

(** Zero plus an amount is the amount, for an amount that is not a
    zero. *)
Lemma F64_zero_soma (x : F64.float) :
  ~ (x <= F64.zero)%f64 -> (F64.zero + x)%f64 = x.
Proof.
  unfold F64.le, SFleb. destruct x as [s|s| |s m e]; simpl; try reflexivity.
  intros H. exfalso. apply H. reflexivity.
Qed.

End Binario64.

(** *** The account on binary64 amounts *)

Section Conta_V2F.

Local Open Scope f64_scope.

Ltac pertence :=
  repeat first [apply list_elem_of_here | apply list_elem_of_further].

(** [ContaBancaria.sacar] and [ContaBancaria.depositar], test by test. *)
Lemma V2F_sacar_base (c : V2F.ContaBancaria) (valor : F64.float) :
  V2F.ContaBancaria_sacar valor c
  = if decide (valor > V2F.saldo c) then (false, c, [Saldo_insuficiente])
    else if decide (valor > F64.zero) then
      (true, V2F.com_saldo (V2F.saldo c - valor) c, [Saque_realizado])
    else (false, c, [Valor_invalido]).
Proof.
  unfold V2F.ContaBancaria_sacar, V2F.self, V2F.set_saldo, V2F.print, mbind,
    mret, V2F.Metodo_bind, V2F.Metodo_ret, V2F.com_saldo.
  simpl. repeat case_decide; reflexivity.
Qed.

Lemma V2F_depositar_base (c : V2F.ContaBancaria) (valor : F64.float) :
  V2F.ContaBancaria_depositar valor c
  = if decide (valor <= F64.zero) then (false, c, [Valor_invalido])
    else (true, V2F.com_saldo (V2F.saldo c + valor) c, [Deposito_realizado]).
Proof.
  unfold V2F.ContaBancaria_depositar, V2F.self, V2F.set_saldo, V2F.print,
    mbind, mret, V2F.Metodo_bind, V2F.Metodo_ret, V2F.com_saldo.
  simpl. case_decide; reflexivity.
Qed.

(** [conta.depositar], by class: accepted exactly when the test of the
    class passes. *)
Lemma V2F_depositar_casos (valor : F64.float) (c : V2F.ContaBancaria) :
  V2F.conta_depositar valor c
  = if decide (V2F.deposito_aceito valor c) then
      (true, V2F.com_saldo (V2F.saldo c + valor) c, [Deposito_realizado])
    else (false, c, [Valor_invalido]).
Proof.
  destruct c as [o cl ag cli num s e].
  destruct cl as [limite limite_saque|dm]; unfold V2F.conta_depositar;
    cbn [V2F.classe].
  - rewrite V2F_depositar_base.
    destruct (decide (V2F.deposito_aceito valor _)) as [Ha|Hn];
      unfold V2F.deposito_aceito in *; cbn [V2F.classe] in *;
      case_decide; tauto || reflexivity.
  - unfold V2F.ContaPoupanca_depositar, mbind, mret, V2F.Metodo_bind,
      V2F.Metodo_ret, V2F.print.
    destruct (decide (V2F.deposito_aceito valor _)) as [Ha|Hn];
      unfold V2F.deposito_aceito in *; cbn [V2F.classe] in *.
    + rewrite decide_True by exact Ha. rewrite V2F_depositar_base.
      rewrite decide_False by exact (F64_lt_nao_ge _ _ Ha). reflexivity.
    + rewrite decide_False by exact Hn. reflexivity.
Qed.

(** [conta.sacar], by class: accepted exactly when every test passes;
    refused with one message and no change otherwise. *)
Lemma V2F_sacar_casos (valor : F64.float) (c : V2F.ContaBancaria) :
  (V2F.saque_aceito valor c
   /\ V2F.conta_sacar valor c
      = (true, V2F.com_saldo (V2F.saldo c - valor) c, [Saque_realizado]))
  \/ (~ V2F.saque_aceito valor c
      /\ exists m, V2F.conta_sacar valor c = (false, c, [m])
                   /\ m ∈ [Excede_limite; Maximo_saques_excedido;
                           Saldo_insuficiente; Valor_invalido]).
Proof.
  unfold V2F.saque_aceito, V2F.conta_sacar.
  destruct (V2F.classe c) as [limite limite_saque|dm].
  - unfold V2F.ContaCorrente_sacar, V2F.self, mbind, mret, V2F.Metodo_bind,
      V2F.Metodo_ret, V2F.print. simpl.
    case_bool_decide as H1; simpl.
    { right. split; [tauto|]. eexists. split; [reflexivity | pertence]. }
    case_bool_decide as H2; simpl.
    { right. split; [tauto|]. eexists. split; [reflexivity | pertence]. }
    rewrite V2F_sacar_base.
    destruct (V2F.ContaBancaria_sacar valor c) as [[r c1] out] eqn:E.
    rewrite V2F_sacar_base in E.
    repeat case_decide; injection E as <- <- <-;
      first [ left; split; [tauto | reflexivity]
            | right; split; [tauto | eexists; split; [reflexivity | pertence]] ].
  - rewrite V2F_sacar_base.
    repeat case_decide;
      first [ left; split; [tauto | reflexivity]
            | right; split; [tauto | eexists; split; [reflexivity | pertence]] ].
Qed.

(** [Saque.registrar] and [Deposito.registrar] follow the account. *)
Lemma V2F_registrar_saque_casos (valor : F64.float) (agora : string)
    (c : V2F.ContaBancaria) :
  (V2F.saque_aceito valor c
   /\ V2F.registrar V2.Saque valor agora c
      = (Some (V2.Saque, valor),
         V2F.com_registro (V2F.mkRegistro V2.Saque valor agora)
                          (V2F.com_saldo (V2F.saldo c - valor) c),
         [Saque_realizado]))
  \/ (~ V2F.saque_aceito valor c
      /\ exists m, V2F.registrar V2.Saque valor agora c = (None, c, [m])
                   /\ m ∈ [Excede_limite; Maximo_saques_excedido;
                           Saldo_insuficiente; Valor_invalido]).
Proof.
  unfold V2F.registrar, V2F.Saque_registrar, mbind, mret, V2F.Metodo_bind,
    V2F.Metodo_ret.
  destruct (V2F_sacar_casos valor c) as [[Ha E]|[Hn (m & E & Hm)]]; rewrite E.
  - left. split; [exact Ha | reflexivity].
  - right. split; [exact Hn|]. exists m. split; [reflexivity | exact Hm].
Qed.

Lemma V2F_registrar_deposito_casos (valor : F64.float) (agora : string)
    (c : V2F.ContaBancaria) :
  V2F.registrar V2.Deposito valor agora c
  = if decide (V2F.deposito_aceito valor c) then
      (Some (V2.Deposito, valor),
       V2F.com_registro (V2F.mkRegistro V2.Deposito valor agora)
                        (V2F.com_saldo (V2F.saldo c + valor) c),
       [Deposito_realizado])
    else (None, c, [Valor_invalido]).
Proof.
  unfold V2F.registrar, V2F.Deposito_registrar, mbind, mret, V2F.Metodo_bind,
    V2F.Metodo_ret.
  rewrite V2F_depositar_casos. case_decide; reflexivity.
Qed.

(** One call of [registrar]: [None] and the account as it was, or the
    transaction, the entry of the call appended and the balance moved by
    that entry. *)
Lemma V2F_registrar_efeito (t : V2.Transacao) (v : F64.float) (agora : string)
    (c : V2F.ContaBancaria) :
  (exists out, V2F.registrar t v agora c = (None, c, out))
  \/ (exists out,
         V2F.registrar t v agora c
         = (Some (t, v),
            V2F.com_registro (V2F.mkRegistro t v agora)
              (V2F.com_saldo (V2F.lancar (V2F.saldo c) (V2F.mkRegistro t v agora))
                             c),
            out)).
Proof.
  destruct t.
  - destruct (V2F_registrar_saque_casos v agora c) as [[_ E]|[_ (m & E & _)]];
      rewrite E; [right|left]; eexists; reflexivity.
  - rewrite V2F_registrar_deposito_casos.
    case_decide; [right|left]; eexists; reflexivity.
Qed.

Lemma V2F_total_corrente_app (l : list V2F.Registro) (r : V2F.Registro) :
  V2F.total_corrente (l ++ [r]) = V2F.lancar (V2F.total_corrente l) r.
Proof. unfold V2F.total_corrente. rewrite foldl_app. reflexivity. Qed.

(** The balance stays the running total of the ledger. *)
Lemma V2F_registrar_todas_total (chs : list V2F.Chamada)
    (c : V2F.ContaBancaria) :
  V2F.saldo c = V2F.total_corrente (V2F.extrato c) ->
  V2F.saldo (V2F.registrar_todas chs c).2
  = V2F.total_corrente (V2F.extrato (V2F.registrar_todas chs c).2).
Proof.
  revert c. induction chs as [|ch chs IH]; intros c Hc; simpl; [exact Hc|].
  destruct (V2F_registrar_efeito (V2F.chamada_cls ch) (V2F.chamada_valor ch)
              (V2F.chamada_agora ch) c) as [[out E]|[out E]];
    rewrite E;
    match goal with
    | |- context [V2F.registrar_todas chs ?c1] =>
        specialize (IH c1); destruct (V2F.registrar_todas chs c1) as [rs c2]
    end; simpl in *; apply IH.
  - exact Hc.
  - rewrite V2F_total_corrente_app, Hc. reflexivity.
Qed.

(** When no step rounds, the running total stands for the exact sum. *)
Lemma V2F_total_exato (l : list V2F.Registro) (s : F64.float) (a : Q) :
  V2F.sem_arredondamento s l = true ->
  F64.exato s = Some a ->
  exists q, F64.exato (foldl V2F.lancar s l) = Some q
            /\ (q == a + V2F.soma_extrato l)%Q.
Proof.
  revert s a. induction l as [|r l IH]; intros s a Hs Ha; simpl in *.
  - exists a. split; [exact Ha|]. ring.
  - apply andb_prop in Hs as [Hr Hl].
    unfold V2F.lancamento_exato in Hr. rewrite Ha in Hr.
    destruct (F64.exato (V2F.valor r)) as [v|]; [|discriminate].
    destruct (F64.exato (V2F.lancar s r)) as [b|] eqn:Hb; [|discriminate].
    apply Qeq_bool_iff in Hr.
    destruct (IH _ b Hl Hb) as (q & Hq & E).
    exists q. split; [exact Hq|]. rewrite E, Hr. ring.
Qed.


End Conta_V2F.

(** *** The claims about the amount of the balance *)

Section Saldo_em_binario64.
Local Open Scope f64_scope.

(** C1, as it fails.  Deposits of 1e16, 1 and 1 through
    [Deposito.registrar] on a new current account: the three are recorded,
    the balance is 1e16, because each addition of 1 is rounded away, and the
    signed sum of the ledger is 1e16 + 2. *)
Lemma C1_contraexemplo :
  length (V2F.extrato
            (V2F.registrar_todas Exemplos.depositos_1e16
                                 (V2F.nova_ContaCorrente 7 1)).2) = 3%nat
  /\ F64.exato (V2F.saldo
                  (V2F.registrar_todas Exemplos.depositos_1e16
                                       (V2F.nova_ContaCorrente 7 1)).2)
     = Some (inject_Z 5000000000000000 * Qpower (inject_Z 2) 1)%Q
  /\ ~ (inject_Z 5000000000000000 * Qpower (inject_Z 2) 1
        == V2F.soma_extrato
             (V2F.extrato
                (V2F.registrar_todas Exemplos.depositos_1e16
                                     (V2F.nova_ContaCorrente 7 1)).2))%Q.
Proof.
  split; [reflexivity|]. split; [reflexivity|].
  intros H. apply Qeq_bool_iff in H. vm_compute in H. discriminate.
Qed.

(** C1, amended.  On an account as its constructor leaves it (balance
    zero, empty ledger; any class, any parameters), after any sequence of
    calls of [registrar] the balance is the running total of the ledger:
    each recorded deposit added and each recorded withdrawal subtracted, in
    the order of the entries, in binary64 arithmetic, from zero.  When no
    step of that total rounds, the balance stands for the signed sum of
    the amounts of the ledger. *)
Theorem C1_saldo_total_do_extrato :
  (forall (o cli : nat) (cl : V2F.Classe) (ag num : string)
          (chs : list V2F.Chamada),
      V2F.saldo
        (V2F.registrar_todas chs (V2F.mkConta o cl ag cli num F64.zero [])).2
      = V2F.total_corrente
          (V2F.extrato
             (V2F.registrar_todas chs
                (V2F.mkConta o cl ag cli num F64.zero [])).2))
  /\ (forall (o cli : nat) (cl : V2F.Classe) (ag num : string)
             (chs : list V2F.Chamada),
        V2F.sem_arredondamento F64.zero
          (V2F.extrato
             (V2F.registrar_todas chs
                (V2F.mkConta o cl ag cli num F64.zero [])).2) = true ->
        exists q,
          F64.exato
            (V2F.saldo
               (V2F.registrar_todas chs
                  (V2F.mkConta o cl ag cli num F64.zero [])).2) = Some q
          /\ (q == V2F.soma_extrato
                     (V2F.extrato
                        (V2F.registrar_todas chs
                           (V2F.mkConta o cl ag cli num F64.zero [])).2))%Q).
Proof.
  split.
  - intros. apply V2F_registrar_todas_total. reflexivity.
  - intros o cli cl ag num chs Hs.
    rewrite (V2F_registrar_todas_total chs
               (V2F.mkConta o cl ag cli num F64.zero []) eq_refl).
    destruct (V2F_total_exato _ F64.zero 0%Q Hs eq_refl) as (q & Hq & E).
    exists q. split; [exact Hq|]. rewrite E. ring.
Qed.

(** A run in which no step rounds: 1000 in, 250.5 out, 0.25 in, and a
    withdrawal that is refused. *)
Lemma C1_testemunha :
  V2F.sem_arredondamento F64.zero
    (V2F.extrato
       (V2F.registrar_todas Exemplos.movimentos_exatos
                            (V2F.nova_ContaCorrente 7 1)).2) = true
  /\ exists q,
      F64.exato
        (V2F.saldo
           (V2F.registrar_todas Exemplos.movimentos_exatos
                                (V2F.nova_ContaCorrente 7 1)).2) = Some q
      /\ (q == V2F.soma_extrato
                 (V2F.extrato
                    (V2F.registrar_todas Exemplos.movimentos_exatos
                                         (V2F.nova_ContaCorrente 7 1)).2))%Q.
Proof.
  split; [vm_compute; reflexivity|].
  apply (proj2 C1_saldo_total_do_extrato 7%nat 1%nat
           (V2F.ContaCorrente (F64.de_Z 500) 3) "0001" ""
           Exemplos.movimentos_exatos).
  vm_compute. reflexivity.
Defined.

(** C10, as it fails.  A savings account with balance 1e16: a withdrawal
    of 1 is positive and within the balance, it succeeds, and the balance is
    still 1e16 afterwards, because 1e16 - 1 rounds to 1e16; the balance has
    not gone down by the amount. *)
Lemma C10_contraexemplo :
  V2F.classe Exemplos.poupanca_1e16 = V2F.ContaPoupanca (F64.de_Z 100)
  /\ F64.de_Z 1 > F64.zero
  /\ F64.de_Z 1 <= V2F.saldo Exemplos.poupanca_1e16
  /\ V2F.conta_sacar (F64.de_Z 1) Exemplos.poupanca_1e16
     = (true, Exemplos.poupanca_1e16, [Saque_realizado])
  /\ F64.exato (V2F.saldo Exemplos.poupanca_1e16)
     = Some (inject_Z 5000000000000000 * Qpower (inject_Z 2) 1)%Q
  /\ F64.exato (F64.de_Z 1)
     = Some (inject_Z 4503599627370496 * Qpower (inject_Z 2) (-52))%Q
  /\ ~ (inject_Z 5000000000000000 * Qpower (inject_Z 2) 1
        == inject_Z 5000000000000000 * Qpower (inject_Z 2) 1
           - inject_Z 4503599627370496 * Qpower (inject_Z 2) (-52))%Q.
Proof.
  split; [reflexivity|]. split; [reflexivity|]. split; [reflexivity|].
  split; [reflexivity|]. split; [reflexivity|]. split; [reflexivity|].
  intros H. apply Qeq_bool_iff in H. vm_compute in H. discriminate.
Qed.

(** C10, amended.  On every savings account a withdrawal of an amount
    above zero and within the balance succeeds, whatever the amount and
    whatever the ledger holds: the balance becomes the binary64 difference
    of the balance and the amount, nothing else changes, and
    [Saque.registrar] records the withdrawal. *)
Theorem C10_saque_poupanca
    (c : V2F.ContaBancaria) (deposito_minimo valor : F64.float)
    (agora : string) :
  V2F.classe c = V2F.ContaPoupanca deposito_minimo ->
  valor > F64.zero ->
  valor <= V2F.saldo c ->
  V2F.conta_sacar valor c
  = (true, V2F.com_saldo (V2F.saldo c - valor) c, [Saque_realizado])
  /\ V2F.registrar V2.Saque valor agora c
     = (Some (V2.Saque, valor),
        V2F.com_registro (V2F.mkRegistro V2.Saque valor agora)
                         (V2F.com_saldo (V2F.saldo c - valor) c),
        [Saque_realizado]).
Proof.
  intros Hc H0 Hs.
  assert (V2F.saque_aceito valor c) as Ha.
  { unfold V2F.saque_aceito. rewrite Hc.
    split; [exact (F64_le_nao_gt _ _ Hs) | exact H0]. }
  split.
  - destruct (V2F_sacar_casos valor c) as [[_ E]|[Hn _]];
      [exact E | contradiction].
  - destruct (V2F_registrar_saque_casos valor agora c) as [[_ E]|[Hn _]];
      [exact E | contradiction].
Qed.

(** 600 from a savings account with balance 700 and three withdrawals
    already in its ledger. *)
Lemma C10_testemunha :
  V2F.classe Exemplos.poupanca_tres_saques_64
  = V2F.ContaPoupanca (F64.de_Z 100)
  /\ F64.de_Z 600 > F64.zero
  /\ F64.de_Z 600 <= V2F.saldo Exemplos.poupanca_tres_saques_64
  /\ V2F.numero_de V2.Saque (V2F.extrato Exemplos.poupanca_tres_saques_64) = 3
  /\ V2F.saldo (V2F.conta_sacar (F64.de_Z 600)
                                Exemplos.poupanca_tres_saques_64).1.2
     = F64.de_Z 100.
Proof.
  split; [reflexivity|]. split; [reflexivity|]. split; [reflexivity|].
  split; [reflexivity|].
  rewrite (proj1 (C10_saque_poupanca Exemplos.poupanca_tres_saques_64
                    (F64.de_Z 100) (F64.de_Z 600) "t" eq_refl eq_refl eq_refl)).
  reflexivity.
Defined.

End Saldo_em_binario64.

(** * Further properties of the code *)

(** ** One account of the class-based variant *)

Section Regras_da_conta.

(** Membership in a list written out. *)
Ltac pertence :=
  repeat first [apply list_elem_of_here | apply list_elem_of_further].

(** [conta.sacar]: accepted exactly under [saque_aceito]; refused with one
    message and no change otherwise. *)
Lemma V2_sacar_casos (valor : Z) (c : V2.ContaBancaria) :
  (V2.saque_aceito valor c
   /\ V2.conta_sacar valor c
      = (true, V2.com_saldo (V2.saldo c - valor) c, [Saque_realizado]))
  \/ (~ V2.saque_aceito valor c
      /\ exists m, V2.conta_sacar valor c = (false, c, [m])
                   /\ m ∈ [Excede_limite; Maximo_saques_excedido;
                           Saldo_insuficiente; Valor_invalido]).
Proof.
  unfold V2.saque_aceito, V2.com_saldo.
  destruct (V2.classe c) as [limite limite_saque|dm] eqn:Hc.
  - rewrite (V2_sacar_corrente c limite limite_saque valor Hc), V2_sacar_base.
    rewrite Hc.
    repeat case_decide;
      first [ left; split; [lia | reflexivity]
            | right; split; [lia | eexists; split; [reflexivity | pertence]] ].
  - rewrite (V2_sacar_poupanca c dm valor Hc), V2_sacar_base. rewrite Hc.
    repeat case_decide;
      first [ left; split; [lia | reflexivity]
            | right; split; [lia | eexists; split; [reflexivity | pertence]] ].
Qed.

(** [conta.depositar], for both classes. *)
Lemma V2_depositar_casos (valor : Z) (c : V2.ContaBancaria) :
  V2.conta_depositar valor c
  = if decide (valor <= 0) then (false, c, [Valor_invalido])
    else (true, V2.com_saldo (V2.saldo c + valor) c, [Deposito_realizado]).
Proof.
  destruct c as [o cl ag cli num s e].
  unfold V2.conta_depositar, V2.ContaPoupanca_depositar,
    V2.ContaBancaria_depositar, V2.set_saldo, V2.print, V2.self, mbind, mret,
    V2.Metodo_bind, V2.Metodo_ret, V2.com_saldo.
  destruct cl; simpl; repeat (case_decide; simpl); try reflexivity; lia.
Qed.

(** [Saque.registrar] follows [conta.sacar]. *)
Lemma V2_registrar_saque_casos (valor : Z) (agora : string)
    (c : V2.ContaBancaria) :
  (V2.saque_aceito valor c
   /\ V2.registrar V2.Saque valor agora c
      = (Some (V2.Saque, valor),
         V2.com_registro (V2.mkRegistro V2.Saque valor agora)
                         (V2.com_saldo (V2.saldo c - valor) c),
         [Saque_realizado]))
  \/ (~ V2.saque_aceito valor c
      /\ exists m, V2.registrar V2.Saque valor agora c = (None, c, [m])).
Proof.
  destruct (V2_sacar_casos valor c) as [[Ha E]|[Hn (m & E & _)]].
  - left. split; [exact Ha|].
    unfold V2.registrar, V2.Saque_registrar, mbind, mret, V2.Metodo_bind,
      V2.Metodo_ret.
    rewrite E. reflexivity.
  - right. split; [exact Hn|]. exists m.
    apply V2_registrar_recusa, E.
Qed.

Lemma V2_registrar_deposito_casos (valor : Z) (agora : string)
    (c : V2.ContaBancaria) :
  V2.registrar V2.Deposito valor agora c
  = if decide (valor <= 0) then (None, c, [Valor_invalido])
    else (Some (V2.Deposito, valor),
          V2.com_registro (V2.mkRegistro V2.Deposito valor agora)
                          (V2.com_saldo (V2.saldo c + valor) c),
          [Deposito_realizado]).
Proof.
  unfold V2.registrar, V2.Deposito_registrar, mbind, mret, V2.Metodo_bind,
    V2.Metodo_ret.
  rewrite V2_depositar_casos. case_decide; reflexivity.
Qed.

(** What one operation makes of an account: nothing, a withdrawal that
    the account accepts and its entry, a deposit of a positive amount and
    its entry, or a deposit of a positive amount without entry. *)
Lemma V2_operar_casos (op : V2.Operacao) (c : V2.ContaBancaria) :
  V2.operar op c = c
  \/ (exists v t,
         V2.saque_aceito v c
         /\ V2.operar op c
            = V2.com_registro (V2.mkRegistro V2.Saque v t)
                              (V2.com_saldo (V2.saldo c - v) c))
  \/ (exists v t,
         0 < v
         /\ V2.operar op c
            = V2.com_registro (V2.mkRegistro V2.Deposito v t)
                              (V2.com_saldo (V2.saldo c + v) c))
  \/ (exists v, 0 < v /\ V2.operar op c = V2.com_saldo (V2.saldo c + v) c).
Proof.
  destruct op as [[t v agora]|v]; unfold V2.operar;
    cbn [V2.chamada_cls V2.chamada_valor V2.chamada_agora].
  - destruct t.
    + destruct (V2_registrar_saque_casos v agora c) as [[Ha E]|[_ (m & E)]];
        rewrite E; [|left; reflexivity].
      right. left. exists v, agora. split; [exact Ha | reflexivity].
    + rewrite V2_registrar_deposito_casos.
      case_decide; [left; reflexivity|].
      right. right. left. exists v, agora. split; [lia | reflexivity].
  - rewrite V2_depositar_casos.
    case_decide; [left; reflexivity|].
    right. right. right. exists v. split; [lia | reflexivity].
Qed.

(** The balance stays non-negative and never falls below the sum of the
    ledger. *)
Lemma V2_operar_saldo (op : V2.Operacao) (c : V2.ContaBancaria) :
  0 <= V2.saldo c ->
  V2.soma_extrato (V2.extrato c) <= V2.saldo c ->
  0 <= V2.saldo (V2.operar op c)
  /\ V2.soma_extrato (V2.extrato (V2.operar op c)) <= V2.saldo (V2.operar op c).
Proof.
  intros H0 Hs.
  destruct (V2_operar_casos op c)
    as [E|[(v & t & (Hv & Hle & _) & E)|[(v & t & Hv & E)|(v & Hv & E)]]];
    rewrite E; simpl; rewrite ?soma_extrato_app;
    unfold V2.valor_com_sinal; simpl; lia.
Qed.

Lemma V2_operar_prefix (op : V2.Operacao) (c : V2.ContaBancaria) :
  V2.extrato c `prefix_of` V2.extrato (V2.operar op c).
Proof.
  destruct (V2_operar_casos op c)
    as [E|[(v & t & _ & E)|[(v & t & _ & E)|(v & _ & E)]]];
    rewrite E; simpl; first [reflexivity | apply prefix_app_r; reflexivity].
Qed.

Lemma V2_operar_coerente (op : V2.Operacao) (c : V2.ContaBancaria) :
  V2.extrato_coerente c -> V2.extrato_coerente (V2.operar op c).
Proof.
  intros [Hp Hc]. unfold V2.extrato_coerente in *.
  destruct (V2_operar_casos op c)
    as [E|[(v & t & (Hv & Hle & Hcl) & E)|[(v & t & Hv & E)|(v & Hv & E)]]];
    rewrite E; simpl; try (split; assumption).
  - split.
    + apply Forall_app. split; [exact Hp|]. apply Forall_singleton. exact Hv.
    + destruct (V2.classe c) as [l ls|dm]; [|exact I].
      destruct Hcl as [Hl Hn]. destruct Hc as [Hc1 Hc2]. split.
      * rewrite numero_de_app. simpl. repeat case_decide; lia.
      * apply Forall_app. split; [exact Hc2|].
        apply Forall_singleton. simpl. intros _. exact Hl.
  - split.
    + apply Forall_app. split; [exact Hp|]. apply Forall_singleton. exact Hv.
    + destruct (V2.classe c) as [l ls|dm]; [|exact I].
      destruct Hc as [Hc1 Hc2]. split.
      * rewrite numero_de_app. simpl. repeat case_decide; lia.
      * apply Forall_app. split; [exact Hc2|].
        apply Forall_singleton. simpl. discriminate.
Qed.

(** X4.  The ledger of an account only grows at its end: after any
    operations, what it held before is still there, in the same order, at
    its beginning. *)
Theorem X4_extrato_so_cresce (ops : list V2.Operacao) (c : V2.ContaBancaria) :
  V2.extrato c `prefix_of` V2.extrato (V2.operar_todas ops c).
Proof.
  revert c. induction ops as [|op ops IH]; intros c; simpl; [reflexivity|].
  etransitivity; [apply (V2_operar_prefix op c) | apply IH].
Qed.

End Regras_da_conta.

(** ** The rules of an account on binary64 amounts *)

Section Regras_em_binario64.
Local Open Scope f64_scope.

Ltac pertence :=
  repeat first [apply list_elem_of_here | apply list_elem_of_further].

(** X1.  [conta.depositar] on binary64 amounts.  A current account
    refuses an amount for which [valor <= 0] holds, a savings account one for
    which [valor > 0] does not; the message is the one of the invalid amount
    and nothing changes.  Otherwise the balance becomes the binary64 sum of
    the balance and the amount and nothing else changes.
    [Deposito.registrar] returns [None] and writes nothing in the first case
    and appends the entry of the deposit in the second.  NaN is accepted as
    a deposit by a current account, and by no savings account. *)
Theorem X1_deposito_regra (valor : F64.float) (agora : string)
    (c : V2F.ContaBancaria) :
  V2F.conta_depositar valor c
  = (if decide (V2F.deposito_aceito valor c) then
       (true, V2F.com_saldo (V2F.saldo c + valor) c, [Deposito_realizado])
     else (false, c, [Valor_invalido]))
  /\ V2F.registrar V2.Deposito valor agora c
     = (if decide (V2F.deposito_aceito valor c) then
          (Some (V2.Deposito, valor),
           V2F.com_registro (V2F.mkRegistro V2.Deposito valor agora)
                            (V2F.com_saldo (V2F.saldo c + valor) c),
           [Deposito_realizado])
        else (None, c, [Valor_invalido]))
  /\ (V2F.deposito_aceito F64.nan c
      <-> exists limite limite_saque,
            V2F.classe c = V2F.ContaCorrente limite limite_saque).
Proof.
  split; [apply V2F_depositar_casos|].
  split; [apply V2F_registrar_deposito_casos|].
  unfold V2F.deposito_aceito.
  destruct (V2F.classe c) as [limite limite_saque|dm]; split.
  - eauto.
  - intros _. apply (F64_nan F64.zero).
  - intros H. exfalso. exact (proj1 (proj2 (proj2 (F64_nan F64.zero))) H).
  - intros (l & ls & H). discriminate.
Qed.

(** X2.  [conta.sacar] on binary64 amounts returns [True] exactly when
    every test of the class passes ([saque_aceito]: on a current account
    the amount is not above the ceiling and the ledger holds fewer
    withdrawals than the limit; on every account the amount is not above the
    balance and is above zero).  Then the balance becomes the binary64
    difference and [Saque.registrar] appends the entry.  Otherwise one
    message of refusal is printed, the account is as it was and
    [Saque.registrar] returns [None]. *)
Theorem X2_saque_regra (valor : F64.float) (agora : string)
    (c : V2F.ContaBancaria) :
  ((V2F.conta_sacar valor c).1.1 = true <-> V2F.saque_aceito valor c)
  /\ (V2F.saque_aceito valor c ->
      V2F.conta_sacar valor c
      = (true, V2F.com_saldo (V2F.saldo c - valor) c, [Saque_realizado])
      /\ V2F.registrar V2.Saque valor agora c
         = (Some (V2.Saque, valor),
            V2F.com_registro (V2F.mkRegistro V2.Saque valor agora)
                             (V2F.com_saldo (V2F.saldo c - valor) c),
            [Saque_realizado]))
  /\ (~ V2F.saque_aceito valor c ->
      exists m,
        V2F.conta_sacar valor c = (false, c, [m])
        /\ V2F.registrar V2.Saque valor agora c = (None, c, [m])
        /\ m ∈ [Excede_limite; Maximo_saques_excedido; Saldo_insuficiente;
                Valor_invalido]).
Proof.
  destruct (V2F_sacar_casos valor c) as [[Ha E]|[Hn (m & E & Hm)]];
    destruct (V2F_registrar_saque_casos valor agora c)
      as [[Ha' E']|[Hn' (m' & E' & _)]]; try contradiction.
  - split; [rewrite E; split; [intros _; exact Ha | reflexivity]|].
    split; [intros _; split; assumption | intros Hn; contradiction].
  - split; [rewrite E; split; [discriminate | intros Ha; contradiction]|].
    split; [intros Ha; contradiction|]. intros _. exists m.
    split; [exact E|]. split; [|exact Hm].
    unfold V2F.registrar, V2F.Saque_registrar, mbind, mret, V2F.Metodo_bind,
      V2F.Metodo_ret. rewrite E. reflexivity.
Qed.

(** 600 from the savings account with balance 700. *)
Lemma X2_testemunha :
  V2F.saque_aceito (F64.de_Z 600) Exemplos.poupanca_tres_saques_64
  /\ V2F.conta_sacar (F64.de_Z 600) Exemplos.poupanca_tres_saques_64
     = (true,
        V2F.com_saldo
          (V2F.saldo Exemplos.poupanca_tres_saques_64 - F64.de_Z 600)
          Exemplos.poupanca_tres_saques_64,
        [Saque_realizado]).
Proof.
  assert (V2F.saque_aceito (F64.de_Z 600) Exemplos.poupanca_tres_saques_64)
    as Ha by (split; [discriminate | reflexivity]).
  split; [exact Ha|].
  apply (proj1 (proj2 (X2_saque_regra (F64.de_Z 600) "t"
                         Exemplos.poupanca_tres_saques_64)) Ha).
Defined.

Lemma V2F_numero_de_app (t : V2.Transacao) (l : list V2F.Registro)
    (r : V2F.Registro) :
  V2F.numero_de t (l ++ [r])
  = (V2F.numero_de t l + (if decide (V2F.tipo r = t) then 1 else 0))%Z.
Proof.
  unfold V2F.numero_de. rewrite filter_app, length_app.
  rewrite filter_cons, filter_nil.
  destruct (decide (V2F.tipo r = t)); simpl; lia.
Qed.

(** What one operation makes of an account. *)
Lemma V2F_operar_casos (op : V2F.Operacao) (c : V2F.ContaBancaria) :
  V2F.operar op c = c
  \/ (exists v t,
         V2F.saque_aceito v c
         /\ V2F.operar op c
            = V2F.com_registro (V2F.mkRegistro V2.Saque v t)
                               (V2F.com_saldo (V2F.saldo c - v) c))
  \/ (exists v t,
         V2F.deposito_aceito v c
         /\ V2F.operar op c
            = V2F.com_registro (V2F.mkRegistro V2.Deposito v t)
                               (V2F.com_saldo (V2F.saldo c + v) c))
  \/ (exists v, V2F.operar op c = V2F.com_saldo (V2F.saldo c + v) c).
Proof.
  destruct op as [[t v agora]|v]; unfold V2F.operar;
    cbn [V2F.chamada_cls V2F.chamada_valor V2F.chamada_agora].
  - destruct t.
    + destruct (V2F_registrar_saque_casos v agora c)
        as [[Ha E]|[_ (m & E & _)]]; rewrite E; [|left; reflexivity].
      right. left. exists v, agora. split; [exact Ha | reflexivity].
    + rewrite V2F_registrar_deposito_casos.
      case_decide as Ha; [|left; reflexivity].
      right. right. left. exists v, agora. split; [exact Ha | reflexivity].
  - rewrite V2F_depositar_casos.
    case_decide; [|left; reflexivity].
    right. right. right. exists v. reflexivity.
Qed.

Lemma V2F_operar_coerente (op : V2F.Operacao) (c : V2F.ContaBancaria) :
  V2F.extrato_coerente c -> V2F.extrato_coerente (V2F.operar op c).
Proof.
  intros (H1 & H2 & H3). unfold V2F.extrato_coerente in *.
  destruct (V2F_operar_casos op c)
    as [E|[(v & t & Ha & E)|[(v & t & Ha & E)|(v & E)]]];
    rewrite E; cbn [V2F.extrato V2F.classe V2F.com_registro V2F.com_saldo];
    try (split; [exact H1 | split; [exact H2 | exact H3]]).
  - unfold V2F.saque_aceito in Ha.
    assert (v > F64.zero /\ ~ v > V2F.saldo c) as [Hv Hs]
      by (destruct (V2F.classe c); tauto).
    split; [|split].
    + apply Forall_app. split; [exact H1|]. apply Forall_singleton.
      exact (F64_lt_nao_ge _ _ Hv).
    + apply Forall_app. split; [exact H2|]. apply Forall_singleton.
      intros _. exact Hv.
    + destruct (V2F.classe c) as [l ls|dm]; [|exact I].
      destruct Ha as (Hl & Hn & _). destruct H3 as [H3 H4]. split.
      * rewrite V2F_numero_de_app. cbn [V2F.tipo].
        rewrite decide_True by reflexivity. lia.
      * apply Forall_app. split; [exact H4|]. apply Forall_singleton.
        intros _. exact Hl.
  - unfold V2F.deposito_aceito in Ha.
    assert (~ v <= F64.zero) as Hv.
    { destruct (V2F.classe c); [exact Ha | exact (F64_lt_nao_ge _ _ Ha)]. }
    split; [|split].
    + apply Forall_app. split; [exact H1|]. apply Forall_singleton. exact Hv.
    + apply Forall_app. split; [exact H2|]. apply Forall_singleton.
      cbn [V2F.tipo]. discriminate.
    + destruct (V2F.classe c) as [l ls|dm]; [|exact I].
      destruct H3 as [H3 H4]. split.
      * rewrite V2F_numero_de_app. cbn [V2F.tipo].
        rewrite decide_False by discriminate. lia.
      * apply Forall_app. split; [exact H4|]. apply Forall_singleton.
        cbn [V2F.tipo]. discriminate.
Qed.

(** X5.  The ledger of an account, from its creation on, whatever is
    done to the account: no entry has an amount for which [valor <= 0]
    holds, every withdrawal has an amount above zero; on a current account
    the withdrawals are never more than the limit allows and none is above
    the ceiling. *)
Theorem X5_extrato_coerente
    (o cli : nat) (cl : V2F.Classe) (ag num : string)
    (ops : list V2F.Operacao) :
  V2F.extrato_coerente
    (V2F.operar_todas ops (V2F.mkConta o cl ag cli num F64.zero [])).
Proof.
  assert (forall c, V2F.extrato_coerente c
                    -> V2F.extrato_coerente (V2F.operar_todas ops c)) as H.
  { induction ops as [|op ops IH]; intros c Hc; simpl; [exact Hc|].
    apply IH, V2F_operar_coerente, Hc. }
  apply H. unfold V2F.extrato_coerente. simpl.
  split; [constructor|]. split; [constructor|].
  destruct cl; [|exact I]. split; [|constructor].
  unfold V2F.numero_de. simpl. lia.
Qed.


(** A withdrawal that the account accepts passes the two tests that the
    function [sacar] of the menu makes before it calls the account. *)
Lemma V2F_saque_aceito_menu (v : F64.float) (c : V2F.ContaBancaria) :
  V2F.saque_aceito v c -> ~ v <= F64.zero /\ ~ v > V2F.saldo c.
Proof.
  unfold V2F.saque_aceito. intros Ha.
  assert (v > F64.zero /\ ~ v > V2F.saldo c) as [Hv Hs]
    by (destruct (V2F.classe c); tauto).
  split; [exact (F64_lt_nao_ge _ _ Hv) | exact Hs].
Qed.

(** X6.  The function [sacar] of the menu on binary64 amounts.  When no
    account of the list has the number, the message of the account not
    found is printed and nothing changes.  Otherwise the first account with
    that number is the one concerned: the withdrawal succeeds exactly when
    that account accepts it ([saque_aceito]), the two tests that the
    function makes itself refusing nothing that the account accepts; then
    that account, and no other, has the binary64 difference as its balance
    and the entry appended to its ledger; when it is refused, one message is
    printed and the list is as before. *)
Theorem X6_saque_pelo_menu (l : list V2F.ContaBancaria) (n : string)
    (v : F64.float) (agora : string) :
  match V2F.buscar_conta l n with
  | None => V2F.sacar l n v agora = (false, l, [Conta_nao_encontrada])
  | Some (k, conta) =>
      ((V2F.sacar l n v agora).1.1 = true <-> V2F.saque_aceito v conta)
      /\ (V2F.saque_aceito v conta ->
          V2F.sacar l n v agora
          = (true,
             <[k := V2F.com_registro (V2F.mkRegistro V2.Saque v agora)
                      (V2F.com_saldo (V2F.saldo conta - v) conta)]> l,
             [Saque_realizado]))
      /\ (~ V2F.saque_aceito v conta ->
          exists m, V2F.sacar l n v agora = (false, l, [m]))
  end.
Proof.
  destruct (V2F.buscar_conta l n) as [[k conta]|] eqn:Hb;
    unfold V2F.sacar; rewrite Hb; [|reflexivity].
  apply list_find_Some in Hb as (Hk & _ & _).
  case_decide as Hv.
  { assert (~ V2F.saque_aceito v conta) as Hn
      by (intros Ha; apply V2F_saque_aceito_menu in Ha; tauto).
    split; [split; [discriminate | intros Ha; contradiction]|].
    split; [intros Ha; contradiction | intros _; eexists; reflexivity]. }
  case_decide as Hs.
  { assert (~ V2F.saque_aceito v conta) as Hn
      by (intros Ha; apply V2F_saque_aceito_menu in Ha; tauto).
    split; [split; [discriminate | intros Ha; contradiction]|].
    split; [intros Ha; contradiction | intros _; eexists; reflexivity]. }
  change (V2F.Saque_registrar v agora conta)
    with (V2F.registrar V2.Saque v agora conta).
  destruct (V2F_registrar_saque_casos v agora conta)
    as [[Ha E]|[Hn (m & E & _)]]; rewrite E; cbn [fst snd].
  - split; [split; [intros _; exact Ha | reflexivity]|].
    split; [intros _; reflexivity | intros Hn; contradiction].
  - rewrite list_insert_id by exact Hk.
    split; [split; [discriminate | intros Ha; contradiction]|].
    split; [intros Ha; contradiction | intros _; eexists; reflexivity].
Qed.

(** X7.  The function [depositar] of the menu on binary64 amounts.  When
    no account of the list has the number nothing changes.  The deposit is
    made exactly when the account found accepts the amount
    ([deposito_aceito]): then that account, and no other, has the binary64
    sum as its balance and the entry appended to its ledger.  Otherwise the
    message of the invalid amount is printed, by the function or by the
    account, and the list is as before. *)
Theorem X7_deposito_pelo_menu (l : list V2F.ContaBancaria) (n : string)
    (v : F64.float) (agora : string) :
  V2F.depositar l n v agora
  = match V2F.buscar_conta l n with
    | None => (false, l, [Conta_nao_encontrada])
    | Some (k, conta) =>
        if decide (V2F.deposito_aceito v conta) then
          (true,
           <[k := V2F.com_registro (V2F.mkRegistro V2.Deposito v agora)
                    (V2F.com_saldo (V2F.saldo conta + v) conta)]> l,
           [Deposito_realizado])
        else (false, l, [Valor_invalido])
    end.
Proof.
  unfold V2F.depositar.
  destruct (V2F.buscar_conta l n) as [[k conta]|] eqn:Hb; [|reflexivity].
  apply list_find_Some in Hb as (Hk & _ & _).
  assert (V2F.deposito_aceito v conta -> ~ v <= F64.zero) as Hm.
  { unfold V2F.deposito_aceito.
    destruct (V2F.classe conta); [tauto | apply F64_lt_nao_ge]. }
  case_decide as Hv.
  - rewrite decide_False by tauto. reflexivity.
  - change (V2F.Deposito_registrar v agora conta)
      with (V2F.registrar V2.Deposito v agora conta).
    rewrite V2F_registrar_deposito_casos.
    case_decide; cbn [fst snd]; [reflexivity|].
    rewrite list_insert_id by exact Hk. reflexivity.
Qed.

End Regras_em_binario64.


(** ** The bank of the class-based variant *)

Section Banco_V2.

(** The loop of the opening, on a savings account whose ledger is empty:
    it ends with the first value of at least 100, which goes on the balance,
    or with [EOFError] when there is none; the request is printed once for
    each value read and once more before the end of the input. *)
Lemma V2_deposito_inicial_casos (valores : list Z) (valor : option Z)
    (o cli : nat) (dm : Z) (ag num : string) (s : Z) :
  V2.deposito_inicial valores valor
    (V2.mkConta o (V2.ContaPoupanca dm) ag cli num s [])
  = match list_find (fun v => v >= 100) valores with
    | Some (j, v) =>
        Retorna tt (V2.mkConta o (V2.ContaPoupanca dm) ag cli num (s + v) [])
                (replicate (S j) Deposito_minimo_necessario
                 ++ [Deposito_realizado])
    | None =>
        Levanta EOFError (V2.mkConta o (V2.ContaPoupanca dm) ag cli num s [])
                (replicate (S (length valores)) Deposito_minimo_necessario)
    end.
Proof.
  revert valor. induction valores as [|v vs IH]; intros valor.
  - reflexivity.
  - cbn [V2.deposito_inicial].
    destruct (decide (V2.numero_de V2.Deposito
                        (V2.extrato (V2.mkConta o (V2.ContaPoupanca dm) ag cli
                                                num s [])) = 0)) as [_|H];
      [|exfalso; apply H; reflexivity].
    cbn [list_find]. destruct (decide (v >= 100)) as [Hv|Hv].
    + rewrite V2_depositar_casos. rewrite decide_False by lia. reflexivity.
    + rewrite IH. destruct (list_find _ vs) as [[j w]|]; reflexivity.
Qed.


(** The object and the program that the class method
    [ContaBancaria.criar_nova_conta] leaves. *)
Lemma V2_criar_objeto (cl : V2.Cliente) (tipo_conta : V2.TipoConta)
    (p : V2.Programa) :
  V2.ContaBancaria_criar_nova_conta cl tipo_conta p
  = match tipo_conta with
    | V2.corrente =>
        (V2.mkConta (V2.proximo_oid p) (V2.ContaCorrente 500 3) "0001"
                    (V2.cliente_oid cl)
                    (pretty (V2.contador_corrente p).1 +:+ "-"
                     +:+ pretty (V2.contador_corrente p).2) 0 [],
         V2.mkPrograma (V2.banco_clientes p)
                       ((V2.contador_corrente p).1, (V2.contador_corrente p).2 + 1)
                       (V2.contador_poupanca p) (S (V2.proximo_oid p)))
    | V2.poupanca =>
        (V2.mkConta (V2.proximo_oid p) (V2.ContaPoupanca 100) "0001"
                    (V2.cliente_oid cl)
                    (pretty (V2.contador_poupanca p).1 +:+ "-"
                     +:+ pretty (V2.contador_poupanca p).2) 0 [],
         V2.mkPrograma (V2.banco_clientes p) (V2.contador_corrente p)
                       ((V2.contador_poupanca p).1, (V2.contador_poupanca p).2 + 1)
                       (S (V2.proximo_oid p)))
    end.
Proof.
  unfold V2.ContaBancaria_criar_nova_conta, V2.gerar_numero_conta, V2.novo_oid.
  destruct tipo_conta.
  - destruct (V2.contador_corrente p) as [a b]. reflexivity.
  - destruct (V2.contador_poupanca p) as [a b]. reflexivity.
Qed.

(** The function [criar_nova_conta] of the menu, for a client that is
    found, in full. *)
Lemma V2_criar_nova_conta_casos (identificador : string)
    (tipo_conta : V2.TipoConta) (valores : list Z) (p : V2.Programa)
    (i : nat) (cl : V2.Cliente) :
  V2.filtrar_cliente identificador (V2.banco_clientes p) = Some (i, cl) ->
  V2.criar_nova_conta identificador tipo_conta valores p
  = let conta := (V2.ContaBancaria_criar_nova_conta cl tipo_conta p).1 in
    let p1 := (V2.ContaBancaria_criar_nova_conta cl tipo_conta p).2 in
    match tipo_conta with
    | V2.corrente =>
        Retorna true
          (V2.set_clientes
             (<[i := V2.adicionar_conta conta cl]> (V2.banco_clientes p)) p1)
          [Conta_criada]
    | V2.poupanca =>
        match list_find (fun v => v >= 100) valores with
        | Some (j, v) =>
            Retorna true
              (V2.set_clientes
                 (<[i := V2.adicionar_conta (V2.com_saldo v conta) cl]>
                    (V2.banco_clientes p)) p1)
              (replicate (S j) Deposito_minimo_necessario
               ++ [Deposito_realizado; Conta_criada])
        | None =>
            Levanta EOFError p1
              (replicate (S (length valores)) Deposito_minimo_necessario)
        end
    end.
Proof.
  intros Hf. unfold V2.criar_nova_conta. rewrite Hf.
  rewrite V2_criar_objeto. destruct tipo_conta; cbn zeta; cbn [fst snd].
  - reflexivity.
  - rewrite V2_deposito_inicial_casos.
    destruct (list_find _ valores) as [[j v]|]; [|reflexivity].
    cbn [V2.banco_clientes]. unfold V2.com_saldo. simpl.
    rewrite <- app_assoc. reflexivity.
Qed.

(** A client of the list receives one more account (the accounts
    themselves, not only their identities). *)
Lemma V2_listar_contas_adicionar_conta (cls : list V2.Cliente) (i : nat)
    (cl : V2.Cliente) (conta : V2.ContaBancaria) :
  cls !! i = Some cl ->
  V2.listar_contas (<[i := V2.adicionar_conta conta cl]> cls)
  ≡ₚ conta :: V2.listar_contas cls.
Proof.
  intros Hi.
  rewrite (V2_contas_em_listar_contas cls i cl Hi).
  rewrite (V2_contas_em_listar_contas (<[i := V2.adicionar_conta conta cl]> cls)
             i (V2.adicionar_conta conta cl)).
  - rewrite take_insert_ge by lia. rewrite drop_insert_lt by lia.
    simpl. rewrite <- !app_assoc. simpl.
    rewrite (Permutation_middle _ _ conta).
    rewrite (Permutation_middle _ _ conta). reflexivity.
  - apply list_lookup_insert_eq. eapply lookup_lt_Some; eauto.
Qed.

(** The accounts of the bank after a transaction of the menu. *)
Lemma V2_listar_contas_opcao_1 (n : string) (v : Z) (agora : string)
    (p : V2.Programa) :
  V2.listar_contas (V2.banco_clientes (V2.opcao_1 n v agora p).1.2)
  = (V2.sacar (V2.listar_contas (V2.banco_clientes p)) n v agora).1.2.
Proof.
  pose proof (V2_sacar_oids (V2.listar_contas (V2.banco_clientes p)) n v agora)
    as Ho.
  unfold V2.opcao_1.
  destruct (V2.sacar _ n v agora) as [[r todas] out]. simpl in *.
  apply V2_listar_contas_repartir.
  rewrite <- (length_fmap V2.oid), Ho, length_fmap. reflexivity.
Qed.

Lemma V2_listar_contas_opcao_2 (n : string) (v : Z) (agora : string)
    (p : V2.Programa) :
  V2.listar_contas (V2.banco_clientes (V2.opcao_2 n v agora p).1.2)
  = (V2.depositar (V2.listar_contas (V2.banco_clientes p)) n v agora).1.2.
Proof.
  pose proof (V2_depositar_oids (V2.listar_contas (V2.banco_clientes p)) n v agora)
    as Ho.
  unfold V2.opcao_2.
  destruct (V2.depositar _ n v agora) as [[r todas] out]. simpl in *.
  apply V2_listar_contas_repartir.
  rewrite <- (length_fmap V2.oid), Ho, length_fmap. reflexivity.
Qed.


(** An operation that the account refuses leaves the account object as it
    was. *)
Lemma V2_saque_recusado (valor : Z) (agora : string) (c : V2.ContaBancaria) :
  ~ V2.saque_aceito valor c ->
  V2.operar (V2.Op_registrar (V2.mkChamada V2.Saque valor agora)) c = c.
Proof.
  intros Hn. unfold V2.operar.
  cbn [V2.chamada_cls V2.chamada_valor V2.chamada_agora].
  destruct (V2_registrar_saque_casos valor agora c) as [[Ha _]|[_ (m & E)]];
    [contradiction|].
  rewrite E. reflexivity.
Qed.

(** The function [sacar] of the menu on a list in which the number is
    found: its two tests come before the call of [Saque.registrar] and
    refuse nothing that the account would accept. *)
Lemma V2_sacar_menu_casos (l : list V2.ContaBancaria) (n : string) (v : Z)
    (agora : string) (k : nat) (conta : V2.ContaBancaria) :
  V2.buscar_conta l n = Some (k, conta) ->
  (V2.saque_aceito v conta
   /\ V2.sacar l n v agora
      = (true,
         <[k := V2.com_registro (V2.mkRegistro V2.Saque v agora)
                                (V2.com_saldo (V2.saldo conta - v) conta)]> l,
         [Saque_realizado]))
  \/ (~ V2.saque_aceito v conta
      /\ exists m, V2.sacar l n v agora = (false, l, [m])).
Proof.
  intros Hb. unfold V2.sacar. rewrite Hb.
  apply list_find_Some in Hb as (Hk & _ & _).
  case_decide as Hv.
  { right. split; [intros (? & _); lia | eexists; reflexivity]. }
  case_decide as Hs.
  { right. split; [intros (_ & ? & _); lia | eexists; reflexivity]. }
  change (V2.Saque_registrar v agora conta)
    with (V2.registrar V2.Saque v agora conta).
  destruct (V2_registrar_saque_casos v agora conta) as [[Ha E]|[Hn (m & E)]];
    rewrite E.
  - left. split; [exact Ha | reflexivity].
  - right. split; [exact Hn|]. exists m. simpl.
    rewrite list_insert_id by exact Hk. reflexivity.
Qed.

(** The function [depositar] of the menu on a list in which the number is
    found. *)
Lemma V2_depositar_menu_casos (l : list V2.ContaBancaria) (n : string) (v : Z)
    (agora : string) (k : nat) (conta : V2.ContaBancaria) :
  V2.buscar_conta l n = Some (k, conta) ->
  V2.depositar l n v agora
  = if decide (v <= 0) then (false, l, [Valor_invalido])
    else (true,
          <[k := V2.com_registro (V2.mkRegistro V2.Deposito v agora)
                                 (V2.com_saldo (V2.saldo conta + v) conta)]> l,
          [Deposito_realizado]).
Proof.
  intros Hb. unfold V2.depositar. rewrite Hb.
  case_decide as Hv; [reflexivity|].
  change (V2.Deposito_registrar v agora conta)
    with (V2.registrar V2.Deposito v agora conta).
  rewrite V2_registrar_deposito_casos.
  rewrite decide_False by exact Hv. reflexivity.
Qed.

(** Either function of the menu replaces at most one account of the list,
    by what [registrar] makes of it. *)
Lemma V2_sacar_lista (l : list V2.ContaBancaria) (n : string) (v : Z)
    (agora : string) :
  (V2.sacar l n v agora).1.2 = l
  \/ exists k conta,
       l !! k = Some conta
       /\ (V2.sacar l n v agora).1.2
          = <[k := V2.operar (V2.Op_registrar (V2.mkChamada V2.Saque v agora))
                             conta]> l.
Proof.
  destruct (V2.buscar_conta l n) as [[k conta]|] eqn:Hb.
  - pose proof (proj1 (list_find_Some _ _ _ _) Hb) as (Hk & _ & _).
    destruct (V2_sacar_menu_casos l n v agora k conta Hb)
      as [[Ha E]|[Hn (m & E)]]; rewrite E; [|left; reflexivity].
    right. exists k, conta. split; [exact Hk|]. cbn [fst snd].
    unfold V2.operar.
    cbn [V2.chamada_cls V2.chamada_valor V2.chamada_agora].
    destruct (V2_registrar_saque_casos v agora conta) as [[_ E1]|[Hn _]];
      [|contradiction].
    rewrite E1. reflexivity.
  - left. unfold V2.sacar. rewrite Hb. reflexivity.
Qed.

Lemma V2_depositar_lista (l : list V2.ContaBancaria) (n : string) (v : Z)
    (agora : string) :
  (V2.depositar l n v agora).1.2 = l
  \/ exists k conta,
       l !! k = Some conta
       /\ (V2.depositar l n v agora).1.2
          = <[k := V2.operar (V2.Op_registrar (V2.mkChamada V2.Deposito v agora))
                             conta]> l.
Proof.
  destruct (V2.buscar_conta l n) as [[k conta]|] eqn:Hb.
  - pose proof (proj1 (list_find_Some _ _ _ _) Hb) as (Hk & _ & _).
    rewrite (V2_depositar_menu_casos l n v agora k conta Hb).
    case_decide as Hv; [left; reflexivity|].
    right. exists k, conta. split; [exact Hk|]. cbn [fst snd].
    unfold V2.operar.
    cbn [V2.chamada_cls V2.chamada_valor V2.chamada_agora].
    rewrite V2_registrar_deposito_casos, decide_False by exact Hv.
    reflexivity.
  - left. unfold V2.depositar. rewrite Hb. reflexivity.
Qed.


(** What entry ['9'] leaves of the list of clients: the list itself, the
    list without the client, or the list with the client's accounts taken
    away. *)
Lemma V2_opcao_9_casos
    (identificador confirmar_contas confirmar_cliente : string)
    (p : V2.Programa) :
  NoDup (V2.cliente_oid <$> V2.banco_clientes p) ->
  exists cls out,
    V2.opcao_9 identificador confirmar_contas confirmar_cliente p
    = Retorna tt (V2.set_clientes cls p) out
    /\ (cls = V2.banco_clientes p
        \/ (exists i cl, V2.banco_clientes p !! i = Some cl
                         /\ cls = delete i (V2.banco_clientes p))
        \/ (exists i cl, V2.banco_clientes p !! i = Some cl
                         /\ cls = <[i := V2.set_contas [] cl]>
                                    (V2.banco_clientes p))).
Proof.
  intros Ha. unfold V2.opcao_9.
  destruct (V2.filtrar_cliente identificador (V2.banco_clientes p))
    as [[i cl]|] eqn:Hf.
  - pose proof (proj1 (list_find_Some _ _ _ _) Hf) as (Hi & _ & _).
    destruct (V2.contas cl) as [|c0 cs] eqn:Hcs.
    + unfold V2.excluir_cliente. rewrite Hf, Hcs.
      case_decide; simpl.
      * rewrite (V2_remove_lookup V2.cliente_oid _ i cl Ha Hi).
        eexists _, _. split; [reflexivity|]. right. left. eauto.
      * eexists _, _. split; [reflexivity|]. left. reflexivity.
    + rewrite (V2_excluir_cliente_casos _ identificador i cl confirmar_contas
                 confirmar_cliente Hf ltac:(rewrite Hcs; discriminate) Ha).
      repeat case_decide; eexists _, _; (split; [reflexivity|]); eauto 6.
  - unfold V2.excluir_cliente. rewrite Hf.
    eexists _, _. split; [reflexivity|]. left. reflexivity.
Qed.

(** One choice of the menu, seen from the accounts of the bank: accounts
    are taken away, or one account goes through [registrar], or one new
    account is attached and the counter of its kind goes up by one.  The
    prefixes of the counters stay and the suffixes never go down. *)
Lemma V2_escolher_transicao (e : V2.Escolha) (p : V2.Programa) :
  V2.invariante p ->
  (V2.contador_corrente (V2.escolher e p)).1 = (V2.contador_corrente p).1
  /\ (V2.contador_poupanca (V2.escolher e p)).1 = (V2.contador_poupanca p).1
  /\ (V2.contador_corrente p).2 <= (V2.contador_corrente (V2.escolher e p)).2
  /\ (V2.contador_poupanca p).2 <= (V2.contador_poupanca (V2.escolher e p)).2
  /\ (V2.listar_contas (V2.banco_clientes (V2.escolher e p))
        `sublist_of` V2.listar_contas (V2.banco_clientes p)
      \/ (exists k conta ch,
             V2.listar_contas (V2.banco_clientes p) !! k = Some conta
             /\ V2.listar_contas (V2.banco_clientes (V2.escolher e p))
                = <[k := V2.operar (V2.Op_registrar ch) conta]>
                    (V2.listar_contas (V2.banco_clientes p)))
      \/ (exists c,
             V2.conta_nova p c
             /\ V2.listar_contas (V2.banco_clientes (V2.escolher e p))
                ≡ₚ c :: V2.listar_contas (V2.banco_clientes p)
             /\ (V2.classe c = V2.ContaCorrente 500 3 ->
                 (V2.contador_corrente (V2.escolher e p)).2
                 = (V2.contador_corrente p).2 + 1)
             /\ (V2.classe c = V2.ContaPoupanca 100 ->
                 (V2.contador_poupanca (V2.escolher e p)).2
                 = (V2.contador_poupanca p).2 + 1))).
Proof.
  intros Hinv. destruct e as [n v t|n v t|ident tipo vs|f|ident a b];
    unfold V2.escolher.
  - assert (forall x, V2.contador_corrente (V2.opcao_1 n v t p).1.2 = x
                      -> x = V2.contador_corrente p) as H1.
    { unfold V2.opcao_1. destruct (V2.sacar _ n v t) as [[r todas] out].
      simpl. congruence. }
    assert (forall x, V2.contador_poupanca (V2.opcao_1 n v t p).1.2 = x
                      -> x = V2.contador_poupanca p) as H2.
    { unfold V2.opcao_1. destruct (V2.sacar _ n v t) as [[r todas] out].
      simpl. congruence. }
    rewrite (H1 _ eq_refl), (H2 _ eq_refl), V2_listar_contas_opcao_1.
    repeat (split; [reflexivity || lia|]).
    destruct (V2_sacar_lista (V2.listar_contas (V2.banco_clientes p)) n v t)
      as [E|(k & conta & Hk & E)]; rewrite E.
    + left. reflexivity.
    + right. left. eauto.
  - assert (forall x, V2.contador_corrente (V2.opcao_2 n v t p).1.2 = x
                      -> x = V2.contador_corrente p) as H1.
    { unfold V2.opcao_2. destruct (V2.depositar _ n v t) as [[r todas] out].
      simpl. congruence. }
    assert (forall x, V2.contador_poupanca (V2.opcao_2 n v t p).1.2 = x
                      -> x = V2.contador_poupanca p) as H2.
    { unfold V2.opcao_2. destruct (V2.depositar _ n v t) as [[r todas] out].
      simpl. congruence. }
    rewrite (H1 _ eq_refl), (H2 _ eq_refl), V2_listar_contas_opcao_2.
    repeat (split; [reflexivity || lia|]).
    destruct (V2_depositar_lista (V2.listar_contas (V2.banco_clientes p)) n v t)
      as [E|(k & conta & Hk & E)]; rewrite E.
    + left. reflexivity.
    + right. left. eauto.
  - destruct (V2.filtrar_cliente ident (V2.banco_clientes p))
      as [[i cl]|] eqn:Hf.
    + pose proof (proj1 (list_find_Some _ _ _ _) Hf) as (Hi & _ & _).
      rewrite (V2_criar_nova_conta_casos ident tipo vs p i cl Hf).
      rewrite V2_criar_objeto. destruct tipo; cbn zeta; cbn [fst snd].
      * cbn [estado V2.set_clientes V2.contador_corrente V2.contador_poupanca
               V2.banco_clientes V2.proximo_oid fst snd].
        repeat (split; [reflexivity || lia|]).
        right. right. eexists. split; [|split; [|split]].
        2: apply V2_listar_contas_adicionar_conta, Hi.
        -- unfold V2.conta_nova. simpl. repeat split. left. repeat split.
        -- reflexivity.
        -- discriminate.
      * destruct (list_find _ vs) as [[j v]|] eqn:Hv;
          cbn [estado V2.set_clientes V2.contador_corrente V2.contador_poupanca
               V2.banco_clientes V2.proximo_oid fst snd];
          repeat (split; [reflexivity || lia|]).
        -- apply list_find_Some in Hv as (_ & Hv & _).
           right. right. eexists. split; [|split; [|split]].
           2: apply V2_listar_contas_adicionar_conta, Hi.
           ++ unfold V2.conta_nova, V2.com_saldo. simpl. repeat split.
              right. repeat split. lia.
           ++ discriminate.
           ++ reflexivity.
        -- left. reflexivity.
    + unfold V2.criar_nova_conta. rewrite Hf. simpl.
      repeat (split; [reflexivity || lia|]). left. reflexivity.
  - unfold V2.cadastrar_cliente.
    destruct (V2.filtrar_cliente _ _); simpl;
      repeat (split; [reflexivity || lia|]); left; [reflexivity|].
    unfold V2.listar_contas. rewrite fmap_app, concat_app. simpl.
    rewrite app_nil_r. reflexivity.
  - destruct Hinv as ((Ha & _) & _).
    destruct (V2_opcao_9_casos ident a b p Ha)
      as (cls & out & E & [->|[(i & cl & Hi & ->)|(i & cl & Hi & ->)]]);
      rewrite E; simpl; repeat (split; [reflexivity || lia|]); left.
    + reflexivity.
    + apply (V2_listar_contas_delete _ i cl Hi).
    + apply V2_listar_contas_esvaziar, Hi.
Qed.


Lemma V2_invariante_escolher (e : V2.Escolha) (p : V2.Programa) :
  V2.invariante p -> V2.invariante (V2.escolher e p).
Proof. exact (V2_invariante_escolher_todas [e] p). Qed.

(** No operation changes the number, the class or the branch of an
    account. *)
Lemma V2_operar_numero (op : V2.Operacao) (c : V2.ContaBancaria) :
  V2.numero_conta (V2.operar op c) = V2.numero_conta c
  /\ V2.classe (V2.operar op c) = V2.classe c
  /\ V2.agencia (V2.operar op c) = V2.agencia c.
Proof.
  destruct (V2_operar_casos op c)
    as [E|[(v & t & _ & E)|[(v & t & _ & E)|(v & _ & E)]]];
    rewrite E; repeat split.
Qed.

(** [registrar] keeps an account regular. *)
Lemma V2_registrar_regular (ch : V2.Chamada) (c : V2.ContaBancaria) :
  V2.conta_regular c -> V2.conta_regular (V2.operar (V2.Op_registrar ch) c).
Proof.
  intros (H0 & Hc & Hcl). split; [|split].
  - apply V2_operar_saldo; [exact H0|].
    destruct (V2.classe c); lia.
  - apply V2_operar_coerente, Hc.
  - destruct ch as [t v agora]. unfold V2.operar.
    cbn [V2.chamada_cls V2.chamada_valor V2.chamada_agora].
    destruct t.
    + destruct (V2_registrar_saque_casos v agora c) as [[_ E]|[_ (m & E)]];
        rewrite E; [|exact Hcl].
      simpl. destruct (V2.classe c); rewrite soma_extrato_app;
        unfold V2.valor_com_sinal; simpl; lia.
    + rewrite V2_registrar_deposito_casos. case_decide; [exact Hcl|].
      simpl. destruct (V2.classe c); rewrite soma_extrato_app;
        unfold V2.valor_com_sinal; simpl; lia.
Qed.

(** The account that [criar_nova_conta] attaches is regular. *)
Lemma V2_conta_nova_regular (p : V2.Programa) (c : V2.ContaBancaria) :
  V2.conta_nova p c -> V2.conta_regular c.
Proof.
  intros (_ & He & _ & [(Hc & Hs & _)|(Hc & Hs & _)]);
    unfold V2.conta_regular, V2.extrato_coerente; rewrite He, Hc; simpl;
    repeat split; first [lia | apply Forall_nil_2 | vm_compute; discriminate].
Qed.

Lemma V2_regular_escolher (e : V2.Escolha) (p : V2.Programa) :
  V2.invariante p ->
  Forall V2.conta_regular (V2.listar_contas (V2.banco_clientes p)) ->
  Forall V2.conta_regular
         (V2.listar_contas (V2.banco_clientes (V2.escolher e p))).
Proof.
  intros Hinv Hr.
  destruct (V2_escolher_transicao e p Hinv)
    as (_ & _ & _ & _ & [Hs|[(k & conta & ch & Hk & E)|(c & Hc & E & _)]]).
  - exact (Forall_sublist _ _ _ Hs Hr).
  - rewrite E. apply Forall_insert; [exact Hr|].
    apply V2_registrar_regular.
    exact (proj1 (Forall_lookup _ _) Hr k conta Hk).
  - rewrite E. apply Forall_cons. split; [|exact Hr].
    exact (V2_conta_nova_regular p c Hc).
Qed.

Lemma V2_numero_emitido_mono (p q : V2.Programa) (c : V2.ContaBancaria) :
  (V2.contador_corrente p).2 <= (V2.contador_corrente q).2 ->
  (V2.contador_poupanca p).2 <= (V2.contador_poupanca q).2 ->
  V2.numero_emitido p c -> V2.numero_emitido q c.
Proof.
  intros H1 H2 (k & Hk & [[Hlt E]|[Hlt E]]); exists k; split; try exact Hk.
  - left. split; [lia | exact E].
  - right. split; [lia | exact E].
Qed.

Lemma V2_numero_ainda_nao_emitido (p : V2.Programa) (c : V2.ContaBancaria)
    (l : list V2.ContaBancaria) :
  V2.numeracao p -> V2.conta_nova p c ->
  Forall (V2.numero_emitido p) l ->
  V2.numero_conta c ∉ V2.numero_conta <$> l.
Proof.
  intros (P1 & P2 & _) (_ & _ & _ & Hc) Hl Hin.
  apply list_elem_of_fmap in Hin as (d & Hd & Hin).
  apply (proj1 (Forall_forall _ _) Hl) in Hin as (k & Hk & Hn).
  destruct Hc as [(_ & _ & E)|(_ & _ & E)]; rewrite E in Hd;
    rewrite ?P1, ?P2 in Hd;
    destruct Hn as [[Hlt En]|[Hlt En]]; rewrite En in Hd;
    change (pretty 1234) with "1234"%string in Hd;
    change (pretty 4321) with "4321"%string in Hd;
    cbn [String.append] in Hd; try discriminate.
  - injection Hd as Hd. apply pretty_Z_inj in Hd. lia.
  - injection Hd as Hd. apply pretty_Z_inj in Hd. lia.
Qed.


Lemma V2_numeracao_escolher (e : V2.Escolha) (p : V2.Programa) :
  V2.invariante p -> V2.numeracao p -> V2.numeracao (V2.escolher e p).
Proof.
  intros Hinv Hn. pose proof Hn as (P1 & P2 & P3 & P4 & P5 & P6).
  destruct (V2_escolher_transicao e p Hinv) as (E1 & E2 & M1 & M2 & Hcasos).
  assert (forall x, V2.numero_emitido p x
                    -> V2.numero_emitido (V2.escolher e p) x) as Hmono.
  { intros x. apply V2_numero_emitido_mono; assumption. }
  unfold V2.numeracao. rewrite E1, E2.
  split; [exact P1|]. split; [exact P2|]. split; [lia|]. split; [lia|].
  destruct Hcasos as [Hs|[(k & conta & ch & Hk & E)|(c & Hc & E & I1 & I2)]].
  - split.
    + eapply Forall_sublist; [exact Hs|].
      eapply Forall_impl; [exact P5 | exact Hmono].
    + exact (sublist_NoDup _ _ P6 (fmap_sublist _ _ _ Hs)).
  - rewrite E. split.
    + apply Forall_insert; [eapply Forall_impl; [exact P5 | exact Hmono]|].
      apply Hmono.
      pose proof (proj1 (Forall_lookup _ _) P5 k conta Hk) as Hc.
      unfold V2.numero_emitido in *.
      rewrite (proj1 (V2_operar_numero _ _)). exact Hc.
    + rewrite list_fmap_insert, (proj1 (V2_operar_numero _ _)).
      rewrite list_insert_id; [exact P6|].
      rewrite list_lookup_fmap, Hk. reflexivity.
  - rewrite E. split.
    + apply Forall_cons. split; [|eapply Forall_impl; [exact P5 | exact Hmono]].
      destruct Hc as (_ & _ & _ & [(Hc & _ & En)|(Hc & _ & En)]).
      * exists (V2.contador_corrente p).2. split; [exact P3|]. left.
        split; [rewrite (I1 Hc); lia|]. rewrite En, P1. reflexivity.
      * exists (V2.contador_poupanca p).2. split; [exact P4|]. right.
        split; [rewrite (I2 Hc); lia|]. rewrite En, P2. reflexivity.
    + rewrite fmap_cons. apply NoDup_cons. split; [|exact P6].
      exact (V2_numero_ainda_nao_emitido p c _ Hn Hc P5).
Qed.

(** What every state of a run of the menu satisfies. *)
Lemma V2_run_invariantes (es : list V2.Escolha) (p : V2.Programa) :
  V2.invariante p -> V2.numeracao p ->
  Forall V2.conta_regular (V2.listar_contas (V2.banco_clientes p)) ->
  V2.invariante (V2.escolher_todas es p)
  /\ V2.numeracao (V2.escolher_todas es p)
  /\ Forall V2.conta_regular
            (V2.listar_contas (V2.banco_clientes (V2.escolher_todas es p))).
Proof.
  revert p. induction es as [|e es IH]; intros p H1 H2 H3; simpl.
  - auto.
  - apply IH.
    + apply V2_invariante_escolher, H1.
    + apply V2_numeracao_escolher; assumption.
    + apply V2_regular_escolher; assumption.
Qed.

Lemma V2_programa_inicial_invariantes :
  V2.invariante V2.programa_inicial
  /\ V2.numeracao V2.programa_inicial
  /\ Forall V2.conta_regular
            (V2.listar_contas (V2.banco_clientes V2.programa_inicial)).
Proof.
  unfold V2.invariante, V2.bem_formado, V2.numeracao. simpl.
  repeat split; first [apply NoDup_nil_2 | apply Forall_nil_2 | lia].
Qed.

(** In a list without repeated numbers, [buscar_conta] finds each account
    by its own number. *)
Lemma V2_buscar_conta_propria (l : list V2.ContaBancaria)
    (c : V2.ContaBancaria) :
  NoDup (V2.numero_conta <$> l) -> c ∈ l ->
  exists k, V2.buscar_conta l (V2.numero_conta c) = Some (k, c).
Proof.
  intros Hnd Hc. unfold V2.buscar_conta.
  destruct (list_find (fun conta => V2.numero_conta conta = V2.numero_conta c) l)
    as [[k d]|] eqn:Hf.
  - exists k. apply list_find_Some in Hf as (Hk & Hd & _).
    apply list_elem_of_lookup in Hc as (j & Hj).
    assert (k = j) as ->.
    { apply (NoDup_lookup _ k j (V2.numero_conta c) Hnd);
        rewrite list_lookup_fmap; [rewrite Hk | rewrite Hj]; simpl; congruence. }
    congruence.
  - exfalso. apply list_find_None in Hf.
    apply (proj1 (Forall_forall _ _) Hf c Hc). reflexivity.
Qed.


Lemma V2_set_clientes_id (p : V2.Programa) :
  V2.set_clientes (V2.banco_clientes p) p = p.
Proof. destruct p. reflexivity. Qed.


(** X8.  Entry ['4'] of the menu, in full.  An identifier that no client
    has gives [False] and changes nothing.  For a client that is found, a
    current account is always opened, without any prompt, with balance zero;
    a savings account is opened with the first amount typed that is at least
    100 as its balance, after one notice per amount read, and when no such
    amount is typed the reading fails with [EOFError] and the list of clients
    is as before.  The account opened is numbered from the counter of its
    kind, belongs to the client found and is appended to that client's
    accounts. *)
Theorem X8_abertura_de_conta (identificador : string)
    (tipo_conta : V2.TipoConta) (valores : list Z) (p : V2.Programa) :
  match V2.filtrar_cliente identificador (V2.banco_clientes p) with
  | None =>
      V2.criar_nova_conta identificador tipo_conta valores p
      = Retorna false p [Cliente_nao_encontrado]
  | Some (i, cl) =>
      match tipo_conta with
      | V2.corrente =>
          exists conta p1,
            V2.criar_nova_conta identificador tipo_conta valores p
            = Retorna true p1 [Conta_criada]
            /\ V2.banco_clientes p1
               = <[i := V2.adicionar_conta conta cl]> (V2.banco_clientes p)
            /\ V2.conta_nova p conta
            /\ V2.cliente conta = V2.cliente_oid cl
            /\ V2.classe conta = V2.ContaCorrente 500 3
      | V2.poupanca =>
          match list_find (fun v => v >= 100) valores with
          | Some (j, v) =>
              exists conta p1,
                V2.criar_nova_conta identificador tipo_conta valores p
                = Retorna true p1
                    (replicate (S j) Deposito_minimo_necessario
                     ++ [Deposito_realizado; Conta_criada])
                /\ V2.banco_clientes p1
                   = <[i := V2.adicionar_conta conta cl]> (V2.banco_clientes p)
                /\ V2.conta_nova p conta
                /\ V2.cliente conta = V2.cliente_oid cl
                /\ V2.classe conta = V2.ContaPoupanca 100
                /\ V2.saldo conta = v
          | None =>
              exists p1,
                V2.criar_nova_conta identificador tipo_conta valores p
                = Levanta EOFError p1
                    (replicate (S (length valores)) Deposito_minimo_necessario)
                /\ V2.banco_clientes p1 = V2.banco_clientes p
          end
      end
  end.
Proof.
  destruct (V2.filtrar_cliente identificador (V2.banco_clientes p))
    as [[i cl]|] eqn:Hf.
  - rewrite (V2_criar_nova_conta_casos identificador tipo_conta valores p i cl Hf).
    rewrite V2_criar_objeto. destruct tipo_conta; cbn zeta; cbn [fst snd].
    + eexists _, _. split; [reflexivity|]. split; [reflexivity|].
      unfold V2.conta_nova. simpl. repeat split. left. repeat split.
    + destruct (list_find _ valores) as [[j v]|] eqn:Hv.
      * apply list_find_Some in Hv as (_ & Hv & _).
        eexists _, _. split; [reflexivity|]. split; [reflexivity|].
        unfold V2.conta_nova, V2.com_saldo. simpl. repeat split.
        right. repeat split. lia.
      * eexists. split; reflexivity.
  - unfold V2.criar_nova_conta. rewrite Hf. reflexivity.
Qed.

(** X9.  Account numbers along a run of the menu, from the start of
    [iniciar]: whatever is chosen, in whatever order, no two accounts of the
    bank have the same number, every number is the prefix of its kind (1234
    or 4321), a dash and a suffix below the counter of that kind; the
    counters never go down, so that the number of an account removed with
    its client is not given again. *)
Theorem X9_numeros_de_conta_unicos (es : list V2.Escolha) (e : V2.Escolha) :
  V2.numeracao (V2.escolher_todas es V2.programa_inicial)
  /\ (V2.contador_corrente (V2.escolher_todas es V2.programa_inicial)).2
     <= (V2.contador_corrente
           (V2.escolher e (V2.escolher_todas es V2.programa_inicial))).2
  /\ (V2.contador_poupanca (V2.escolher_todas es V2.programa_inicial)).2
     <= (V2.contador_poupanca
           (V2.escolher e (V2.escolher_todas es V2.programa_inicial))).2.
Proof.
  destruct V2_programa_inicial_invariantes as (H1 & H2 & H3).
  destruct (V2_run_invariantes es _ H1 H2 H3) as (I1 & I2 & _).
  split; [exact I2|].
  destruct (V2_escolher_transicao e _ I1) as (_ & _ & M1 & M2 & _).
  split; assumption.
Qed.

(** What a successful call of [criar_nova_conta] has done. *)
Lemma V2_criar_conta_sucesso (identificador : string)
    (tipo_conta : V2.TipoConta) (valores : list Z) (p q : V2.Programa)
    (out : list Mensagem) :
  V2.criar_nova_conta identificador tipo_conta valores p = Retorna true q out ->
  exists i cl conta,
    V2.banco_clientes p !! i = Some cl
    /\ V2.conta_nova p conta
    /\ V2.banco_clientes q
       = <[i := V2.adicionar_conta conta cl]> (V2.banco_clientes p).
Proof.
  intros E.
  destruct (V2.filtrar_cliente identificador (V2.banco_clientes p))
    as [[i cl]|] eqn:Hf.
  - rewrite (V2_criar_nova_conta_casos identificador tipo_conta valores p i cl Hf)
      in E.
    rewrite V2_criar_objeto in E.
    apply list_find_Some in Hf as (Hi & _ & _).
    exists i, cl.
    destruct tipo_conta; cbn zeta in E; cbn [fst snd] in E.
    + injection E as <- _. eexists. split; [exact Hi|].
      split; [|reflexivity].
      unfold V2.conta_nova. simpl. repeat split. left. repeat split.
    + destruct (list_find _ valores) as [[j v]|] eqn:Hv; [|discriminate].
      apply list_find_Some in Hv as (_ & Hv & _).
      injection E as <- _. eexists. split; [exact Hi|].
      split; [|reflexivity].
      unfold V2.conta_nova, V2.com_saldo. simpl. repeat split.
      right. repeat split. lia.
  - unfold V2.criar_nova_conta in E. rewrite Hf in E. discriminate.
Qed.

(** X11.  An account just opened is found by its number.  In a state
    that a run of the menu reaches, when [criar_nova_conta] returns [True]
    the number of the account it attached was the number of no account
    before, and afterwards [buscar_conta] on the accounts of the bank finds
    that account under it. *)
Theorem X11_conta_aberta_e_encontrada (es : list V2.Escolha)
    (identificador : string) (tipo_conta : V2.TipoConta) (valores : list Z)
    (q : V2.Programa) (out : list Mensagem) :
  V2.criar_nova_conta identificador tipo_conta valores
                      (V2.escolher_todas es V2.programa_inicial)
  = Retorna true q out ->
  exists conta k,
    V2.conta_nova (V2.escolher_todas es V2.programa_inicial) conta
    /\ V2.buscar_conta
         (V2.listar_contas
            (V2.banco_clientes (V2.escolher_todas es V2.programa_inicial)))
         (V2.numero_conta conta)
       = None
    /\ V2.buscar_conta (V2.listar_contas (V2.banco_clientes q))
                       (V2.numero_conta conta)
       = Some (k, conta).
Proof.
  intros E.
  destruct V2_programa_inicial_invariantes as (H1 & H2 & H3).
  destruct (V2_run_invariantes es _ H1 H2 H3) as (I1 & I2 & _).
  pose proof (V2_numeracao_escolher
                (V2.Criar_conta identificador tipo_conta valores) _ I1 I2) as I3.
  unfold V2.escolher in I3. rewrite E in I3. cbn [estado] in I3.
  destruct (V2_criar_conta_sucesso _ _ _ _ _ _ E)
    as (i & cl & conta & Hi & Hn & Hq).
  assert (conta ∈ V2.listar_contas (V2.banco_clientes q)) as Hin.
  { rewrite Hq, (V2_listar_contas_adicionar_conta _ i cl conta Hi).
    apply list_elem_of_here. }
  destruct (V2_buscar_conta_propria _ conta (proj2 (proj2 (proj2 (proj2 (proj2 I3))))) Hin)
    as (k & Hk).
  exists conta, k. split; [exact Hn|]. split; [|exact Hk].
  apply list_find_None. apply Forall_forall. intros d Hd Heq.
  apply (V2_numero_ainda_nao_emitido _ conta _ I2 Hn
           (proj1 (proj2 (proj2 (proj2 (proj2 I2)))))).
  apply list_elem_of_fmap. exists d. split; [symmetry; exact Heq | exact Hd].
Qed.

Lemma X11_testemunha :
  exists conta k,
    V2.conta_nova (V2.escolher_todas [V2.Cadastrar Exemplos.ficha_joao]
                                     V2.programa_inicial) conta
    /\ V2.buscar_conta
         (V2.listar_contas
            (V2.banco_clientes
               (V2.escolher_todas [V2.Cadastrar Exemplos.ficha_joao]
                                  V2.programa_inicial)))
         (V2.numero_conta conta)
       = None
    /\ V2.buscar_conta
         (V2.listar_contas
            (V2.banco_clientes
               (estado (V2.criar_nova_conta "12345678900" V2.corrente []
                          Exemplos.programa_joao))))
         (V2.numero_conta conta)
       = Some (k, conta).
Proof.
  apply (X11_conta_aberta_e_encontrada [V2.Cadastrar Exemplos.ficha_joao]
           "12345678900" V2.corrente []
           (estado (V2.criar_nova_conta "12345678900" V2.corrente []
                      Exemplos.programa_joao))
           [Conta_criada]).
  reflexivity.
Defined.


(** X12.  Whatever is chosen in the menu, in whatever order, from the
    start of [iniciar]: no client object is twice in the bank, no two clients
    have the same CPF or CNPJ, and no account object is in the lists of two
    clients or twice in one. *)
Theorem X12_banco_bem_formado (es : list V2.Escolha) :
  V2.bem_formado (V2.banco_clientes (V2.escolher_todas es V2.programa_inicial)).
Proof.
  destruct V2_programa_inicial_invariantes as (H1 & H2 & H3).
  destruct (V2_run_invariantes es _ H1 H2 H3) as ((I1 & _) & _).
  exact I1.
Qed.

(** X14.  Entry ['9'] of the menu for a client that owns no account: the
    question about the accounts is not asked and its answer plays no part;
    with the answer ['s'] to the question about the client, the client is
    taken out of the bank and is no longer found; with any other answer
    nothing changes. *)
Theorem X14_exclusao_sem_contas (p : V2.Programa) (identificador : string)
    (i : nat) (cl : V2.Cliente) (confirmar_contas confirmar_cliente : string) :
  V2.filtrar_cliente identificador (V2.banco_clientes p) = Some (i, cl) ->
  V2.contas cl = [] ->
  V2.bem_formado (V2.banco_clientes p) ->
  V2.opcao_9 identificador confirmar_contas confirmar_cliente p
  = (if decide (confirmar_cliente = "s") then
       Retorna tt (V2.set_clientes (delete i (V2.banco_clientes p)) p)
               [Cliente_excluido]
     else Retorna tt p [Exclusao_cancelada])
  /\ V2.filtrar_cliente identificador (delete i (V2.banco_clientes p)) = None
  /\ V2.listar_contas (delete i (V2.banco_clientes p))
     = V2.listar_contas (V2.banco_clientes p).
Proof.
  intros Hf Hcs (Ha & Hb & _).
  pose proof (proj1 (list_find_Some _ _ _ _) Hf) as (Hi & Ht & _).
  split; [|split].
  - unfold V2.opcao_9, V2.excluir_cliente. rewrite Hf, Hcs.
    case_decide; simpl.
    + rewrite (V2_remove_lookup V2.cliente_oid _ i cl Ha Hi). reflexivity.
    + rewrite V2_set_clientes_id. reflexivity.
  - apply V2_filtrar_cliente_None.
    apply V2_tem_identificador in Ht. rewrite <- Ht.
    rewrite list_fmap_delete.
    apply NoDup_delete_fora; [exact Hb|].
    rewrite list_lookup_fmap, Hi. reflexivity.
  - rewrite (V2_contas_em_listar_contas _ i cl Hi), Hcs, delete_take_drop.
    unfold V2.listar_contas. rewrite fmap_app, concat_app. reflexivity.
Qed.


Lemma X14_testemunha :
  V2.opcao_9 "12345678900" "n" "s" Exemplos.programa_joao
  = (if decide ("s" = "s") then
       Retorna tt
         (V2.set_clientes (delete 0%nat (V2.banco_clientes Exemplos.programa_joao))
                          Exemplos.programa_joao)
         [Cliente_excluido]
     else Retorna tt Exemplos.programa_joao [Exclusao_cancelada])
  /\ V2.filtrar_cliente "12345678900"
       (delete 0%nat (V2.banco_clientes Exemplos.programa_joao)) = None
  /\ V2.listar_contas (delete 0%nat (V2.banco_clientes Exemplos.programa_joao))
     = V2.listar_contas (V2.banco_clientes Exemplos.programa_joao).
Proof.
  apply (X14_exclusao_sem_contas Exemplos.programa_joao "12345678900" 0%nat
           (V2.mkCliente 0 (V2.PessoaFisica "Joao Silva" "01/01/1990"
                                            "12345678900")
                         ["Rua A"; "10"; "Bairro B"] "10" "12345-678" [])
           "n" "s").
  - reflexivity.
  - reflexivity.
  - unfold V2.bem_formado. simpl.
    repeat split; first [apply NoDup_singleton | apply NoDup_nil_2].
Defined.

(** X15.  Entry ['9'] of the menu never raises in a state that a run of
    the menu reaches: [list.remove] always finds the object it is given.
    The clients that stay are those of before, in the same order, without
    the one excluded if any; the accounts that stay are accounts of before,
    in the same order. *)
Theorem X15_exclusao_nunca_levanta (es : list V2.Escolha)
    (identificador confirmar_contas confirmar_cliente : string) :
  exists cls out,
    V2.opcao_9 identificador confirmar_contas confirmar_cliente
               (V2.escolher_todas es V2.programa_inicial)
    = Retorna tt
        (V2.set_clientes cls (V2.escolher_todas es V2.programa_inicial)) out
    /\ V2.identificador_de <$> cls
       `sublist_of`
       V2.identificador_de
         <$> V2.banco_clientes (V2.escolher_todas es V2.programa_inicial)
    /\ V2.listar_contas cls
       `sublist_of`
       V2.listar_contas
         (V2.banco_clientes (V2.escolher_todas es V2.programa_inicial)).
Proof.
  destruct V2_programa_inicial_invariantes as (H1 & H2 & H3).
  destruct (V2_run_invariantes es _ H1 H2 H3) as (((Ha & _) & _) & _).
  destruct (V2_opcao_9_casos identificador confirmar_contas confirmar_cliente
              _ Ha)
    as (cls & out & E & [->|[(i & cl & Hi & ->)|(i & cl & Hi & ->)]]);
    eexists _, out; (split; [exact E|]); split.
  - reflexivity.
  - reflexivity.
  - rewrite list_fmap_delete. apply sublist_delete.
  - apply (V2_listar_contas_delete _ i cl Hi).
  - rewrite list_fmap_insert, list_insert_id; [reflexivity|].
    rewrite list_lookup_fmap, Hi. reflexivity.
  - apply V2_listar_contas_esvaziar, Hi.
Qed.

(** *** Accounts and their owners *)

Lemma V2_operar_cliente (op : V2.Operacao) (c : V2.ContaBancaria) :
  V2.cliente (V2.operar op c) = V2.cliente c.
Proof.
  destruct (V2_operar_casos op c)
    as [E|[(v & t & _ & E)|[(v & t & _ & E)|(v & _ & E)]]];
    rewrite E; reflexivity.
Qed.

(** Handing back to the clients a list of accounts that refer to the same
    owners, position by position, keeps every account with its owner. *)
Lemma V2_repartir_posse (cls : list V2.Cliente) (todas : list V2.ContaBancaria) :
  Forall2 (fun c c' => V2.cliente c' = V2.cliente c)
          (V2.listar_contas cls) todas ->
  V2.posse cls -> V2.posse (V2.repartir todas cls).
Proof.
  revert todas. induction cls as [|cl cls IH]; intros todas H2 Hp; simpl.
  - constructor.
  - unfold V2.listar_contas in H2. simpl in H2.
    apply Forall2_app_inv_l in H2 as (t1 & t2 & H21 & H22 & ->).
    pose proof (Forall2_length _ _ _ H21) as Hlen.
    apply Forall_cons in Hp as [Hcl Hp].
    rewrite Hlen, take_app_length, drop_app_length.
    apply Forall_cons. split.
    + simpl. clear -H21 Hcl. induction H21 as [|c c' l k Hc H21 IHl]; simpl.
      * constructor.
      * apply Forall_cons in Hcl as [Hc1 Hcl].
        apply Forall_cons. split; [congruence | apply IHl, Hcl].
    + apply IH; assumption.
Qed.

Lemma V2_posse_lista (cls : list V2.Cliente) (k : nat)
    (conta : V2.ContaBancaria) (op : V2.Operacao) :
  V2.listar_contas cls !! k = Some conta ->
  Forall2 (fun c c' => V2.cliente c' = V2.cliente c)
          (V2.listar_contas cls)
          (<[k := V2.operar op conta]> (V2.listar_contas cls)).
Proof.
  intros Hk.
  rewrite <- (list_insert_id (V2.listar_contas cls) k conta Hk) at 1.
  apply Forall2_insert.
  - apply Forall_Forall2_diag, Forall_forall. reflexivity.
  - apply V2_operar_cliente.
Qed.

Lemma V2_posse_escolher (e : V2.Escolha) (p : V2.Programa) :
  V2.invariante p ->
  V2.posse (V2.banco_clientes p) ->
  V2.posse (V2.banco_clientes (V2.escolher e p)).
Proof.
  intros Hinv Hp.
  assert (Forall2 (fun c c' => V2.cliente c' = V2.cliente c)
                  (V2.listar_contas (V2.banco_clientes p))
                  (V2.listar_contas (V2.banco_clientes p))) as Hrefl.
  { apply Forall_Forall2_diag, Forall_forall. reflexivity. }
  destruct e as [n v t|n v t|ident tipo vs|f|ident a b]; unfold V2.escolher.
  - unfold V2.opcao_1.
    destruct (V2_sacar_lista (V2.listar_contas (V2.banco_clientes p)) n v t)
      as [E|(k & conta & Hk & E)];
      destruct (V2.sacar _ n v t) as [[r todas] out]; cbn [fst snd] in *;
      subst todas;
      apply V2_repartir_posse; try assumption.
    apply V2_posse_lista, Hk.
  - unfold V2.opcao_2.
    destruct (V2_depositar_lista (V2.listar_contas (V2.banco_clientes p)) n v t)
      as [E|(k & conta & Hk & E)];
      destruct (V2.depositar _ n v t) as [[r todas] out]; cbn [fst snd] in *;
      subst todas; apply V2_repartir_posse; try assumption.
    apply V2_posse_lista, Hk.
  - destruct (V2.filtrar_cliente ident (V2.banco_clientes p))
      as [[i cl]|] eqn:Hf.
    + pose proof (proj1 (list_find_Some _ _ _ _) Hf) as (Hi & _ & _).
      pose proof (proj1 (Forall_lookup _ _) Hp i cl Hi) as Hcl.
      rewrite (V2_criar_nova_conta_casos ident tipo vs p i cl Hf).
      rewrite V2_criar_objeto. destruct tipo; cbn zeta; cbn [fst snd].
      * simpl. apply Forall_insert; [exact Hp|].
        simpl. apply Forall_app. split; [exact Hcl|].
        apply Forall_singleton. reflexivity.
      * destruct (list_find _ vs) as [[j v]|]; simpl; [|exact Hp].
        apply Forall_insert; [exact Hp|].
        simpl. apply Forall_app. split; [exact Hcl|].
        apply Forall_singleton. reflexivity.
    + unfold V2.criar_nova_conta. rewrite Hf. exact Hp.
  - unfold V2.cadastrar_cliente.
    destruct (V2.filtrar_cliente _ _); simpl; [exact Hp|].
    apply Forall_app. split; [exact Hp|].
    apply Forall_singleton. simpl. constructor.
  - destruct Hinv as ((Ha & _) & _).
    destruct (V2_opcao_9_casos ident a b p Ha)
      as (cls & out & E & [->|[(i & cl & Hi & ->)|(i & cl & Hi & ->)]]);
      rewrite E; simpl.
    + exact Hp.
    + apply Forall_delete, Hp.
    + apply Forall_insert; [exact Hp|]. simpl. constructor.
Qed.

(** X24.  Along any run of the menu from the start of [iniciar], every
    account in the list [contas] of a client has that client as its
    [cliente]: transactions, openings, registrations and exclusions never
    leave an account in the list of a client that it does not refer to. *)
Theorem X24_conta_com_seu_cliente (es : list V2.Escolha) :
  V2.posse (V2.banco_clientes (V2.escolher_todas es V2.programa_inicial)).
Proof.
  destruct V2_programa_inicial_invariantes as (H1 & _).
  assert (V2.posse (V2.banco_clientes V2.programa_inicial)) as H0
    by constructor.
  revert H1 H0. generalize V2.programa_inicial.
  induction es as [|e es IH]; intros p H1 H0; simpl; [exact H0|].
  apply IH.
  - apply V2_invariante_escolher, H1.
  - apply V2_posse_escolher; assumption.
Qed.

End Banco_V2.

(** ** The dictionary-based variant *)

Section Banco_V1.

Ltac pertence :=
  repeat first [apply list_elem_of_here | apply list_elem_of_further].

(** [depositar] on a number that is found. *)
Lemma V1_depositar_encontrada (b : V1.ContaBancaria) (n : string) (valor : Z)
    (agora : string) (i : nat) (conta : V1.Conta) :
  V1.buscar_conta (V1.AGENCIA b) n b = Some (i, conta) ->
  V1.depositar n valor agora b
  = if decide (valor <= 0) then (b, [Valor_invalido])
    else (V1.set_contas
            (<[i := V1.conta_apos_deposito valor agora conta]> (V1.contas b)) b,
          [Operacao_realizada]).
Proof.
  intros Hb. unfold V1.depositar, V1.log_transacao, V1.depositar_corpo.
  rewrite Hb. case_decide; reflexivity.
Qed.

(** [sacar] and [depositar] on a number that is not found. *)
Lemma V1_nao_encontrada (b : V1.ContaBancaria) (n : string) (valor : Z)
    (agora : string) :
  V1.buscar_conta (V1.AGENCIA b) n b = None ->
  V1.sacar n valor agora b = (b, [Conta_nao_encontrada])
  /\ V1.depositar n valor agora b = (b, [Conta_nao_encontrada]).
Proof.
  intros Hb.
  unfold V1.sacar, V1.depositar, V1.log_transacao, V1.sacar_corpo,
    V1.depositar_corpo.
  rewrite Hb. split; reflexivity.
Qed.

(** The comprehension of [excluir_cliente] keeps accounts of the list, in
    their order. *)
Lemma V1_contas_de_outros_sublist (x : string) (l cs : list V1.Conta) :
  V1.contas_de_outros x l = Some cs -> cs `sublist_of` l.
Proof.
  revert cs. induction l as [|conta l IH]; intros cs H; simpl in H.
  - injection H as <-. reflexivity.
  - destruct (V1.cliente conta) as [cl|]; [|discriminate].
    destruct (V1.contas_de_outros x l) as [resto|]; [|discriminate].
    simpl in H. injection H as <-.
    case_decide.
    + apply sublist_skip, IH. reflexivity.
    + apply sublist_cons, IH. reflexivity.
Qed.

(** One account without owner is enough for the comprehension to raise. *)
Lemma V1_contas_de_outros_sem_dono (x : string) (l : list V1.Conta) :
  V1.contas_de_outros x l = None
  <-> exists conta, conta ∈ l /\ V1.cliente conta = None.
Proof.
  induction l as [|conta l IH]; simpl.
  - split; [discriminate|]. intros (c & Hc & _). inversion Hc.
  - destruct (V1.cliente conta) as [cl|] eqn:Hcl.
    + destruct (V1.contas_de_outros x l) as [resto|]; simpl.
      * split; [discriminate|]. intros (c & Hc & Hn).
        apply elem_of_cons in Hc as [->|Hc]; [congruence|].
        assert (Some resto = None) as E by (apply IH; eauto).
        discriminate.
      * split; [|reflexivity]. intros _.
        destruct (proj1 IH eq_refl) as (c & Hc & Hn).
        exists c. split; [apply list_elem_of_further, Hc | exact Hn].
    + split; [|reflexivity]. intros _. exists conta.
      split; [apply list_elem_of_here | exact Hcl].
Qed.


(** [criar_conta], case by case. *)
Lemma V1_criar_conta_casos (agencia_ tipo_conta_ cpf_ opcao : string)
    (ficha : V1.Cliente) (b : V1.ContaBancaria) :
  V1.criar_conta agencia_ tipo_conta_ cpf_ opcao ficha b
  = match V1.tipo_de tipo_conta_ with
    | None => (None, b, [Tipo_de_conta_invalido])
    | Some tipo =>
        match V1.filtrar_cliente cpf_ b with
        | Some cl =>
            (Some (V1.conta_nova agencia_ tipo (Some cl) b),
             V1.com_conta_nova (V1.conta_nova agencia_ tipo (Some cl) b) b,
             [Conta_criada])
        | None =>
            if decide (opcao = "s") then
              let b1 := (V1.cadastrar_cliente ficha b).1 in
              let conta :=
                V1.conta_nova agencia_ tipo (V1.filtrar_cliente cpf_ b1) b1 in
              (Some conta, V1.com_conta_nova conta b1,
               Usuario_nao_localizado :: (V1.cadastrar_cliente ficha b).2
               ++ [Conta_criada])
            else (None, b, [Usuario_nao_localizado; Criacao_de_conta_cancelada])
        end
    end.
Proof.
  unfold V1.criar_conta, V1.tipo_de, V1.conta_nova, V1.com_conta_nova,
    V1.proximo_numero.
  repeat case_decide; try reflexivity;
    destruct (V1.filtrar_cliente cpf_ b) as [cl|] eqn:Hf;
    try (destruct (V1.contador_contas b) as [cc cp] eqn:Hc; reflexivity);
    try reflexivity;
    destruct (V1.cadastrar_cliente ficha b) as [b1 out]; cbn zeta; cbn [fst snd];
    destruct (V1.contador_contas b1) as [cc cp]; reflexivity.
Qed.

(** One call, seen from the accounts of the bank: accounts are taken
    away, or one account of the bank's agency goes through an accepted
    withdrawal or a deposit of a positive amount, or one new account, with
    the next number of its kind, is appended. *)
Lemma V1_chamar_passo (ch : V1.Chamada) (b : V1.ContaBancaria) :
  V1.limite (V1.chamar ch b) = V1.limite b
  /\ V1.limite_saques (V1.chamar ch b) = V1.limite_saques b
  /\ V1.AGENCIA (V1.chamar ch b) = V1.AGENCIA b
  /\ ((V1.contador_contas (V1.chamar ch b) = V1.contador_contas b
       /\ (V1.contas (V1.chamar ch b) `sublist_of` V1.contas b
           \/ (exists i conta v t,
                  V1.contas b !! i = Some conta
                  /\ V1.agencia conta = V1.AGENCIA b
                  /\ V1.saque_aceito b v conta
                  /\ V1.contas (V1.chamar ch b)
                     = <[i := V1.conta_apos_saque v t conta]> (V1.contas b))
           \/ (exists i conta v t,
                  V1.contas b !! i = Some conta
                  /\ V1.agencia conta = V1.AGENCIA b
                  /\ 0 < v
                  /\ V1.contas (V1.chamar ch b)
                     = <[i := V1.conta_apos_deposito v t conta]> (V1.contas b))))
      \/ (exists ag tipo cl b1,
             V1.contas b1 = V1.contas b
             /\ V1.contador_contas b1 = V1.contador_contas b
             /\ V1.contas (V1.chamar ch b)
                = V1.contas b ++ [V1.conta_nova ag tipo cl b1]
             /\ V1.contador_contas (V1.chamar ch b)
                = V1.contador_contas
                    (V1.com_conta_nova (V1.conta_nova ag tipo cl b1) b1))).
Proof.
  destruct ch as [n v t|n v t|ficha|ag tp c o ficha|c o]; unfold V1.chamar.
  - destruct (V1.buscar_conta (V1.AGENCIA b) n b) as [[i conta]|] eqn:Hb.
    + rewrite (V1_sacar_encontrada b n v t i conta Hb).
      pose proof (V1_buscar_conta_lookup _ _ _ _ _ Hb) as Hi.
      apply list_find_Some in Hb as (_ & (Hag & _) & _).
      repeat case_decide; simpl; repeat (split; [reflexivity|]); left;
        (split; [reflexivity|]); try (left; reflexivity).
      right. left. exists i, conta, v, t.
      repeat split; try assumption; lia.
    + rewrite (proj1 (V1_nao_encontrada b n v t Hb)). simpl.
      repeat (split; [reflexivity|]). left. split; [reflexivity|].
      left. reflexivity.
  - destruct (V1.buscar_conta (V1.AGENCIA b) n b) as [[i conta]|] eqn:Hb.
    + rewrite (V1_depositar_encontrada b n v t i conta Hb).
      pose proof (V1_buscar_conta_lookup _ _ _ _ _ Hb) as Hi.
      apply list_find_Some in Hb as (_ & (Hag & _) & _).
      case_decide; simpl; repeat (split; [reflexivity|]); left;
        (split; [reflexivity|]); try (left; reflexivity).
      right. right. exists i, conta, v, t.
      repeat split; try assumption; lia.
    + rewrite (proj2 (V1_nao_encontrada b n v t Hb)). simpl.
      repeat (split; [reflexivity|]). left. split; [reflexivity|].
      left. reflexivity.
  - unfold V1.cadastrar_cliente. destruct (V1.filtrar_cliente _ b); simpl;
      repeat (split; [reflexivity|]); left; (split; [reflexivity|]);
      left; reflexivity.
  - rewrite V1_criar_conta_casos.
    destruct (V1.tipo_de tp) as [tipo|]; cbn [fst snd].
    + destruct (V1.filtrar_cliente c b) as [cl|] eqn:Hf; cbn [fst snd].
      * repeat (split; [reflexivity|]). right.
        exists ag, tipo, (Some cl), b. repeat split.
      * case_decide; cbn zeta; cbn [fst snd].
        -- assert (V1.limite (V1.cadastrar_cliente ficha b).1 = V1.limite b
                   /\ V1.limite_saques (V1.cadastrar_cliente ficha b).1
                      = V1.limite_saques b
                   /\ V1.AGENCIA (V1.cadastrar_cliente ficha b).1 = V1.AGENCIA b
                   /\ V1.contas (V1.cadastrar_cliente ficha b).1 = V1.contas b
                   /\ V1.contador_contas (V1.cadastrar_cliente ficha b).1
                      = V1.contador_contas b) as (E1 & E2 & E3 & E4 & E5).
           { unfold V1.cadastrar_cliente.
             destruct (V1.filtrar_cliente (V1.cpf ficha) b); repeat split. }
           simpl. rewrite E1, E2, E3.
           repeat (split; [reflexivity|]). right.
           eexists ag, tipo, _, _. split; [exact E4|]. split; [exact E5|].
           rewrite E4. split; reflexivity.
        -- repeat (split; [reflexivity|]). left. split; [reflexivity|].
           left. reflexivity.
    + repeat (split; [reflexivity|]). left. split; [reflexivity|].
      left. reflexivity.
  - unfold V1.excluir_cliente.
    destruct (V1.filtrar_cliente c b) as [cl|]; [|simpl].
    + case_decide; [|simpl].
      * destruct (V1.remove cl (V1.clientes b)) as [cls|]; [|simpl].
        -- cbn zeta.
           destruct (V1.contas_de_outros c (V1.contas (V1.set_clientes cls b)))
             as [cs|] eqn:Hcs; simpl.
           ++ repeat (split; [reflexivity|]). left. split; [reflexivity|].
              left. exact (V1_contas_de_outros_sublist _ _ _ Hcs).
           ++ repeat (split; [reflexivity|]). left. split; [reflexivity|].
              left. reflexivity.
        -- repeat (split; [reflexivity|]). left. split; [reflexivity|].
           left. reflexivity.
      * repeat (split; [reflexivity|]). left. split; [reflexivity|].
        left. reflexivity.
    + repeat (split; [reflexivity|]). left. split; [reflexivity|].
      left. reflexivity.
Qed.


Lemma V1_soma_linhas_app (l k : list V1.Linha) :
  V1.soma_linhas (l ++ k) = V1.soma_linhas l + V1.soma_linhas k.
Proof.
  unfold V1.soma_linhas. induction l as [|x l IH]; simpl; [reflexivity|].
  rewrite IH. lia.
Qed.

Lemma V1_numero_de_saques_app (l k : list V1.Linha) :
  V1.numero_de_saques (l ++ k) = V1.numero_de_saques l + V1.numero_de_saques k.
Proof.
  unfold V1.numero_de_saques. induction l as [|x l IH]; simpl; [reflexivity|].
  destruct (V1.movimento x); rewrite IH; lia.
Qed.

(** A withdrawal that [sacar] accepts and a deposit of a positive amount
    keep an account of the bank's agency coherent; a new account is
    coherent. *)
Lemma V1_coerente_apos_saque (b : V1.ContaBancaria) (v : Z) (t : string)
    (conta : V1.Conta) :
  V1.agencia conta = V1.AGENCIA b ->
  V1.saque_aceito b v conta ->
  V1.conta_coerente b conta ->
  V1.conta_coerente b (V1.conta_apos_saque v t conta).
Proof.
  intros Hag (Hv & Hs & Hl & Hn) (C1 & C2 & C3 & C4 & C5 & C6).
  unfold V1.conta_coerente, V1.conta_apos_saque, V1.get_saques_diarios in *.
  simpl. rewrite V1_soma_linhas_app, V1_numero_de_saques_app.
  unfold V1.soma_linhas at 2, V1.numero_de_saques at 2, V1.valor_com_sinal.
  cbn [foldr V1.movimento V1.valor].
  split; [lia|]. split; [lia|]. split; [lia|]. split; [lia|]. split.
  - apply Forall_app. split; [exact C5|]. apply Forall_singleton.
    simpl. split; [lia | intros _; lia].
  - intros Hne. contradiction.
Qed.

Lemma V1_coerente_apos_deposito (b : V1.ContaBancaria) (v : Z) (t : string)
    (conta : V1.Conta) :
  V1.agencia conta = V1.AGENCIA b ->
  0 < v ->
  V1.conta_coerente b conta ->
  V1.conta_coerente b (V1.conta_apos_deposito v t conta).
Proof.
  intros Hag Hv (C1 & C2 & C3 & C4 & C5 & C6).
  unfold V1.conta_coerente, V1.conta_apos_deposito, V1.get_saques_diarios in *.
  simpl. rewrite V1_soma_linhas_app, V1_numero_de_saques_app.
  unfold V1.soma_linhas at 2, V1.numero_de_saques at 2, V1.valor_com_sinal.
  cbn [foldr V1.movimento V1.valor].
  split; [lia|]. split; [lia|]. split; [lia|]. split; [lia|]. split.
  - apply Forall_app. split; [exact C5|]. apply Forall_singleton.
    simpl. split; [lia | discriminate].
  - intros Hne. contradiction.
Qed.

Lemma V1_coerente_conta_nova (b b1 : V1.ContaBancaria) (ag : string)
    (tipo : V1.TipoConta) (cl : option V1.Cliente) :
  V1.conta_coerente b (V1.conta_nova ag tipo cl b1).
Proof.
  unfold V1.conta_coerente, V1.conta_nova, V1.get_saques_diarios. simpl.
  repeat split; first [lia | apply Forall_nil_2].
Qed.

Lemma V1_coerente_passo (ch : V1.Chamada) (b : V1.ContaBancaria) :
  Forall (V1.conta_coerente b) (V1.contas b) ->
  Forall (V1.conta_coerente (V1.chamar ch b)) (V1.contas (V1.chamar ch b)).
Proof.
  intros Hc.
  destruct (V1_chamar_passo ch b) as (E1 & E2 & E3 & Hcasos).
  assert (forall conta, V1.conta_coerente b conta
                        -> V1.conta_coerente (V1.chamar ch b) conta) as Hext.
  { intros conta. unfold V1.conta_coerente. rewrite E1, E2, E3. tauto. }
  destruct Hcasos
    as [(_ & [Hs|[(i & conta & v & t & Hi & Hag & Ha & E)
                 |(i & conta & v & t & Hi & Hag & Hv & E)]])
       |(ag & tipo & cl & b1 & _ & _ & E & _)]; try rewrite E.
  - eapply Forall_impl; [|exact Hext]. exact (Forall_sublist _ _ _ Hs Hc).
  - apply Forall_insert; [eapply Forall_impl; [exact Hc | exact Hext]|].
    apply Hext, V1_coerente_apos_saque; try assumption.
    exact (proj1 (Forall_lookup _ _) Hc i conta Hi).
  - apply Forall_insert; [eapply Forall_impl; [exact Hc | exact Hext]|].
    apply Hext, V1_coerente_apos_deposito; try assumption.
    exact (proj1 (Forall_lookup _ _) Hc i conta Hi).
  - apply Forall_app. split; [eapply Forall_impl; [exact Hc | exact Hext]|].
    apply Forall_singleton, V1_coerente_conta_nova.
Qed.

Lemma V1_numeracao_passo (ch : V1.Chamada) (b : V1.ContaBancaria) :
  V1.numeracao b -> V1.numeracao (V1.chamar ch b).
Proof.
  intros (N1 & N2 & N3 & N4). unfold V1.numeracao.
  destruct (V1_chamar_passo ch b)
    as (_ & _ & _ &
        [(Ec & [Hs|[(i & conta & v & t & Hi & _ & _ & E)
                   |(i & conta & v & t & Hi & _ & _ & E)]])
        |(ag & tipo & cl & b1 & Eb & Ecb & E & Ec)]); rewrite Ec; try rewrite E.
  - split; [exact N1|]. split; [exact N2|]. split.
    + exact (Forall_sublist _ _ _ Hs N3).
    + exact (sublist_NoDup _ _ N4 (fmap_sublist _ _ _ Hs)).
  - split; [exact N1|]. split; [exact N2|]. split.
    + apply Forall_insert; [exact N3|].
      exact (proj1 (Forall_lookup _ _) N3 i conta Hi).
    + rewrite list_fmap_insert. simpl.
      rewrite list_insert_id; [exact N4|].
      rewrite list_lookup_fmap, Hi. reflexivity.
  - split; [exact N1|]. split; [exact N2|]. split.
    + apply Forall_insert; [exact N3|].
      exact (proj1 (Forall_lookup _ _) N3 i conta Hi).
    + rewrite list_fmap_insert. simpl.
      rewrite list_insert_id; [exact N4|].
      rewrite list_lookup_fmap, Hi. reflexivity.
  - unfold V1.com_conta_nova, V1.conta_nova, V1.proximo_numero. simpl.
    rewrite Ecb. destruct (V1.contador_contas b) as [cc cp].
    cbn [fst snd] in N1, N2, N3.
    split; [destruct tipo; cbn [fst snd]; lia|].
    split; [destruct tipo; cbn [fst snd]; lia|].
    split.
    + apply Forall_app. split.
      * eapply Forall_impl; [exact N3|]. intros c Hc. cbn beta in *.
        destruct (V1.tipo_conta c), tipo; cbn [fst snd]; lia.
      * apply Forall_singleton. cbn [V1.tipo_conta V1.numero_conta].
        destruct tipo; cbn [fst snd]; lia.
    + rewrite fmap_app. apply NoDup_app. split; [exact N4|]. split.
      * intros x Hx Hy. apply list_elem_of_singleton in Hy. subst x.
        apply list_elem_of_fmap in Hx as (c & Hc & Hin).
        apply (proj1 (Forall_forall _ _) N3) in Hin.
        cbn [V1.tipo_conta V1.numero_conta] in Hc.
        injection Hc as Ht Hn. rewrite <- Ht in Hin.
        destruct tipo; cbn [fst snd] in *; lia.
      * apply NoDup_singleton.
Qed.


(** No call registers a CPF twice. *)
Lemma V1_clientes_passo (ch : V1.Chamada) (b : V1.ContaBancaria) :
  NoDup (V1.cpf <$> V1.clientes b) ->
  NoDup (V1.cpf <$> V1.clientes (V1.chamar ch b)).
Proof.
  intros Hnd.
  destruct ch as [n v t|n v t|ficha|ag tp c o ficha|c o]; unfold V1.chamar.
  - destruct (V1.buscar_conta (V1.AGENCIA b) n b) as [[i conta]|] eqn:Hb.
    + rewrite (V1_sacar_encontrada b n v t i conta Hb).
      repeat case_decide; exact Hnd.
    + rewrite (proj1 (V1_nao_encontrada b n v t Hb)). exact Hnd.
  - destruct (V1.buscar_conta (V1.AGENCIA b) n b) as [[i conta]|] eqn:Hb.
    + rewrite (V1_depositar_encontrada b n v t i conta Hb).
      case_decide; exact Hnd.
    + rewrite (proj2 (V1_nao_encontrada b n v t Hb)). exact Hnd.
  - apply V1_cadastrar_cliente_NoDup, Hnd.
  - rewrite V1_criar_conta_casos.
    destruct (V1.tipo_de tp) as [tipo|]; [|exact Hnd].
    destruct (V1.filtrar_cliente c b) as [cl|]; [exact Hnd|].
    case_decide; [|exact Hnd].
    apply (V1_cadastrar_cliente_NoDup ficha b Hnd).
  - unfold V1.excluir_cliente, V1.filtrar_cliente.
    destruct (list_find (fun cl => V1.cpf cl = c) (V1.clientes b))
      as [[i cl]|] eqn:Hf; [|exact Hnd].
    simpl. case_decide; [|exact Hnd].
    rewrite (V1_remove_encontrado _ c i cl Hf). cbn zeta.
    assert (NoDup (V1.cpf <$> delete i (V1.clientes b))) as Hd.
    { rewrite list_fmap_delete.
      exact (sublist_NoDup _ _ Hnd (sublist_delete _ _)). }
    destruct (V1.contas_de_outros c _); exact Hd.
Qed.

(** What every state of a run of calls satisfies, from a new bank. *)
Lemma V1_run_invariantes (chs : list V1.Chamada) (b : V1.ContaBancaria) :
  Forall (V1.conta_coerente b) (V1.contas b) ->
  V1.numeracao b ->
  NoDup (V1.cpf <$> V1.clientes b) ->
  Forall (V1.conta_coerente (V1.chamar_todas chs b))
         (V1.contas (V1.chamar_todas chs b))
  /\ V1.numeracao (V1.chamar_todas chs b)
  /\ NoDup (V1.cpf <$> V1.clientes (V1.chamar_todas chs b))
  /\ V1.limite (V1.chamar_todas chs b) = V1.limite b
  /\ V1.limite_saques (V1.chamar_todas chs b) = V1.limite_saques b
  /\ V1.AGENCIA (V1.chamar_todas chs b) = V1.AGENCIA b.
Proof.
  revert b. induction chs as [|ch chs IH]; intros b H1 H2 H3; simpl.
  - auto 10.
  - destruct (V1_chamar_passo ch b) as (E1 & E2 & E3 & _).
    rewrite <- E1, <- E2, <- E3. apply IH.
    + apply V1_coerente_passo, H1.
    + apply V1_numeracao_passo, H2.
    + apply V1_clientes_passo, H3.
Qed.

Lemma V1_novo_banco_invariantes (limite_ limite_saques_ : Z) (ag : string) :
  Forall (V1.conta_coerente (V1.novo_banco limite_ limite_saques_ ag))
         (V1.contas (V1.novo_banco limite_ limite_saques_ ag))
  /\ V1.numeracao (V1.novo_banco limite_ limite_saques_ ag)
  /\ NoDup (V1.cpf <$> V1.clientes (V1.novo_banco limite_ limite_saques_ ag)).
Proof.
  unfold V1.numeracao. simpl.
  repeat split; first [apply Forall_nil_2 | apply NoDup_nil_2 | lia].
Qed.


(** X19.  An account opened under another agency than the bank's is out
    of reach: [criar_conta] takes any agency, [sacar] and [depositar] look
    accounts up under the agency of the bank only.  Along any run of calls
    on a new bank such an account keeps a balance of zero, no line and no
    counter of withdrawals. *)
Theorem X19_V1_conta_de_outra_agencia (limite_ limite_saques_ : Z)
    (ag : string) (chs : list V1.Chamada) (conta : V1.Conta) :
  conta ∈ V1.contas
            (V1.chamar_todas chs (V1.novo_banco limite_ limite_saques_ ag)) ->
  V1.agencia conta <> ag ->
  V1.saldo conta = 0 /\ V1.extrato conta = []
  /\ V1.get_saques_diarios conta = 0.
Proof.
  intros Hin Hag.
  destruct (V1_novo_banco_invariantes limite_ limite_saques_ ag)
    as (H1 & H2 & H3).
  destruct (V1_run_invariantes chs _ H1 H2 H3) as (I1 & _ & _ & _ & _ & E3).
  apply (proj1 (Forall_forall _ _) I1) in Hin
    as (_ & C2 & C3 & _ & _ & C6).
  rewrite E3 in C6. specialize (C6 Hag).
  rewrite C6 in C2, C3. auto.
Qed.

Lemma X19_testemunha :
  V1.saldo (V1.mkConta "0002" 1000 (Some Exemplos.maria) V1.corrente 0 [] None)
  = 0
  /\ V1.extrato
       (V1.mkConta "0002" 1000 (Some Exemplos.maria) V1.corrente 0 [] None)
     = []
  /\ V1.get_saques_diarios
       (V1.mkConta "0002" 1000 (Some Exemplos.maria) V1.corrente 0 [] None)
     = 0.
Proof.
  apply (X19_V1_conta_de_outra_agencia 500 3 "0001"
           [V1.Cadastrar Exemplos.maria;
            V1.Criar_conta "0002" "c" "12345678900" "" Exemplos.maria;
            V1.Depositar "1000" 100 "01/04/2025 14:30:00"]).
  - vm_compute. apply list_elem_of_here.
  - discriminate.
Defined.

(** X20.  Account numbers of the dictionary-based variant along any run
    of calls on a new bank: current accounts are numbered from 1000 and
    savings accounts from 5000, each below the counter of its kind, and no
    two accounts of the same kind have the same number. *)
Theorem X20_V1_numeros_de_conta (limite_ limite_saques_ : Z) (ag : string)
    (chs : list V1.Chamada) :
  V1.numeracao (V1.chamar_todas chs (V1.novo_banco limite_ limite_saques_ ag)).
Proof.
  destruct (V1_novo_banco_invariantes limite_ limite_saques_ ag)
    as (H1 & H2 & H3).
  apply (V1_run_invariantes chs _ H1 H2 H3).
Qed.


(** [filtrar_cliente] after [cadastrar_cliente] has appended a client. *)
Lemma V1_filtrar_apos_cadastro (ficha : V1.Cliente) (b : V1.ContaBancaria)
    (c : string) :
  V1.filtrar_cliente (V1.cpf ficha) b = None ->
  V1.filtrar_cliente c (V1.set_clientes (V1.clientes b ++ [ficha]) b)
  = if decide (c = V1.cpf ficha) then Some ficha
    else V1.filtrar_cliente c b.
Proof.
  unfold V1.filtrar_cliente. simpl. intros Hf.
  destruct (list_find (fun cl => V1.cpf cl = V1.cpf ficha) (V1.clientes b))
    as [[j x]|] eqn:Hj; [discriminate|].
  case_decide as Hc.
  - subst c. rewrite list_find_app_r by exact Hj. simpl.
    rewrite decide_True by reflexivity. reflexivity.
  - destruct (list_find (fun cl => V1.cpf cl = c) (V1.clientes b))
      as [[i cl]|] eqn:Hi.
    + rewrite (list_find_app_l _ _ _ _ _ Hi). reflexivity.
    + rewrite list_find_app_r by exact Hi. simpl.
      rewrite decide_False by congruence. reflexivity.
Qed.

(** X21.  CPFs of the dictionary-based variant.  Along any run of calls
    on a new bank no two clients have the same CPF.  When the CPF typed is
    not yet in the bank, [cadastrar_cliente] appends the client and
    [filtrar_cliente] then finds that client under its CPF and, under every
    other CPF, what it found before; when the CPF is in the bank already,
    nothing changes. *)
Theorem X21_V1_cadastro_e_busca (limite_ limite_saques_ : Z) (ag : string)
    (chs : list V1.Chamada) (ficha : V1.Cliente) (b : V1.ContaBancaria) :
  NoDup (V1.cpf <$> V1.clientes
           (V1.chamar_todas chs (V1.novo_banco limite_ limite_saques_ ag)))
  /\ match V1.filtrar_cliente (V1.cpf ficha) b with
     | Some _ => V1.cadastrar_cliente ficha b = (b, [Cliente_ja_cadastrado])
     | None =>
         (V1.cadastrar_cliente ficha b).2 = [Cliente_cadastrado]
         /\ V1.clientes (V1.cadastrar_cliente ficha b).1
            = V1.clientes b ++ [ficha]
         /\ V1.contas (V1.cadastrar_cliente ficha b).1 = V1.contas b
         /\ forall c,
             V1.filtrar_cliente c (V1.cadastrar_cliente ficha b).1
             = if decide (c = V1.cpf ficha) then Some ficha
               else V1.filtrar_cliente c b
     end.
Proof.
  split.
  - destruct (V1_novo_banco_invariantes limite_ limite_saques_ ag)
      as (H1 & H2 & H3).
    apply (V1_run_invariantes chs _ H1 H2 H3).
  - destruct (V1.filtrar_cliente (V1.cpf ficha) b) as [cl|] eqn:Hf;
      unfold V1.cadastrar_cliente; rewrite Hf; [reflexivity|].
    cbn [fst snd]. repeat (split; [reflexivity|]).
    intros c. apply V1_filtrar_apos_cadastro, Hf.
Qed.

(** X22.  [criar_conta] of the dictionary-based variant, in full.  A type
    other than ['c'] and ['p'] gives the message of the invalid type and
    nothing else.  For a CPF that is found, an account of that client is
    appended, with the next number of its kind, balance zero and no line,
    and the counter of the kind goes up by one.  For a CPF that is not
    found and an answer other than ['s'] nothing changes.  With the answer
    ['s'], [cadastrar_cliente] runs and the account is appended whatever it
    did: its owner is the client just registered when the CPF typed there is
    the one typed first, and [None] otherwise. *)
Theorem X22_V1_criar_conta (agencia_ tipo_conta_ cpf_ opcao : string)
    (ficha : V1.Cliente) (b : V1.ContaBancaria) :
  V1.criar_conta agencia_ tipo_conta_ cpf_ opcao ficha b
  = match V1.tipo_de tipo_conta_ with
    | None => (None, b, [Tipo_de_conta_invalido])
    | Some tipo =>
        match V1.filtrar_cliente cpf_ b with
        | Some cl =>
            (Some (V1.conta_nova agencia_ tipo (Some cl) b),
             V1.com_conta_nova (V1.conta_nova agencia_ tipo (Some cl) b) b,
             [Conta_criada])
        | None =>
            if decide (opcao = "s") then
              let dono :=
                if decide (V1.cpf ficha = cpf_) then Some ficha else None in
              (Some (V1.conta_nova agencia_ tipo dono b),
               V1.com_conta_nova (V1.conta_nova agencia_ tipo dono b)
                                 (V1.cadastrar_cliente ficha b).1,
               Usuario_nao_localizado :: (V1.cadastrar_cliente ficha b).2
               ++ [Conta_criada])
            else (None, b, [Usuario_nao_localizado; Criacao_de_conta_cancelada])
        end
    end.
Proof.
  rewrite V1_criar_conta_casos.
  destruct (V1.tipo_de tipo_conta_) as [tipo|]; [|reflexivity].
  destruct (V1.filtrar_cliente cpf_ b) as [cl|] eqn:Hf; [reflexivity|].
  case_decide; [|reflexivity]. cbn zeta.
  assert (V1.filtrar_cliente cpf_ (V1.cadastrar_cliente ficha b).1
          = if decide (V1.cpf ficha = cpf_) then Some ficha else None) as ->.
  { unfold V1.cadastrar_cliente.
    destruct (V1.filtrar_cliente (V1.cpf ficha) b) as [x|] eqn:Hx; cbn [fst].
    - rewrite Hf. rewrite decide_False; [reflexivity|]. congruence.
    - rewrite (V1_filtrar_apos_cadastro ficha b cpf_ Hx), Hf.
      repeat case_decide; congruence. }
  assert (V1.contador_contas (V1.cadastrar_cliente ficha b).1
          = V1.contador_contas b) as Ec.
  { unfold V1.cadastrar_cliente.
    destruct (V1.filtrar_cliente (V1.cpf ficha) b); reflexivity. }
  unfold V1.conta_nova, V1.proximo_numero. rewrite Ec. reflexivity.
Qed.

(** X23.  [excluir_cliente] of the dictionary-based variant when some
    account of the bank has no owner (see [criar_conta]): once the removal
    is confirmed, the client found is taken out of the list of clients and
    the filtering of the accounts then raises [TypeError], whoever the
    client is; every account stays, those of the client removed too. *)
Theorem X23_V1_exclusao_com_conta_sem_dono (b : V1.ContaBancaria)
    (cpf_ : string) (i : nat) (cl : V1.Cliente) (conta : V1.Conta) :
  list_find (fun c => V1.cpf c = cpf_) (V1.clientes b) = Some (i, cl) ->
  conta ∈ V1.contas b ->
  V1.cliente conta = None ->
  V1.excluir_cliente cpf_ "s" b
  = Levanta TypeError (V1.set_clientes (delete i (V1.clientes b)) b) [].
Proof.
  intros Hf Hin Hn. unfold V1.excluir_cliente, V1.filtrar_cliente.
  rewrite Hf. simpl.
  rewrite (V1_remove_encontrado _ cpf_ i cl Hf). simpl.
  rewrite (proj2 (V1_contas_de_outros_sem_dono cpf_ (V1.contas b))).
  - reflexivity.
  - exists conta. split; assumption.
Qed.

Lemma X23_testemunha :
  V1.excluir_cliente "12345678900" "s" Exemplos.banco_v1_conta_sem_dono
  = Levanta TypeError
      (V1.set_clientes
         (delete 0%nat (V1.clientes Exemplos.banco_v1_conta_sem_dono))
         Exemplos.banco_v1_conta_sem_dono) [].
Proof.
  apply (X23_V1_exclusao_com_conta_sem_dono Exemplos.banco_v1_conta_sem_dono
           "12345678900" 0%nat Exemplos.maria
           (V1.mkConta "0001" 1001 None V1.corrente 0 [] None)).
  - reflexivity.
  - vm_compute. pertence.
  - reflexivity.
Defined.

End Banco_V1.

(** * The counter of withdrawals over whole runs *)

Section Contador_de_saques_V1.

(** One call, seen from the counters of withdrawals. *)
Lemma V1_chamar_contador (ch : V1.Chamada) (b : V1.ContaBancaria) :
  match ch with
  | V1.Sacar n v t =>
      if (V1.sacar_corpo n v t b).1.1 then
        exists i conta,
          V1.buscar_conta (V1.AGENCIA b) n b = Some (i, conta)
          /\ V1.contas (V1.chamar ch b)
             = <[i := V1.conta_apos_saque v t conta]> (V1.contas b)
          /\ V1.saques_diarios (V1.conta_apos_saque v t conta)
             = Some (V1.get_saques_diarios conta + 1)
      else V1.chamar ch b = b
  | V1.Depositar _ _ _ =>
      V1.saques_diarios <$> V1.contas (V1.chamar ch b)
      = V1.saques_diarios <$> V1.contas b
  | V1.Cadastrar _ => V1.contas (V1.chamar ch b) = V1.contas b
  | V1.Criar_conta _ _ _ _ _ =>
      V1.contas (V1.chamar ch b) = V1.contas b
      \/ exists conta,
           V1.contas (V1.chamar ch b) = V1.contas b ++ [conta]
           /\ V1.saques_diarios conta = None
  | V1.Excluir _ _ => V1.contas (V1.chamar ch b) `sublist_of` V1.contas b
  end.
Proof.
  destruct ch as [n v t|n v t|ficha|ag tp c o ficha|c o].
  - unfold V1.chamar, V1.sacar, V1.log_transacao.
    unfold V1.sacar_corpo.
    destruct (V1.buscar_conta (V1.AGENCIA b) n b) as [[i conta]|] eqn:Hb;
      [|reflexivity].
    repeat case_decide; try reflexivity.
    cbn [fst snd]. exists i, conta. repeat split.
  - unfold V1.chamar.
    destruct (V1.buscar_conta (V1.AGENCIA b) n b) as [[i conta]|] eqn:Hb.
    + rewrite (V1_depositar_encontrada b n v t i conta Hb).
      apply V1_buscar_conta_lookup in Hb.
      case_decide; [reflexivity|]. cbn [fst V1.contas V1.set_contas].
      rewrite list_fmap_insert. cbn [V1.saques_diarios V1.conta_apos_deposito].
      rewrite list_insert_id; [reflexivity|].
      rewrite list_lookup_fmap, Hb. reflexivity.
    + rewrite (proj2 (V1_nao_encontrada b n v t Hb)). reflexivity.
  - unfold V1.chamar, V1.cadastrar_cliente.
    destruct (V1.filtrar_cliente _ b); reflexivity.
  - unfold V1.chamar. rewrite V1_criar_conta_casos.
    destruct (V1.tipo_de tp) as [tipo|]; [|left; reflexivity].
    destruct (V1.filtrar_cliente c b) as [cl|].
    + right. eexists. split; reflexivity.
    + case_decide; [|left; reflexivity]. right. cbn zeta. cbn [fst snd].
      assert (V1.contas (V1.cadastrar_cliente ficha b).1 = V1.contas b) as Ec.
      { unfold V1.cadastrar_cliente.
        destruct (V1.filtrar_cliente (V1.cpf ficha) b); reflexivity. }
      eexists. split.
      * unfold V1.com_conta_nova. cbn [V1.contas]. rewrite Ec. reflexivity.
      * reflexivity.
  - unfold V1.chamar, V1.excluir_cliente.
    destruct (V1.filtrar_cliente c b) as [cl|]; [|reflexivity].
    case_decide; [|reflexivity].
    destruct (V1.remove cl (V1.clientes b)) as [cls|]; [|reflexivity].
    cbn zeta.
    destruct (V1.contas_de_outros c (V1.contas (V1.set_clientes cls b)))
      as [cs|] eqn:Hcs; [|reflexivity].
    exact (V1_contas_de_outros_sublist _ _ _ Hcs).
Qed.


Lemma elem_of_insert_casos {A : Type} (l : list A) (i : nat) (x y : A) :
  y ∈ <[i := x]> l -> y = x \/ y ∈ l.
Proof.
  intros Hy. apply list_elem_of_lookup in Hy as (j & Hj).
  apply list_lookup_insert_Some in Hj as [(-> & <- & _)|(_ & Hj)].
  - left. reflexivity.
  - right. eapply list_elem_of_lookup_2, Hj.
Qed.

(** What a run keeps of an account that has reached the limit: its number
    stays below the counter of its kind, so that no new account takes it,
    and every account of that kind and number has the counter of
    withdrawals that it had. *)
Lemma V1_no_limite_passo (ch : V1.Chamada) (b : V1.ContaBancaria)
    (tipo : V1.TipoConta) (numero saques : Z) :
  saques >= V1.limite_saques b ->
  numero < V1.proximo_numero tipo b ->
  (forall c, c ∈ V1.contas b -> V1.tipo_conta c = tipo ->
             V1.numero_conta c = numero -> V1.get_saques_diarios c = saques) ->
  V1.limite_saques (V1.chamar ch b) = V1.limite_saques b
  /\ numero < V1.proximo_numero tipo (V1.chamar ch b)
  /\ (forall c, c ∈ V1.contas (V1.chamar ch b) -> V1.tipo_conta c = tipo ->
                V1.numero_conta c = numero -> V1.get_saques_diarios c = saques).
Proof.
  intros Hn Hp Hc.
  destruct (V1_chamar_passo ch b)
    as (_ & E2 & _ &
        [(Ec & [Hs|[(i & conta & v & t & Hi & _ & Ha & E)
                   |(i & conta & v & t & Hi & _ & _ & E)]])
        |(ag & tp & cl & b1 & Eb & Ecb & E & Ec)]);
    (split; [exact E2|]); unfold V1.proximo_numero in *; rewrite Ec.
  - split; [exact Hp|]. intros c Hin. apply Hc.
    eapply elem_of_sublist; eauto.
  - split; [exact Hp|]. intros c Hin Ht Hnum. rewrite E in Hin.
    apply elem_of_insert_casos in Hin as [->|Hin]; [|apply Hc; assumption].
    exfalso. destruct Ha as (_ & _ & _ & Ha).
    pose proof (Hc conta (list_elem_of_lookup_2 _ _ _ Hi) Ht Hnum). lia.
  - split; [exact Hp|]. intros c Hin Ht Hnum. rewrite E in Hin.
    apply elem_of_insert_casos in Hin as [->|Hin]; [|apply Hc; assumption].
    exact (Hc conta (list_elem_of_lookup_2 _ _ _ Hi) Ht Hnum).
  - unfold V1.com_conta_nova, V1.conta_nova, V1.proximo_numero.
    cbn [V1.contador_contas V1.tipo_conta]. rewrite Ecb.
    split; [destruct tipo, tp; cbn [fst snd]; lia|].
    intros c Hin Ht Hnum. rewrite E in Hin.
    apply elem_of_app in Hin as [Hin|Hin]; [apply Hc; assumption|].
    apply list_elem_of_singleton in Hin. subst c. exfalso.
    cbn [V1.tipo_conta V1.numero_conta V1.conta_nova] in Ht, Hnum.
    unfold V1.proximo_numero in Hnum. rewrite Ecb in Hnum. subst tp.
    destruct tipo; lia.
Qed.

Lemma V1_no_limite_run (chs : list V1.Chamada) (b : V1.ContaBancaria)
    (tipo : V1.TipoConta) (numero saques : Z) :
  saques >= V1.limite_saques b ->
  numero < V1.proximo_numero tipo b ->
  (forall c, c ∈ V1.contas b -> V1.tipo_conta c = tipo ->
             V1.numero_conta c = numero -> V1.get_saques_diarios c = saques) ->
  V1.limite_saques (V1.chamar_todas chs b) = V1.limite_saques b
  /\ (forall c, c ∈ V1.contas (V1.chamar_todas chs b) ->
                V1.tipo_conta c = tipo -> V1.numero_conta c = numero ->
                V1.get_saques_diarios c = saques).
Proof.
  revert b. induction chs as [|ch chs IH]; intros b Hn Hp Hc; simpl.
  - split; [reflexivity | exact Hc].
  - destruct (V1_no_limite_passo ch b tipo numero saques Hn Hp Hc)
      as (E & Hp1 & Hc1).
    destruct (IH (V1.chamar ch b)) as (E1 & Hc2); try assumption.
    + rewrite E. exact Hn.
    + split; [congruence | exact Hc2].
Qed.

(** In a bank whose accounts are numbered as [criar_conta] numbers them,
    an account is the only one of its kind and number. *)
Lemma V1_numeracao_conta (b : V1.ContaBancaria) (conta : V1.Conta) :
  V1.numeracao b -> conta ∈ V1.contas b ->
  V1.numero_conta conta < V1.proximo_numero (V1.tipo_conta conta) b
  /\ (forall c, c ∈ V1.contas b -> V1.tipo_conta c = V1.tipo_conta conta ->
                V1.numero_conta c = V1.numero_conta conta -> c = conta).
Proof.
  intros (_ & _ & N3 & N4) Hin. split.
  - apply (proj1 (Forall_forall _ _) N3) in Hin.
    unfold V1.proximo_numero. destruct (V1.tipo_conta conta); lia.
  - intros c Hc Ht Hnum.
    apply list_elem_of_lookup in Hin as (i & Hi).
    apply list_elem_of_lookup in Hc as (j & Hj).
    assert (i = j) as ->.
    { apply (NoDup_lookup _ i j (V1.tipo_conta conta, V1.numero_conta conta) N4);
        rewrite list_lookup_fmap; [rewrite Hi | rewrite Hj]; simpl;
        congruence. }
    congruence.
Qed.

End Contador_de_saques_V1.

(** C8.  In both variants the number that the rule of the maximum of
    withdrawals consults only ever changes by going up by one when a
    withdrawal succeeds; no operation lowers or resets it.  Class-based
    variant: the number of withdrawals in the ledger goes up by one exactly
    when an operation on the account is a withdrawal that succeeds, and once
    it has reached the limit of a current account, every withdrawal after
    any further run of operations is refused.  Dictionary-based variant:
    [sacar] writes the counter plus one into the account it found exactly
    when its body returns [True], and changes nothing otherwise;
    [depositar] keeps every counter, [cadastrar_cliente] keeps the accounts,
    [criar_conta] at most appends an account without counter and
    [excluir_cliente] only takes accounts away.  So once the counter of an
    account has reached the limit, after any further run of calls of these
    five methods the account of that kind and number still has that
    counter, and every [sacar] that finds it is refused and leaves
    everything as it was, deposits included and whatever the clock says. *)
Theorem C8_contador_vitalicio :
  (forall (op : V2.Operacao) (c : V2.ContaBancaria),
      V2.numero_de V2.Saque (V2.extrato (V2.operar op c))
      = V2.numero_de V2.Saque (V2.extrato c)
        + (if V2.saque_bem_sucedido op c then 1 else 0))
  /\ (forall (ops : list V2.Operacao) (c : V2.ContaBancaria)
             (limite limite_saque valor : Z) (agora : string),
        V2.classe c = V2.ContaCorrente limite limite_saque ->
        V2.numero_de V2.Saque (V2.extrato c) >= limite_saque ->
        (V2.conta_sacar valor (V2.operar_todas ops c)).1
        = (false, V2.operar_todas ops c)
        /\ (V2.registrar V2.Saque valor agora (V2.operar_todas ops c)).1
           = (None, V2.operar_todas ops c))
  /\ (forall (ch : V1.Chamada) (b : V1.ContaBancaria),
        match ch with
        | V1.Sacar n v t =>
            if (V1.sacar_corpo n v t b).1.1 then
              exists i conta,
                V1.buscar_conta (V1.AGENCIA b) n b = Some (i, conta)
                /\ V1.saques_diarios <$> V1.contas (V1.chamar ch b)
                   = <[i := Some (V1.get_saques_diarios conta + 1)]>
                       (V1.saques_diarios <$> V1.contas b)
            else V1.chamar ch b = b
        | V1.Depositar _ _ _ =>
            V1.saques_diarios <$> V1.contas (V1.chamar ch b)
            = V1.saques_diarios <$> V1.contas b
        | V1.Cadastrar _ => V1.contas (V1.chamar ch b) = V1.contas b
        | V1.Criar_conta _ _ _ _ _ =>
            V1.contas (V1.chamar ch b) = V1.contas b
            \/ exists conta,
                 V1.contas (V1.chamar ch b) = V1.contas b ++ [conta]
                 /\ V1.saques_diarios conta = None
        | V1.Excluir _ _ =>
            V1.contas (V1.chamar ch b) `sublist_of` V1.contas b
        end)
  /\ (forall (chs : list V1.Chamada) (b : V1.ContaBancaria)
             (conta conta1 : V1.Conta) (i : nat) (n : string) (valor : Z)
             (agora : string),
        V1.numeracao b ->
        conta ∈ V1.contas b ->
        V1.get_saques_diarios conta >= V1.limite_saques b ->
        V1.buscar_conta (V1.AGENCIA (V1.chamar_todas chs b)) n
                        (V1.chamar_todas chs b)
        = Some (i, conta1) ->
        V1.tipo_conta conta1 = V1.tipo_conta conta ->
        V1.numero_conta conta1 = V1.numero_conta conta ->
        V1.get_saques_diarios conta1 = V1.get_saques_diarios conta
        /\ exists m,
            V1.sacar_corpo n valor agora (V1.chamar_todas chs b)
            = (false, V1.chamar_todas chs b, [m])
            /\ V1.sacar n valor agora (V1.chamar_todas chs b)
               = (V1.chamar_todas chs b, [m])
            /\ m <> Operacao_realizada).
Proof.
  split; [|split; [|split]].
  - intros op c. apply V2_operar_passo.
  - intros ops c limite limite_saque valor agora Hc Hn.
    destruct (V2_no_limite_para_sempre ops c limite limite_saque Hc Hn)
      as (H1 & H2 & _).
    apply (V2_no_limite_recusa _ limite limite_saque H1). lia.
  - intros ch b. pose proof (V1_chamar_contador ch b) as H.
    destruct ch; try exact H.
    destruct (V1.sacar_corpo _ _ _ b).1.1; [|exact H].
    destruct H as (i & conta & Hb & Hc & Hs).
    exists i, conta. split; [exact Hb|].
    rewrite Hc, list_fmap_insert, Hs. reflexivity.
  - intros chs b conta conta1 i n valor agora Hnum Hin Hn Hb Ht Hnc.
    destruct (V1_numeracao_conta b conta Hnum Hin) as [Hp Hu].
    destruct (V1_no_limite_run chs b (V1.tipo_conta conta)
                (V1.numero_conta conta) (V1.get_saques_diarios conta) Hn Hp)
      as (Els & Hc).
    { intros c Hc Htc Hnc'. rewrite (Hu c Hc Htc Hnc'). reflexivity. }
    pose proof (V1_buscar_conta_lookup _ _ _ _ _ Hb) as Hl.
    pose proof (Hc conta1 (list_elem_of_lookup_2 _ _ _ Hl) Ht Hnc) as Hs.
    split; [exact Hs|].
    unfold V1.sacar, V1.log_transacao, V1.sacar_corpo. rewrite Hb.
    repeat case_decide;
      try (eexists; split; [reflexivity | split; [reflexivity | discriminate]]).
    lia.
Qed.

(** The current account with three withdrawals, after a deposit of 1000
    and a direct deposit of 50; the account of the other variant with three
    withdrawals, after a deposit of 500, the opening of a savings account
    and a withdrawal attempted on it. *)
Lemma C8_testemunha :
  (V2.classe Exemplos.corrente_tres_saques = V2.ContaCorrente 500 3
   /\ V2.numero_de V2.Saque (V2.extrato Exemplos.corrente_tres_saques) >= 3
   /\ (V2.registrar V2.Saque 10 "02/04/2025 09:00:00"
         (V2.operar_todas [V2.Op_registrar (Exemplos.dep 1000); V2.Op_depositar 50]
                          Exemplos.corrente_tres_saques)).1
      = (None,
         V2.operar_todas [V2.Op_registrar (Exemplos.dep 1000); V2.Op_depositar 50]
                         Exemplos.corrente_tres_saques))
  /\ (V1.numeracao Exemplos.banco_v1_tres_saques
      /\ V1.mkConta "0001" 1000 (Some Exemplos.maria) V1.corrente 700
           [V1.mkLinha "t1" V1.Deposito 500; V1.mkLinha "t2" V1.Deposito 500;
            V1.mkLinha "t3" V1.Saque 100; V1.mkLinha "t4" V1.Saque 100;
            V1.mkLinha "t5" V1.Saque 100] (Some 3)
         ∈ V1.contas Exemplos.banco_v1_tres_saques
      /\ 3 >= V1.limite_saques Exemplos.banco_v1_tres_saques
      /\ exists m,
          V1.sacar "1000" 10 "t8"
            (V1.chamar_todas
               [V1.Depositar "1000" 500 "t6";
                V1.Criar_conta "0001" "p" "12345678900" "" Exemplos.maria;
                V1.Sacar "5000" 10 "t7"]
               Exemplos.banco_v1_tres_saques)
          = (V1.chamar_todas
               [V1.Depositar "1000" 500 "t6";
                V1.Criar_conta "0001" "p" "12345678900" "" Exemplos.maria;
                V1.Sacar "5000" 10 "t7"]
               Exemplos.banco_v1_tres_saques, [m])
          /\ m <> Operacao_realizada).
Proof.
  split.
  - split; [reflexivity|]. split; [vm_compute; discriminate|].
    apply (proj1 (proj2 C8_contador_vitalicio)
             [V2.Op_registrar (Exemplos.dep 1000); V2.Op_depositar 50]
             Exemplos.corrente_tres_saques 500 3 10 "02/04/2025 09:00:00"
             eq_refl).
    vm_compute; discriminate.
  - assert (V1.numeracao Exemplos.banco_v1_tres_saques) as Hnum.
    { unfold V1.numeracao. vm_compute.
      repeat split; try discriminate.
      - repeat constructor; discriminate.
      - apply NoDup_singleton. }
    assert (V1.mkConta "0001" 1000 (Some Exemplos.maria) V1.corrente 700
              [V1.mkLinha "t1" V1.Deposito 500; V1.mkLinha "t2" V1.Deposito 500;
               V1.mkLinha "t3" V1.Saque 100; V1.mkLinha "t4" V1.Saque 100;
               V1.mkLinha "t5" V1.Saque 100] (Some 3)
            ∈ V1.contas Exemplos.banco_v1_tres_saques) as Hin.
    { vm_compute. apply list_elem_of_here. }
    split; [exact Hnum|]. split; [exact Hin|].
    split; [vm_compute; discriminate|].
    destruct (proj2 (proj2 (proj2 C8_contador_vitalicio))
                [V1.Depositar "1000" 500 "t6";
                 V1.Criar_conta "0001" "p" "12345678900" "" Exemplos.maria;
                 V1.Sacar "5000" 10 "t7"]
                Exemplos.banco_v1_tres_saques _ _ 0%nat "1000" 10 "t8"
                Hnum Hin ltac:(vm_compute; discriminate) eq_refl eq_refl eq_refl)
      as (_ & m & _ & E & Hm).
    exists m. split; [exact E | exact Hm].
Defined.
